(** * go-novu: the workflow service ([lib/workflows.go])

    A shallow embedding of [WorkflowService] and of the parts of Go's
    standard library its six methods run through ([net/url], [path],
    [strconv]), followed by the properties of the requests the service
    hands to the transport.

    Go strings are byte strings: they are modelled by [string], whose
    characters ([ascii]) are exactly the 256 byte values.  The library
    functions follow the Go sources of releases 1.20 to 1.24, function by
    function and under their Go names. *)

From Stdlib Require Import ZArith Ascii String List Bool Lia.
From stdpp Require Import base option strings gmap sorting.
Import ListNotations.

Local Open Scope string_scope.
Local Open Scope Z_scope.
Local Open Scope list_scope.

(** ** Bytes *)

Module Char.

Definition code (c : ascii) : N := N_of_ascii c.

(** [lo <= c && c <= hi] on bytes. *)
Definition between (lo hi c : ascii) : bool :=
  (code lo <=? code c)%N && (code c <=? code hi)%N.

Definition eq (c d : ascii) : bool := Ascii.eqb c d.

(** The double quote, byte 0x22. *)
Definition dquote : ascii := ascii_of_N 34.

(** [c == d1 || c == d2 || ...], the shape of a Go [case d1, d2, ...]. *)
Definition one_of (ds : string) (c : ascii) : bool :=
  existsb (Ascii.eqb c) (list_ascii_of_string ds).

End Char.

(** ** Package [strings]: the helpers the code below calls *)

Module Strings.

Fixpoint HasPrefix (s p : string) : bool :=
  match p, s with
  | EmptyString, _ => true
  | String b p', String a s' => Ascii.eqb a b && HasPrefix s' p'
  | String _ _, EmptyString => false
  end.

(** The last byte of [s], if any. *)
Fixpoint last (s : string) : option ascii :=
  match s with
  | EmptyString => None
  | String c EmptyString => Some c
  | String _ r => last r
  end.

(** [HasSuffix(s, "/")]; only one-byte suffixes are asked for. *)
Definition HasSuffix1 (s : string) (c : ascii) : bool :=
  match last s with
  | Some d => Ascii.eqb d c
  | None => false
  end.

(** [Cut(s, sep)] for a one-byte separator: the text before the first
    [sep], the text after it, and whether [sep] was found. *)
Fixpoint Cut (s : string) (sep : ascii) : string * string * bool :=
  match s with
  | EmptyString => (EmptyString, EmptyString, false)
  | String c r =>
      if Ascii.eqb c sep then (EmptyString, r, true)
      else let '(before, after, found) := Cut r sep in
           (String c before, after, found)
  end.

Fixpoint Contains1 (s : string) (c : ascii) : bool :=
  match s with
  | EmptyString => false
  | String d r => Ascii.eqb d c || Contains1 r c
  end.

(** [s[1:]] *)
Definition tail (s : string) : string :=
  match s with
  | EmptyString => EmptyString
  | String _ r => r
  end.

End Strings.

(** ** Package [path] *)

Module Path.

(** The inner loop of the [..] case of [Clean]:
    [for out.w > dotdot && out.index(out.w) != '/' { out.w-- }]. *)
Fixpoint backtrack_w (out : string) (dotdot : nat) (w : nat) : nat :=
  match w with
  | O => O
  | S w' =>
      if (dotdot <? w)%nat
         && negb (match String.get w out with
                  | Some c => Char.eq c "/"
                  | None => false
                  end)
      then backtrack_w out dotdot w'
      else w
  end.

(** [out.w--] followed by the loop above; the buffer then holds its
    first [w] bytes. *)
Definition backtrack (out : string) (dotdot : nat) : string :=
  String.substring 0 (backtrack_w out dotdot (String.length out - 1)) out.

(** The main loop of [Clean], one byte of [path[r:]] at a time.  The Go
    code keeps a read index [r] and a write buffer [out] (a [lazybuf],
    which shares the input's storage as long as the output is a prefix of
    it; only its contents, the [string] [out], are modelled, with
    [out.w = length out]).  [copying] is true inside the loop that copies
    a real path element; the [/] that ends that loop is consumed here,
    as the next iteration of the outer loop does. *)
Fixpoint clean_loop (rooted copying : bool) (path : string)
    (out : string) (dotdot : nat) : string * nat :=
  match path with
  | EmptyString => (out, dotdot)
  | String c r =>
      if copying then
        if Char.eq c "/" then clean_loop rooted false r out dotdot
        else clean_loop rooted true r (out +:+ String c EmptyString) dotdot
      else if Char.eq c "/" then
        (* empty path element *)
        clean_loop rooted false r out dotdot
      else
        let real_element :=
          let out1 :=
            if rooted && negb (String.length out =? 1)%nat
               || negb rooted && negb (String.length out =? 0)%nat
            then out +:+ "/" else out in
          clean_loop rooted true r (out1 +:+ String c EmptyString) dotdot in
        if Char.eq c "." then
          match r with
          | EmptyString => (* . element *) clean_loop rooted false r out dotdot
          | String c1 r1 =>
              if Char.eq c1 "/" then (* . element *)
                clean_loop rooted false r out dotdot
              else if Char.eq c1 "."
                      && match r1 with
                         | EmptyString => true
                         | String c2 _ => Char.eq c2 "/"
                         end
              then (* .. element: remove to last / *)
                if (dotdot <? String.length out)%nat then
                  clean_loop rooted false r1 (backtrack out dotdot) dotdot
                else if negb rooted then
                  let out1 :=
                    (if (0 <? String.length out)%nat then out +:+ "/" else out)
                    +:+ ".." in
                  clean_loop rooted false r1 out1 (String.length out1)
                else clean_loop rooted false r1 out dotdot
              else real_element
          end
        else real_element
  end.

(** [Clean(path)] *)
Definition Clean (path : string) : string :=
  match path with
  | EmptyString => "."
  | String c r =>
      let rooted := Char.eq c "/" in
      let '(out, _) :=
        if rooted then clean_loop true false r "/" 1
        else clean_loop false false path "" 0 in
      if (String.length out =? 0)%nat then "." else out
  end.

(** The loop of [Join] that glues the elements with [/], skipping leading
    empty ones. *)
Fixpoint join_buf (buf : string) (elem : list string) : string :=
  match elem with
  | [] => buf
  | e :: rest =>
      if (0 <? String.length buf)%nat || negb (String.eqb e "")
      then join_buf ((if (0 <? String.length buf)%nat then buf +:+ "/" else buf) +:+ e) rest
      else join_buf buf rest
  end.

(** [Join(elem...)] *)
Definition Join (elem : list string) : string :=
  let size := fold_left (fun n e => (n + String.length e)%nat) elem 0%nat in
  if (size =? 0)%nat then "" else Clean (join_buf "" elem).

End Path.

(** ** Package [net/url] *)

Module Url.

Inductive encoding :=
| encodePath
| encodePathSegment
| encodeHost
| encodeZone
| encodeUserPassword
| encodeQueryComponent
| encodeFragment.

Definition encoding_eqb (a b : encoding) : bool :=
  match a, b with
  | encodePath, encodePath
  | encodePathSegment, encodePathSegment
  | encodeHost, encodeHost
  | encodeZone, encodeZone
  | encodeUserPassword, encodeUserPassword
  | encodeQueryComponent, encodeQueryComponent
  | encodeFragment, encodeFragment => true
  | _, _ => false
  end.

Definition ishex (c : ascii) : bool :=
  Char.between "0" "9" c || Char.between "a" "f" c || Char.between "A" "F" c.

(** [unhex(c)]; it is only called on hex digits. *)
Definition unhex (c : ascii) : N :=
  if Char.between "0" "9" c then (Char.code c - Char.code "0")%N
  else if Char.between "a" "f" c then (Char.code c - Char.code "a" + 10)%N
  else if Char.between "A" "F" c then (Char.code c - Char.code "A" + 10)%N
  else 0%N.

(** [upperhex[n]] for [n < 16]. *)
Definition upperhex (n : N) : ascii :=
  match String.get (N.to_nat n) "0123456789ABCDEF" with
  | Some c => c
  | None => "0"%char
  end.

(** [shouldEscape(c, mode)]: the three [switch] statements in order. *)
Definition shouldEscape (c : ascii) (mode : encoding) : bool :=
  if Char.between "a" "z" c || Char.between "A" "Z" c || Char.between "0" "9" c
  then false
  else if (encoding_eqb mode encodeHost || encoding_eqb mode encodeZone)
          && (Char.one_of "!$&'()*+,;=:[]<>" c || Char.eq c Char.dquote)
  then false
  else if Char.one_of "-_.~" c then false
  else if Char.one_of "$&+,/:;=?@" c
          && match mode with
             | encodePath | encodePathSegment | encodeUserPassword
             | encodeQueryComponent | encodeFragment => true
             | _ => false
             end
  then match mode with
       | encodePath => Char.eq c "?"
       | encodePathSegment => Char.one_of "/;,?" c
       | encodeUserPassword => Char.one_of "@/?:" c
       | encodeQueryComponent => true
       | _ => false
       end
  else if encoding_eqb mode encodeFragment && Char.one_of "!()*" c
  then false
  else true.

(** [escape(s, mode)].  The Go code first counts the bytes to escape and
    returns [s] itself when there are none; the second loop, modelled
    here, produces the same bytes in that case. *)
Fixpoint escape (s : string) (mode : encoding) : string :=
  match s with
  | EmptyString => EmptyString
  | String c r =>
      if Char.eq c " " && encoding_eqb mode encodeQueryComponent
      then String "+" (escape r mode)
      else if shouldEscape c mode
      then String "%"
             (String (upperhex (N.shiftr (Char.code c) 4))
                (String (upperhex (N.land (Char.code c) 15)) (escape r mode)))
      else String c (escape r mode)
  end.

(** First loop of [unescape]: every [%] is followed by two hex digits
    (and the host and zone modes restrict what may be written).  [false]
    stands for the [EscapeError] or [InvalidHostError] the Go code returns;
    the callers modelled here only test the error against [nil]. *)
Fixpoint unescape_check (s : string) (mode : encoding) : bool :=
  match s with
  | EmptyString => true
  | String c r =>
      if Char.eq c "%" then
        match r with
        | String a (String b r') =>
            let is25 := Char.eq a "2" && Char.eq b "5" in
            let v := ascii_of_N (N.lor (N.shiftl (unhex a) 4) (unhex b)) in
            ishex a && ishex b
            && negb (encoding_eqb mode encodeHost && (unhex a <? 8)%N && negb is25)
            && negb (encoding_eqb mode encodeZone
                     && negb is25 && negb (Char.eq v " ") && shouldEscape v encodeHost)
            && unescape_check r' mode
        | _ => false
        end
      else if Char.eq c "+" then unescape_check r mode
      else
        negb ((encoding_eqb mode encodeHost || encoding_eqb mode encodeZone)
              && (Char.code c <? 128)%N && shouldEscape c encodeHost)
        && unescape_check r mode
  end.

(** Second loop of [unescape].  It only runs on strings the first loop
    accepted, so a [%] always has its two digits; the branch for a
    truncated escape is never taken. *)
Fixpoint unescape_build (s : string) (mode : encoding) : string :=
  match s with
  | EmptyString => EmptyString
  | String c r =>
      if Char.eq c "%" then
        match r with
        | String a (String b r') =>
            String (ascii_of_N (N.lor (N.shiftl (unhex a) 4) (unhex b)))
              (unescape_build r' mode)
        | _ => EmptyString
        end
      else if Char.eq c "+" then
        String (if encoding_eqb mode encodeQueryComponent then " " else "+")%char
          (unescape_build r mode)
      else String c (unescape_build r mode)
  end.

(** [unescape(s, mode)]: [None] is a non-nil error. *)
Definition unescape (s : string) (mode : encoding) : option string :=
  if unescape_check s mode then Some (unescape_build s mode) else None.

Definition QueryEscape (s : string) : string := escape s encodeQueryComponent.
Definition QueryUnescape (s : string) : option string :=
  unescape s encodeQueryComponent.

(** [validEncoded(s, mode)] *)
Fixpoint validEncoded (s : string) (mode : encoding) : bool :=
  match s with
  | EmptyString => true
  | String c r =>
      (if Char.one_of "!$&'()*+,;=:@" c then true
       else if Char.one_of "[]" c then true
       else if Char.eq c "%" then true
       else negb (shouldEscape c mode))
      && validEncoded r mode
  end.

(** *** [URL] *)

(** [Userinfo]: immutable once built, so the pointer [URL.User] is
    modelled by the value it points to ([None] for [nil]). *)
Record Userinfo := {
  username : string;
  password : string;
  passwordSet : bool;
}.

Record URL := {
  Scheme : string;
  Opaque : string;
  User : option Userinfo;
  Host : string;
  Path : string;
  RawPath : string;
  OmitHost : bool;
  ForceQuery : bool;
  RawQuery : string;
  Fragment : string;
  RawFragment : string;
}.

(** [u.Path = p] and [u.RawPath = rp] on a copy of [u]. *)
Definition with_path (u : URL) (p rp : string) : URL :=
  {| Scheme := Scheme u; Opaque := Opaque u; User := User u; Host := Host u;
     Path := p; RawPath := rp;
     OmitHost := OmitHost u; ForceQuery := ForceQuery u; RawQuery := RawQuery u;
     Fragment := Fragment u; RawFragment := RawFragment u |}.

(** [u.RawQuery = q] on a copy of [u]. *)
Definition with_RawQuery (u : URL) (q : string) : URL :=
  {| Scheme := Scheme u; Opaque := Opaque u; User := User u; Host := Host u;
     Path := Path u; RawPath := RawPath u;
     OmitHost := OmitHost u; ForceQuery := ForceQuery u; RawQuery := q;
     Fragment := Fragment u; RawFragment := RawFragment u |}.

(** [Userinfo.String] *)
Definition Userinfo_String (ui : Userinfo) : string :=
  let s := escape (username ui) encodeUserPassword in
  if passwordSet ui then s +:+ ":" +:+ escape (password ui) encodeUserPassword
  else s.

(** [URL.setPath]: the updated URL and whether the error is [nil].
    On error the URL is left as it was. *)
Definition setPath (u : URL) (p : string) : URL * bool :=
  match unescape p encodePath with
  | None => (u, false)
  | Some path =>
      if String.eqb p (escape path encodePath)
      then (with_path u path "", true)
      else (with_path u path p, true)
  end.

(** [URL.EscapedPath] *)
Definition EscapedPath (u : URL) : string :=
  if negb (String.eqb (RawPath u) "") && validEncoded (RawPath u) encodePath
     && match unescape (RawPath u) encodePath with
        | Some p => String.eqb p (Path u)
        | None => false
        end
  then RawPath u
  else if String.eqb (Path u) "*" then "*"
  else escape (Path u) encodePath.

(** [URL.EscapedFragment] *)
Definition EscapedFragment (u : URL) : string :=
  if negb (String.eqb (RawFragment u) "") && validEncoded (RawFragment u) encodeFragment
     && match unescape (RawFragment u) encodeFragment with
        | Some f => String.eqb f (Fragment u)
        | None => false
        end
  then RawFragment u
  else escape (Fragment u) encodeFragment.

(** [URL.JoinPath(elem...)]: a fresh [URL] value (the Go code returns
    a pointer to a copy of [*u]); the error of [setPath] is dropped, as
    in the Go code. *)
Definition JoinPath (u : URL) (elem : list string) : URL :=
  let e0 := EscapedPath u in
  let p :=
    if negb (Strings.HasPrefix e0 "/")
    then Strings.tail (Path.Join (("/" +:+ e0) :: elem))
    else Path.Join (e0 :: elem) in
  let e0' := if negb (Strings.HasPrefix e0 "/") then "/" +:+ e0 else e0 in
  let p :=
    if Strings.HasSuffix1 (List.last elem e0') "/" && negb (Strings.HasSuffix1 p "/")
    then p +:+ "/" else p in
  fst (setPath u p).

(** *** [Values] *)

Abbreviation Values := (gmap string (list string)).

(** [v[key]], which is [nil] for a missing key. *)
Definition values_at (v : Values) (key : string) : list string :=
  default [] (v !! key).

(** The loop of [parseQuery]; each round removes at least one byte of
    [query], so [fuel] above its length is never exhausted.  The second
    component tells whether an error was recorded. *)
Fixpoint parseQuery (fuel : nat) (m : Values) (query : string) (err : bool)
    : Values * bool :=
  match fuel with
  | O => (m, err)
  | S fuel' =>
      if String.eqb query "" then (m, err)
      else
        let '(key, query', _) := Strings.Cut query "&" in
        if Strings.Contains1 key ";" then parseQuery fuel' m query' true
        else if String.eqb key "" then parseQuery fuel' m query' err
        else
          let '(key, value, _) := Strings.Cut key "=" in
          match QueryUnescape key with
          | None => parseQuery fuel' m query' true
          | Some key1 =>
              match QueryUnescape value with
              | None => parseQuery fuel' m query' true
              | Some value1 =>
                  parseQuery fuel' (<[key1 := (values_at m key1 ++ [value1])%list]> m) query' err
              end
          end
  end.

Definition ParseQuery (query : string) : Values * bool :=
  parseQuery (S (String.length query)) ∅ query false.

(** [URL.Query]: the error of [ParseQuery] is dropped. *)
Definition Query (u : URL) : Values := fst (ParseQuery (RawQuery u)).

(** [Values.Set] *)
Definition Values_Set (v : Values) (key value : string) : Values := <[key := [value]]> v.

(** [slices.Sorted(maps.Keys(v))]; [String.le] is the byte-wise
    lexicographic order, the order of Go's [<] on strings. *)
Definition sorted_keys (v : Values) : list string :=
  merge_sort String.le (map fst (map_to_list v)).

(** [Values.Encode] *)
Definition Encode (v : Values) : string :=
  if (size v =? 0)%nat then ""
  else
    fold_left
      (fun buf k =>
         let vs := values_at v k in
         let keyEscaped := QueryEscape k in
         fold_left
           (fun buf x =>
              (if (0 <? String.length buf)%nat then buf +:+ "&" else buf)
              +:+ keyEscaped +:+ "=" +:+ QueryEscape x)
           vs buf)
      (sorted_keys v) "".

(** *** [URL.String] *)

(** What [String] writes before the path: scheme and authority. *)
Definition String_authority (u : URL) : string :=
  let buf := "" in
  let buf := if negb (String.eqb (Scheme u) "") then buf +:+ Scheme u +:+ ":" else buf in
  if negb (String.eqb (Scheme u) "") || negb (String.eqb (Host u) "")
     || bool_decide (is_Some (User u))
  then
    if OmitHost u && String.eqb (Host u) "" && negb (bool_decide (is_Some (User u)))
    then buf
    else
      let buf :=
        if negb (String.eqb (Host u) "") || negb (String.eqb (Path u) "")
           || bool_decide (is_Some (User u))
        then buf +:+ "//" else buf in
      let buf :=
        match User u with
        | Some ui => buf +:+ Userinfo_String ui +:+ "@"
        | None => buf
        end in
      if negb (String.eqb (Host u) "") then buf +:+ escape (Host u) encodeHost else buf
  else buf.

(** What [String] writes up to the end of the path: the scheme and the
    opaque part, or the scheme, the authority and the path. *)
Definition String_head (u : URL) : string :=
  if negb (String.eqb (Opaque u) "")
  then (if negb (String.eqb (Scheme u) "") then Scheme u +:+ ":" else "") +:+ Opaque u
  else
    let buf := String_authority u in
    let path := EscapedPath u in
    let buf :=
      if negb (String.eqb path "") && negb (Strings.HasPrefix path "/")
         && negb (String.eqb (Host u) "")
      then buf +:+ "/" else buf in
    let buf :=
      if (String.length buf =? 0)%nat
      then
        let '(segment, _, _) := Strings.Cut path "/" in
        if Strings.Contains1 segment ":" then buf +:+ "./" else buf
      else buf in
    buf +:+ path.

(** What [String] writes for the query. *)
Definition String_query (u : URL) : string :=
  if ForceQuery u || negb (String.eqb (RawQuery u) "")
  then "?" +:+ RawQuery u else "".

(** What [String] writes for the fragment. *)
Definition String_fragment (u : URL) : string :=
  if negb (String.eqb (Fragment u) "") then "#" +:+ EscapedFragment u else "".

(** [URL.String]: the Go code appends the three parts to one buffer. *)
Definition URL_String (u : URL) : string :=
  (String_head u +:+ String_query u) +:+ String_fragment u.

End Url.

(** A parser is outside this model; this is the value [url.Parse] returns
    for [https://api.novu.co/v1]. *)
Definition novu_backend : Url.URL :=
  {| Url.Scheme := "https"; Url.Opaque := ""; Url.User := None;
     Url.Host := "api.novu.co"; Url.Path := "/v1"; Url.RawPath := "";
     Url.OmitHost := false; Url.ForceQuery := false; Url.RawQuery := "";
     Url.Fragment := ""; Url.RawFragment := "" |}.

(** ** Package [strconv] *)

Module Strconv.

(** The byte ['0' + d]. *)
Definition digit (d : Z) : ascii := ascii_of_N (48 + Z.to_N d).

(** The base-10 loop of [formatBits], writing the digits of [u] from the
    right into a buffer of [fuel] bytes (the Go buffer holds 65, more than
    any 64-bit value needs; the Go loop emits two digits per round from a
    table, with the same result). *)
Fixpoint formatBits (fuel : nat) (u : Z) (acc : string) : string :=
  match fuel with
  | O => acc
  | S fuel' =>
      if u <? 10 then String (digit u) acc
      else formatBits fuel' (u / 10) (String (digit (u mod 10)) acc)
  end.

(** [FormatInt(i, 10)]: a minus sign and the magnitude for [i < 0]. *)
Definition FormatInt10 (i : Z) : string :=
  if i <? 0 then String "-" (formatBits 65 (- i) "") else formatBits 65 i "".

(** [Itoa(i)] *)
Definition Itoa (i : Z) : string := FormatInt10 i.

(** The values of Go's [int] on the 64-bit platforms. *)
Definition is_int (i : Z) : Prop := - 2 ^ 63 <= i < 2 ^ 63.

End Strconv.

(** ** Package [net/http]: the method names *)

Module Http.
Definition MethodGet : string := "GET".
Definition MethodPost : string := "POST".
Definition MethodPut : string := "PUT".
Definition MethodDelete : string := "DELETE".
End Http.

(** ** JSON values *)

#[warnings="-register-all"]
Inductive json :=
| JNull
| JBool (b : bool)
| JString (s : string)
| JObject (members : list (string * json)).

(** ** The workflow service *)

(** Addresses of heap objects.  A pointer is an address; dereferencing
    an address that holds no object, as Go's [nil], panics. *)
Abbreviation loc := positive.

(** Modelled from the spec: the declarations of [service], [APIClient] and
    [Config] are not in [workflows.go], which only shows the access path
    [e.client.config.BackendURL] and the method [e.client.makeHTTPRequest];
    the spec has the service hold "a configured base URL" and "a handle to
    the shared transport".  Each hop of the path is a pointer. *)
Inductive object :=
| ObjURL (u : Url.URL)
| ObjConfig (BackendURL : loc)
| ObjAPIClient (config : loc)
| ObjService (client : loc).

Section WorkflowService.

(** [context.Context] values, [JsonResponse], Go [error] values, the two
    request records and the state of the network behind the transport
    are declared outside [workflows.go]; the service never looks inside
    them. *)
Context {Ctx JsonResponse Err CreateWorkflowRequest UpdateWorkflowRequest Net : Type}.

(** [JsonResponse{}] *)
Variable zeroJsonResponse : JsonResponse.

(** Modelled from the spec: the three payload types, the values of the
    [payload] argument of [makeHTTPRequest], are declared outside
    [workflows.go]; each is the envelope with the single field [Data]
    ("a wrapper object with one field, data").  [Data] of the create
    payload points to the method's own copy of the record; [Data] of the
    update payload is the caller's pointer, which may be [nil]. *)
Inductive Payload :=
| WorkflowCreatePayload (Data : CreateWorkflowRequest)
| WorkflowUpdatePayload (Data : option UpdateWorkflowRequest)
| WorkflowStatusUpdatePayload (Active : bool)
| NoBody.

(** One call of the transport, as the transport sees it. *)
Record Request := {
  req_ctx : Ctx;
  req_method : string;
  req_url : string;
  req_payload : Payload;
}.

(** Modelled from the spec: [makeHTTPRequest] is declared outside
    [workflows.go]; it is "a transport function accepting
    (context, method, url, body) -> (response, error) that performs the
    actual network I/O".  Its answer may depend on, and change, the
    state of the network; [None] is the [nil] error. *)
Variable transport : Request -> Net -> (JsonResponse * option Err) * Net.

(** The heap, the network, and the calls the transport has received. *)
Record World := {
  heap : gmap loc object;
  net : Net;
  calls : list Request;
}.

(** *** Computations: state passing, [None] for a run-time panic *)

Definition M (A : Type) : Type := World -> option (A * World).

Definition ret {A} (a : A) : M A := fun w => Some (a, w).

Definition bind {A B} (m : M A) (k : A -> M B) : M B :=
  fun w => match m w with
           | Some (a, w') => k a w'
           | None => None
           end.

Definition panic {A} : M A := fun _ => None.

Notation "x <- m ;; k" := (bind m (fun x => k))
  (at level 100, m at next level, right associativity).

Definition load (l : loc) : M object :=
  fun w => match heap w !! l with
           | Some o => Some (o, w)
           | None => None
           end.

Definition store (l : loc) (o : object) : M unit :=
  fun w => Some (tt, {| heap := <[l := o]> (heap w); net := net w; calls := calls w |}).

(** A new object at an address the heap does not use. *)
Definition alloc (o : object) : M loc :=
  fun w => let l := fresh (dom (heap w)) in
           Some (l, {| heap := <[l := o]> (heap w); net := net w; calls := calls w |}).

Definition load_URL (l : loc) : M Url.URL :=
  o <- load l;; match o with ObjURL u => ret u | _ => panic end.
Definition load_Config (l : loc) : M loc :=
  o <- load l;; match o with ObjConfig b => ret b | _ => panic end.
Definition load_APIClient (l : loc) : M loc :=
  o <- load l;; match o with ObjAPIClient c => ret c | _ => panic end.
Definition load_Service (l : loc) : M loc :=
  o <- load l;; match o with ObjService c => ret c | _ => panic end.

(** [e.client] and [e.client.config.BackendURL] *)
Definition e_client (e : loc) : M loc := load_Service e.
Definition e_client_config_BackendURL (e : loc) : M loc :=
  client <- e_client e;;
  config <- load_APIClient client;;
  load_Config config.

(** [u.JoinPath(elem...)] on pointers: the result is a pointer to a new
    [URL]. *)
Definition ptr_JoinPath (u : loc) (elem : list string) : M loc :=
  v <- load_URL u;; alloc (ObjURL (Url.JoinPath v elem)).

(** [u.Query()], [u.RawQuery = q] and [u.String()] on pointers. *)
Definition ptr_Query (u : loc) : M Url.Values :=
  v <- load_URL u;; ret (Url.Query v).
Definition ptr_set_RawQuery (u : loc) (q : string) : M unit :=
  v <- load_URL u;; store u (ObjURL (Url.with_RawQuery v q)).
Definition ptr_String (u : loc) : M string :=
  v <- load_URL u;; ret (Url.URL_String v).

(** [client.makeHTTPRequest(ctx, method, url, payload)] *)
Definition makeHTTPRequest (client : loc) (ctx : Ctx) (method url : string)
    (payload : Payload) : M (JsonResponse * option Err) :=
  fun w =>
    let rq := {| req_ctx := ctx; req_method := method; req_url := url;
                 req_payload := payload |} in
    let '(answer, n) := transport rq (net w) in
    Some (answer, {| heap := heap w; net := n; calls := calls w ++ [rq] |}).

(** *** The six methods *)

Definition CreateWorkflow (e : loc) (ctx : Ctx) (workflow : CreateWorkflowRequest)
    : M (JsonResponse * option Err) :=
  b <- e_client_config_BackendURL e;;
  URL <- ptr_JoinPath b ["workflows"];;
  let payload := WorkflowCreatePayload workflow in
  client <- e_client e;;
  s <- ptr_String URL;;
  answer <- makeHTTPRequest client ctx Http.MethodPost s payload;;
  let '(resp, err) := answer in
  match err with
  | Some err => ret (zeroJsonResponse, Some err)
  | None => ret (resp, None)
  end.

Definition UpdateWorkflow (e : loc) (ctx : Ctx) (identifier : string)
    (workflow : option UpdateWorkflowRequest) : M (JsonResponse * option Err) :=
  b <- e_client_config_BackendURL e;;
  URL <- ptr_JoinPath b ["workflows"; identifier];;
  let payload := WorkflowUpdatePayload workflow in
  client <- e_client e;;
  s <- ptr_String URL;;
  answer <- makeHTTPRequest client ctx Http.MethodPut s payload;;
  let '(resp, err) := answer in
  match err with
  | Some err => ret (resp, Some err)
  | None => ret (resp, None)
  end.

Definition UpdateWorkflowStatus (e : loc) (ctx : Ctx) (identifier : string)
    (status : bool) : M (JsonResponse * option Err) :=
  b <- e_client_config_BackendURL e;;
  URL <- ptr_JoinPath b ["workflows"; identifier];;
  let payload := WorkflowStatusUpdatePayload status in
  client <- e_client e;;
  s <- ptr_String URL;;
  answer <- makeHTTPRequest client ctx Http.MethodPut s payload;;
  let '(resp, err) := answer in
  match err with
  | Some err => ret (resp, Some err)
  | None => ret (resp, None)
  end.

Definition GetWorkflows (e : loc) (ctx : Ctx) (page limit : Z)
    : M (JsonResponse * option Err) :=
  b <- e_client_config_BackendURL e;;
  URL <- ptr_JoinPath b ["workflows"];;
  v <- ptr_Query URL;;
  let v := Url.Values_Set v "page" (Strconv.Itoa page) in
  let v := Url.Values_Set v "limit" (Strconv.Itoa limit) in
  _ <- ptr_set_RawQuery URL (Url.Encode v);;
  client <- e_client e;;
  s <- ptr_String URL;;
  answer <- makeHTTPRequest client ctx Http.MethodGet s NoBody;;
  let '(resp, err) := answer in
  match err with
  | Some err => ret (resp, Some err)
  | None => ret (resp, None)
  end.

Definition GetTenant (e : loc) (ctx : Ctx) (identifier : string)
    : M (JsonResponse * option Err) :=
  b <- e_client_config_BackendURL e;;
  URL <- ptr_JoinPath b ["workflows"; identifier];;
  client <- e_client e;;
  s <- ptr_String URL;;
  answer <- makeHTTPRequest client ctx Http.MethodGet s NoBody;;
  let '(resp, err) := answer in
  match err with
  | Some err => ret (resp, Some err)
  | None => ret (resp, None)
  end.

Definition DeleteWorkflow (e : loc) (ctx : Ctx) (identifier : string)
    : M (JsonResponse * option Err) :=
  b <- e_client_config_BackendURL e;;
  URL <- ptr_JoinPath b ["workflows"; identifier];;
  client <- e_client e;;
  s <- ptr_String URL;;
  answer <- makeHTTPRequest client ctx Http.MethodDelete s NoBody;;
  let '(resp, err) := answer in
  match err with
  | Some err => ret (resp, Some err)
  | None => ret (resp, None)
  end.

(** *** Calls of the service, as data *)

Inductive Call :=
| CallCreateWorkflow (ctx : Ctx) (workflow : CreateWorkflowRequest)
| CallUpdateWorkflow (ctx : Ctx) (identifier : string)
    (workflow : option UpdateWorkflowRequest)
| CallUpdateWorkflowStatus (ctx : Ctx) (identifier : string) (status : bool)
| CallGetWorkflows (ctx : Ctx) (page limit : Z)
| CallGetTenant (ctx : Ctx) (identifier : string)
| CallDeleteWorkflow (ctx : Ctx) (identifier : string).

(** Running a call on the service at [e]. *)
Definition perform (e : loc) (c : Call) : M (JsonResponse * option Err) :=
  match c with
  | CallCreateWorkflow ctx workflow => CreateWorkflow e ctx workflow
  | CallUpdateWorkflow ctx identifier workflow => UpdateWorkflow e ctx identifier workflow
  | CallUpdateWorkflowStatus ctx identifier status =>
      UpdateWorkflowStatus e ctx identifier status
  | CallGetWorkflows ctx page limit => GetWorkflows e ctx page limit
  | CallGetTenant ctx identifier => GetTenant e ctx identifier
  | CallDeleteWorkflow ctx identifier => DeleteWorkflow e ctx identifier
  end.

Definition call_ctx (c : Call) : Ctx :=
  match c with
  | CallCreateWorkflow ctx _ | CallUpdateWorkflow ctx _ _
  | CallUpdateWorkflowStatus ctx _ _ | CallGetWorkflows ctx _ _
  | CallGetTenant ctx _ | CallDeleteWorkflow ctx _ => ctx
  end.

(** *** Reading a call off the configuration *)

(** The service at [e] is set up: [e.client.config.BackendURL] leads
    through live objects to the URL [base], stored at [b]. *)
Definition service_at (w : World) (e b : loc) (base : Url.URL) : Prop :=
  exists client config,
    heap w !! e = Some (ObjService client)
    /\ heap w !! client = Some (ObjAPIClient config)
    /\ heap w !! config = Some (ObjConfig b)
    /\ heap w !! b = Some (ObjURL base).

(** The executable form of [service_at]. *)
Definition configured (w : World) (e : loc) : option Url.URL :=
  match heap w !! e with
  | Some (ObjService client) =>
      match heap w !! client with
      | Some (ObjAPIClient config) =>
          match heap w !! config with
          | Some (ObjConfig b) =>
              match heap w !! b with
              | Some (ObjURL base) => Some base
              | _ => None
              end
          | _ => None
          end
      | _ => None
      end
  | _ => None
  end.

(** What each call asks of the transport, given the configured URL. *)
Definition call_method (c : Call) : string :=
  match c with
  | CallCreateWorkflow _ _ => Http.MethodPost
  | CallUpdateWorkflow _ _ _ | CallUpdateWorkflowStatus _ _ _ => Http.MethodPut
  | CallGetWorkflows _ _ _ | CallGetTenant _ _ => Http.MethodGet
  | CallDeleteWorkflow _ _ => Http.MethodDelete
  end.

Definition call_payload (c : Call) : Payload :=
  match c with
  | CallCreateWorkflow _ workflow => WorkflowCreatePayload workflow
  | CallUpdateWorkflow _ _ workflow => WorkflowUpdatePayload workflow
  | CallUpdateWorkflowStatus _ _ status => WorkflowStatusUpdatePayload status
  | CallGetWorkflows _ _ _ | CallGetTenant _ _ | CallDeleteWorkflow _ _ => NoBody
  end.

(** The URL value a call builds and prints. *)
Definition call_URL (base : Url.URL) (c : Call) : Url.URL :=
  match c with
  | CallCreateWorkflow _ _ => Url.JoinPath base ["workflows"]
  | CallUpdateWorkflow _ identifier _ | CallUpdateWorkflowStatus _ identifier _
  | CallGetTenant _ identifier | CallDeleteWorkflow _ identifier =>
      Url.JoinPath base ["workflows"; identifier]
  | CallGetWorkflows _ page limit =>
      let URL := Url.JoinPath base ["workflows"] in
      let v := Url.Query URL in
      let v := Url.Values_Set v "page" (Strconv.Itoa page) in
      let v := Url.Values_Set v "limit" (Strconv.Itoa limit) in
      Url.with_RawQuery URL (Url.Encode v)
  end.

Definition call_request (base : Url.URL) (c : Call) : Request :=
  {| req_ctx := call_ctx c; req_method := call_method c;
     req_url := Url.URL_String (call_URL base c); req_payload := call_payload c |}.

(** What a call returns for an answer of the transport. *)
Definition call_result (c : Call) (answer : JsonResponse * option Err)
    : JsonResponse * option Err :=
  match c, answer with
  | CallCreateWorkflow _ _, (_, Some err) => (zeroJsonResponse, Some err)
  | _, _ => answer
  end.

End WorkflowService.

(** ** Vocabulary of the statements *)

Section Vocabulary.

Import Url.

(** A path element that [Clean] keeps as it is: not empty, without [/],
    and neither [.] nor [..]. *)
Definition plain_segment (s : string) : bool :=
  negb (String.eqb s "") && negb (Strings.Contains1 s "/")
  && negb (String.eqb s ".") && negb (String.eqb s "..").

(** Well-formed escaping: every [%] has its two hex digits. *)
Definition well_escaped (s : string) : Prop :=
  unescape_check s encodePath = true.

(** A cleaned rooted path as a directory: with a [/] at its end. *)
Definition dir_of (cleaned : string) : string :=
  if (String.length cleaned =? 1)%nat then cleaned else cleaned +:+ "/".

(** [elem[0]] of [JoinPath]: the escaped path, rooted. *)
Definition rooted_EscapedPath (u : URL) : string :=
  if Strings.HasPrefix (EscapedPath u) "/" then EscapedPath u
  else "/" +:+ EscapedPath u.

(** The escaped path of the base URL as [JoinPath] normalises it, as a
    directory: cleaned, with a [/] at its end, and relative (without the
    leading [/]) when the base path is. *)
Definition base_prefix (u : URL) : string :=
  let dir := dir_of (Path.Clean (rooted_EscapedPath u)) in
  if Strings.HasPrefix (EscapedPath u) "/" then dir else Strings.tail dir.

(** The same directory, decoded. *)
Definition base_dir (u : URL) : string :=
  unescape_build (base_prefix u) encodePath.

(** Identifiers that [JoinPath] takes as one literal segment. *)
Definition plain_identifier (id : string) : bool :=
  plain_segment id && negb (Strings.Contains1 id "%").

(** Empty, or ending in [/]. *)
Definition dir_like (s : string) : Prop := s = "" \/ exists d, s = d +:+ "/".

(** Every byte of [s] satisfies [P]. *)
Fixpoint all_bytes (P : ascii -> bool) (s : string) : bool :=
  match s with
  | EmptyString => true
  | String c r => P c && all_bytes P r
  end.

(** The decimal digits. *)
Definition is_digit (c : ascii) : bool := Char.between "0" "9" c.

(** Reading a string of digits as a number in base ten, from the value
    [acc] of the digits already read. *)
Fixpoint decimal_value (s : string) (acc : Z) : Z :=
  match s with
  | EmptyString => acc
  | String c r => decimal_value r (acc * 10 + (Z.of_N (Char.code c) - 48))
  end.

(** Bytes that [QueryEscape] leaves alone. *)
Definition query_plain (s : string) : bool :=
  all_bytes (fun c => negb (shouldEscape c encodeQueryComponent)) s.

(** The bytes an encoded path may hold as they are: letters, digits and
    the punctuation listed; [url.validEncoded] accepts these in a path
    and no others.  Every other byte can only stand in a path as a
    percent escape. *)
Definition path_byte (c : ascii) : bool :=
  Char.between "a" "z" c || Char.between "A" "Z" c || Char.between "0" "9" c
  || Char.one_of "-_.~$&+,/:;=@!'()*[]%" c.

(** Texts that can stand in a path as they are written. *)
Definition path_text (s : string) : bool := all_bytes path_byte s.

(** The [/] that [URL.String] writes between the host and a path that
    is not empty and does not start with one. *)
Definition path_slash (path : string) : string :=
  if String.eqb path "" || Strings.HasPrefix path "/" then "" else "/".

(** The numeral of a natural number as [Itoa] writes it: decimal digits,
    at least one, and no [0] in front of another digit. *)
Definition decimal_numeral (s : string) (n : Z) : Prop :=
  all_bytes is_digit s = true /\ s <> ""
  /\ (Strings.HasPrefix s "0" = true -> s = "0")
  /\ decimal_value s 0 = n.

End Vocabulary.

(** [strings.HasSuffix] *)
Definition HasSuffix (s suffix : string) : bool :=
  (String.length suffix <=? String.length s)%nat
  && String.eqb
       (String.substring (String.length s - String.length suffix)
          (String.length suffix) s)
       suffix.

(** Modelled from the spec: the JSON encoding of the payloads happens in
    the transport, outside [workflows.go]; the spec gives the bodies as
    [{"data": <record>}] and [{"data": {"active": bool}}], and none for
    [http.NoBody].  The encodings of the two request records are
    parameters; a [nil] record pointer is JSON [null]. *)
Definition marshal {CreateWorkflowRequest UpdateWorkflowRequest : Type}
    (marshalCreate : CreateWorkflowRequest -> json)
    (marshalUpdate : UpdateWorkflowRequest -> json)
    (p : @Payload CreateWorkflowRequest UpdateWorkflowRequest) : option json :=
  match p with
  | WorkflowCreatePayload Data => Some (JObject [("data", marshalCreate Data)])
  | WorkflowUpdatePayload Data =>
      Some (JObject [("data", match Data with
                              | Some r => marshalUpdate r
                              | None => JNull
                              end)])
  | WorkflowStatusUpdatePayload Active =>
      Some (JObject [("data", JObject [("active", JBool Active)])])
  | NoBody => None
  end.

(** The identifier argument of a call, if it takes one. *)
Definition call_identifier {Ctx CreateWorkflowRequest UpdateWorkflowRequest : Type}
    (c : @Call Ctx CreateWorkflowRequest UpdateWorkflowRequest) : option string :=
  match c with
  | CallUpdateWorkflow _ identifier _ | CallUpdateWorkflowStatus _ identifier _
  | CallGetTenant _ identifier | CallDeleteWorkflow _ identifier => Some identifier
  | CallCreateWorkflow _ _ | CallGetWorkflows _ _ _ => None
  end.

(** ** A small instance to run the service on

    Contexts, responses and errors are strings, a request record is its
    own JSON value, and the network counts the calls it has served. *)

Module Demo.

Abbreviation Request := (@Request string json json).
Abbreviation World := (@World string json json nat).
Abbreviation Call := (@Call string json json).

(** A transport that answers every call. *)
Definition up (rq : Request) (n : nat) : (string * option string) * nat :=
  (("ok", None), S n).

(** A transport that fails every call after reading part of an answer. *)
Definition down (rq : Request) (n : nat) : (string * option string) * nat :=
  (("partial", Some "connection refused"), S n).

(** The service at address 1, configured with [base] at address 4. *)
Definition world (base : Url.URL) : World :=
  {| heap := <[1%positive := ObjService 2]>
               (<[2%positive := ObjAPIClient 3]>
                  (<[3%positive := ObjConfig 4]>
                     (<[4%positive := ObjURL base]> ∅)));
     net := 0%nat;
     calls := [] |}.

Definition run (transport : Request -> nat -> (string * option string) * nat)
    (base : Url.URL) (c : Call) : option ((string * option string) * World) :=
  perform "" transport 1%positive c (world base).

(** The requests the transport has received after one call. *)
Definition requests (base : Url.URL) (c : Call) : option (list Request) :=
  match run up base c with
  | Some (_, w) => Some (calls w)
  | None => None
  end.

(** [https://api.novu.co/v1?tenant=acme] *)
Definition backend_with_query : Url.URL := Url.with_RawQuery novu_backend "tenant=acme".

(** The value [url.Parse] returns for [https:api.novu.co/v1], where the
    two slashes after the scheme are missing: what follows the scheme is
    the opaque part. *)
Definition opaque_backend : Url.URL :=
  {| Url.Scheme := "https"; Url.Opaque := "api.novu.co/v1"; Url.User := None;
     Url.Host := ""; Url.Path := ""; Url.RawPath := "";
     Url.OmitHost := false; Url.ForceQuery := false; Url.RawQuery := "";
     Url.Fragment := ""; Url.RawFragment := "" |}.

End Demo.

(** ** Several calls in a row *)

Section Runs.

Context {Ctx JsonResponse Err CreateWorkflowRequest UpdateWorkflowRequest Net : Type}.
Variable zeroJsonResponse : JsonResponse.
Variable transport :
  @Request Ctx CreateWorkflowRequest UpdateWorkflowRequest ->
  Net -> (JsonResponse * option Err) * Net.

(** The calls [cs] made one after the other on the service at [e], as
    the code of a caller makes them; the results come in the order of the
    calls. *)
Fixpoint perform_all (e : loc)
    (cs : list (@Call Ctx CreateWorkflowRequest UpdateWorkflowRequest))
    : @M Ctx CreateWorkflowRequest UpdateWorkflowRequest Net
        (list (JsonResponse * option Err)) :=
  match cs with
  | [] => ret []
  | c :: cs' =>
      bind (perform zeroJsonResponse transport e c)
        (fun r => bind (perform_all e cs') (fun rs => ret (r :: rs)))
  end.

(** One call alone, from any world where the service is configured
    with [base], hands the transport the request [rq]. *)
Definition issues (base : Url.URL)
    (c : @Call Ctx CreateWorkflowRequest UpdateWorkflowRequest)
    (rq : @Request Ctx CreateWorkflowRequest UpdateWorkflowRequest) : Prop :=
  forall (w0 : @World Ctx CreateWorkflowRequest UpdateWorkflowRequest Net) (e0 : loc),
    configured w0 e0 = Some base ->
    exists r0 w0',
      perform zeroJsonResponse transport e0 c w0 = Some (r0, w0')
      /\ calls w0' = calls w0 ++ [rq].

End Runs.

(** ** A call up to the transport *)

Section BeforeTheTransport.

Context {Ctx CreateWorkflowRequest UpdateWorkflowRequest Net : Type}.

Local Abbreviation M := (@M Ctx CreateWorkflowRequest UpdateWorkflowRequest Net).
Local Abbreviation Request := (@Request Ctx CreateWorkflowRequest UpdateWorkflowRequest).

Local Notation "x <- m ;; k" := (bind m (fun x => k))
  (at level 100, m at next level, right associativity).



End BeforeTheTransport.

(** ** The pairs of a query string *)

Section QueryPairs.

Import Url.

(** [m[key] = append(m[key], value)], the last statement of the loop of
    [parseQuery]. *)
Definition add_pair (m : Values) (p : string * string) : Values :=
  <[fst p := values_at m (fst p) ++ [snd p]]> m.

(** The pairs [Encode] writes for the keys [ks], in its order: the keys
    as they come, the values of a key as they stand in the map. *)
Definition pairs_of (v : Values) (ks : list string) : list (string * string) :=
  flat_map (fun k => map (pair k) (values_at v k)) ks.

(** One pair as [Encode] writes it. *)
Definition pair_text (p : string * string) : string :=
  QueryEscape (fst p) +:+ "=" +:+ QueryEscape (snd p).

(** Further pairs, each after a [&]. *)
Fixpoint amp_tail (ps : list (string * string)) : string :=
  match ps with
  | [] => ""
  | p :: ps' => "&" +:+ pair_text p +:+ amp_tail ps'
  end.

(** The text of a list of pairs: the pairs with a [&] between them. *)
Definition pairs_text (ps : list (string * string)) : string :=
  match ps with
  | [] => ""
  | p :: ps' => pair_text p +:+ amp_tail ps'
  end.

(** The body of the inner loop of [Encode], on a pair. *)
Definition encode_step (buf : string) (p : string * string) : string :=
  (if (0 <? String.length buf)%nat then buf +:+ "&" else buf) +:+ pair_text p.

(** No key of the map has an empty list of values. *)
Definition no_empty_values (v : Values) : Prop :=
  forall k, v !! k <> Some [].

End QueryPairs.

(** * Properties *)

(** Case analysis on the 256 values of a byte. *)
Ltac byte_cases c := destruct c as [[] [] [] [] [] [] [] []].

(** ** The library functions on examples *)

Example Clean_examples :
  map Path.Clean ["/v1/workflows/wf_123"; "/v1//workflows/./x/"; "/v1/workflows/..";
                  "/../a"; "a/../../b"; ""; "/"; "/v1/workflows/a/../../.."; "abc/.."]
  = ["/v1/workflows/wf_123"; "/v1/workflows/x"; "/v1"; "/a"; "../b"; "."; "/"; "/"; "."].
Proof. reflexivity. Qed.

(** The examples of the documentation of [path.Clean] and [path.Join]. *)
Example Clean_documented :
  map Path.Clean ["a/c"; "a//c"; "a/c/."; "a/c/b/.."; "/../a/c"; "/../a/b/../././/c"; ""]
  = ["a/c"; "a/c"; "a/c"; "a/c"; "/a/c"; "/a/c"; "."].
Proof. reflexivity. Qed.

Example Join_documented :
  map Path.Join [["a"; "b"; "c"]; ["a"; "b/c"]; ["a/b"; "c"]; ["a/b"; "../../../xyz"];
                 [""; ""]; ["a"; ""]; [""; "a"]]
  = ["a/b/c"; "a/b/c"; "a/b/c"; "../xyz"; ""; "a"; "a"].
Proof. reflexivity. Qed.

(** The examples of the documentation of [QueryEscape], [Values.Encode]
    and [ParseQuery]. *)
Example QueryEscape_documented :
  Url.QueryEscape "my/cool+blog&about,stuff" = "my%2Fcool%2Bblog%26about%2Cstuff"
  /\ Url.QueryUnescape "my%2Fcool%2Bblog%26about%2Cstuff" = Some "my/cool+blog&about,stuff"
  /\ Url.escape "my/cool+blog&about,stuff" Url.encodePathSegment
     = "my%2Fcool+blog&about%2Cstuff".
Proof. repeat split. Qed.

Example Encode_documented :
  Url.Encode (<["friend" := ["Jess"; "Sarah"; "Zoe"]]> (Url.Values_Set ∅ "name" "Ava"))
  = "friend=Jess&friend=Sarah&friend=Zoe&name=Ava".
Proof. vm_compute. reflexivity. Qed.

Example ParseQuery_documented :
  Url.ParseQuery "x=1&y=2&y=3"
  = (<["y" := ["2"; "3"]]> (<["x" := ["1"]]> ∅), false)
  /\ snd (Url.ParseQuery "x=1&y=2&y=3;z") = true.
Proof. split; vm_compute; reflexivity. Qed.

(** [JoinPath] on bases other than the demo one: a path to climb out of,
    no path at all, and a path with an escaped [/]. *)
Example JoinPath_other_bases :
  let base p rp := Url.with_path novu_backend p rp in
  map (fun '(u, elem) => Url.URL_String (Url.JoinPath u elem))
      [(base "/a/b/c" "", ["../../../go"]);
       (base "" "", ["go"]);
       (base "" "", []);
       (base "/" "", ["./go"]);
       (base "//" "", ["/go"; "a"; "b"; "c"]);
       (base "" "", ["go//"]);
       (base "/a/b" "/a%2fb", ["c"]);
       (base "/a/b" "/a%2fb", ["c%2fd"])]
  = ["https://api.novu.co/go";
     "https://api.novu.co/go";
     "https://api.novu.co/";
     "https://api.novu.co/go";
     "https://api.novu.co/go/a/b/c";
     "https://api.novu.co/go/";
     "https://api.novu.co/a%2fb/c";
     "https://api.novu.co/a%2fb/c%2fd"].
Proof. vm_compute. reflexivity. Qed.

Example JoinPath_examples :
  map (fun id => Url.URL_String (Url.JoinPath novu_backend ["workflows"; id]))
      ["wf_123"; "a b"; "a?b"; ""; ".."; "a/b"; "%zz"; "x%2Fy"; "a/"]
  = ["https://api.novu.co/v1/workflows/wf_123";
     "https://api.novu.co/v1/workflows/a%20b";
     "https://api.novu.co/v1/workflows/a%3Fb";
     "https://api.novu.co/v1/workflows";
     "https://api.novu.co/v1";
     "https://api.novu.co/v1/workflows/a/b";
     "https://api.novu.co/v1";
     "https://api.novu.co/v1/workflows/x%2Fy";
     "https://api.novu.co/v1/workflows/a/"].
Proof. vm_compute. reflexivity. Qed.

Example Encode_example :
  Url.Encode
    (Url.Values_Set
       (Url.Values_Set (Url.Query (Url.with_RawQuery novu_backend "z=1&a=b+c&z=2"))
          "page" "2")
       "limit" "25")
  = "a=b+c&limit=25&page=2&z=1&z=2".
Proof. vm_compute. reflexivity. Qed.

Example Itoa_examples :
  map Strconv.Itoa [0; 7; 25; 100; -1; -42; 9223372036854775807; -9223372036854775808]
  = ["0"; "7"; "25"; "100"; "-1"; "-42"; "9223372036854775807"; "-9223372036854775808"].
Proof. vm_compute. reflexivity. Qed.

Example demo_DeleteWorkflow :
  Demo.run Demo.up novu_backend (CallDeleteWorkflow "ctx" "wf_123")
  = Some (("ok", None),
          {| heap := <[5%positive := ObjURL (Url.JoinPath novu_backend ["workflows"; "wf_123"])]>
                       (heap (Demo.world novu_backend));
             net := 1%nat;
             calls := [ {| req_ctx := "ctx"; req_method := "DELETE";
                           req_url := "https://api.novu.co/v1/workflows/wf_123";
                           req_payload := NoBody |} ] |}).
Proof. vm_compute. reflexivity. Qed.

(** The parts of the printed URL for [https://api.novu.co/v1], and the
    requests for some identifiers. *)
Example printed_parts :
  Url.String_authority novu_backend = "https://api.novu.co"
  /\ base_prefix novu_backend = "/v1/" /\ base_dir novu_backend = "/v1/"
  /\ Url.String_query novu_backend = "" /\ Url.String_fragment novu_backend = ""
  /\ path_slash "/v1/workflows" = "" /\ path_slash "v1/workflows" = "/"
  /\ path_text "wf_123" = true /\ path_text "a;b!" = true /\ path_text "a%20b" = true
  /\ path_text "a b" = false /\ path_text "a?b#c" = false
  /\ Url.escape "a b" Url.encodePath = "a%20b"
  /\ Url.escape "a?b#c" Url.encodePath = "a%3Fb%23c".
Proof. vm_compute. repeat split. Qed.

Example demo_identifiers :
  map (fun id => option_map (map req_url)
                   (Demo.requests novu_backend (CallGetTenant "ctx" id)))
    ["wf_123"; "a b"; "a?b#c"; "a%20b"; "a%20b c"; "a%2Fb"; "team/wf_123"; "team/a b"; ".."]
  = map (fun s => Some [s])
      ["https://api.novu.co/v1/workflows/wf_123";
       "https://api.novu.co/v1/workflows/a%20b";
       "https://api.novu.co/v1/workflows/a%3Fb%23c";
       "https://api.novu.co/v1/workflows/a%20b";
       "https://api.novu.co/v1/workflows/a%20b%20c";
       "https://api.novu.co/v1/workflows/a%2Fb";
       "https://api.novu.co/v1/workflows/team/wf_123";
       "https://api.novu.co/v1/workflows/team/a%20b";
       "https://api.novu.co/v1"].
Proof. vm_compute. reflexivity. Qed.

(** ** Strings *)

Section StringFacts.

Lemma append_cons (c : ascii) (a b : string) :
  String c a +:+ b = String c (a +:+ b).
Proof. reflexivity. Qed.

Lemma append_nil_l (b : string) : "" +:+ b = b.
Proof. reflexivity. Qed.

Lemma append_nil_r (s : string) : s +:+ "" = s.
Proof.
  induction s as [|c s IH]; [reflexivity |].
  now rewrite append_cons, IH.
Qed.

Lemma append_assoc (a b c : string) : (a +:+ b) +:+ c = a +:+ (b +:+ c).
Proof.
  induction a as [|x a IH]; [reflexivity |].
  now rewrite !append_cons, IH.
Qed.

Lemma length_append (a b : string) :
  String.length (a +:+ b) = (String.length a + String.length b)%nat.
Proof.
  induction a as [|x a IH]; [reflexivity |].
  rewrite append_cons. simpl. now rewrite IH.
Qed.

Lemma HasPrefix_slash (s : string) :
  Strings.HasPrefix s "/" = true <-> exists r, s = String "/" r.
Proof.
  destruct s as [|c r]; simpl.
  - split; [discriminate | intros [r Hr]; discriminate].
  - replace (Strings.HasPrefix r "") with true by (now destruct r).
    rewrite andb_true_r. split.
    + intros H. apply Ascii.eqb_eq in H. subst c. now exists r.
    + intros [r' Hr]. injection Hr as -> _. apply Ascii.eqb_refl.
Qed.

End StringFacts.

(** ** Escaping *)

Section EscapeFacts.

Import Url.

Lemma string_strong_ind (P : string -> Prop) :
  (forall s, (forall t, (String.length t < String.length s)%nat -> P t) -> P s) ->
  forall s, P s.
Proof.
  intros H s. remember (String.length s) as n eqn:Hn.
  revert s Hn. induction n as [n IH] using lt_wf_ind.
  intros s ->. apply H. intros t Ht. now apply (IH (String.length t)).
Qed.

(** The two hex digits [escape] writes for a byte decode to that byte. *)
Lemma hex_digits_decode (c : ascii) :
  let hi := upperhex (N.shiftr (Char.code c) 4) in
  let lo := upperhex (N.land (Char.code c) 15) in
  ishex hi = true /\ ishex lo = true
  /\ ascii_of_N (N.lor (N.shiftl (unhex hi) 4) (unhex lo)) = c.
Proof. byte_cases c; vm_compute; auto. Qed.

Lemma shouldEscape_percent (mode : encoding) : shouldEscape "%" mode = true.
Proof. now destruct mode. Qed.

Lemma slash_not_hex : ishex "/" = false.
Proof. reflexivity. Qed.

(** In path mode the first loop of [unescape] only looks at [%]. *)
Lemma unescape_check_path_cons (c : ascii) (r : string) :
  unescape_check (String c r) encodePath =
  if Char.eq c "%" then
    match r with
    | String a (String b r') => ishex a && ishex b && unescape_check r' encodePath
    | _ => false
    end
  else unescape_check r encodePath.
Proof.
  cbn [unescape_check encoding_eqb andb orb negb].
  destruct (Char.eq c "%").
  - destruct r as [|a [|b r']]; try reflexivity.
    now rewrite !andb_true_r.
  - now destruct (Char.eq c "+").
Qed.

Lemma unescape_build_path_cons (c : ascii) (r : string) :
  unescape_build (String c r) encodePath =
  if Char.eq c "%" then
    match r with
    | String a (String b r') =>
        String (ascii_of_N (N.lor (N.shiftl (unhex a) 4) (unhex b)))
          (unescape_build r' encodePath)
    | _ => ""
    end
  else String c (unescape_build r encodePath).
Proof.
  cbn [unescape_build encoding_eqb].
  destruct (Char.eq c "%"); [reflexivity |].
  destruct (Char.eq c "+") eqn:E; [| reflexivity].
  apply Ascii.eqb_eq in E. now subst c.
Qed.

(** A well-formed escaped prefix can be split off. *)
Lemma unescape_check_app (a b : string) :
  unescape_check a encodePath = true ->
  unescape_check (a +:+ b) encodePath = unescape_check b encodePath.
Proof.
  induction a as [a IH] using string_strong_ind. intros Ha.
  destruct a as [|c r]; [reflexivity |].
  rewrite append_cons, unescape_check_path_cons.
  rewrite unescape_check_path_cons in Ha.
  destruct (Char.eq c "%").
  - destruct r as [|x [|y r']]; try discriminate.
    rewrite !append_cons.
    apply andb_prop in Ha as [Hxy Hr]. rewrite Hxy. cbn [andb].
    apply IH; [simpl; lia | exact Hr].
  - apply IH; [simpl; lia | exact Ha].
Qed.

Lemma unescape_build_app (a b : string) :
  unescape_check a encodePath = true ->
  unescape_build (a +:+ b) encodePath
  = unescape_build a encodePath +:+ unescape_build b encodePath.
Proof.
  induction a as [a IH] using string_strong_ind. intros Ha.
  destruct a as [|c r]; [reflexivity |].
  rewrite append_cons, !unescape_build_path_cons.
  rewrite unescape_check_path_cons in Ha.
  destruct (Char.eq c "%").
  - destruct r as [|x [|y r']]; try discriminate.
    rewrite !append_cons.
    apply andb_prop in Ha as [Hxy Hr].
    rewrite IH; [reflexivity | simpl; lia | exact Hr].
  - rewrite append_cons. rewrite IH; [reflexivity | simpl; lia | exact Ha].
Qed.

(** No escape sequence runs across a [/]. *)
Lemma unescape_check_slash (a b : string) :
  unescape_check (a +:+ String "/" b) encodePath
  = unescape_check a encodePath && unescape_check b encodePath.
Proof.
  induction a as [a IH] using string_strong_ind.
  destruct a as [|c r].
  - rewrite append_nil_l, unescape_check_path_cons. reflexivity.
  - rewrite append_cons, !unescape_check_path_cons.
    destruct (Char.eq c "%").
    + destruct r as [|x [|y r']].
      * rewrite append_nil_l. destruct b; [reflexivity |].
        now rewrite slash_not_hex.
      * rewrite append_cons, append_nil_l, slash_not_hex.
        now rewrite andb_false_r.
      * rewrite !append_cons, IH by (simpl; lia).
        now rewrite andb_assoc.
    + apply IH. simpl; lia.
Qed.

(** Strings without [%] are their own decoding. *)
Lemma unescape_no_percent (s : string) :
  Strings.Contains1 s "%" = false ->
  unescape_check s encodePath = true /\ unescape_build s encodePath = s.
Proof.
  induction s as [|c r IH]; [now split |].
  cbn [Strings.Contains1]. intros H. apply orb_false_elim in H as [Hc Hr].
  rewrite unescape_check_path_cons, unescape_build_path_cons.
  unfold Char.eq. rewrite Hc. destruct (IH Hr) as [-> ->]. now split.
Qed.

Lemma escape_app (a b : string) (mode : encoding) :
  escape (a +:+ b) mode = escape a mode +:+ escape b mode.
Proof.
  induction a as [|c r IH]; [reflexivity |].
  rewrite append_cons. cbn [escape]. rewrite IH.
  destruct (Char.eq c " " && encoding_eqb mode encodeQueryComponent);
    [reflexivity |].
  now destruct (shouldEscape c mode).
Qed.

(** [unescape] undoes [escape] on paths. *)
Lemma unescape_escape_path (s : string) :
  unescape (escape s encodePath) encodePath = Some s.
Proof.
  unfold unescape.
  assert (unescape_check (escape s encodePath) encodePath = true
          /\ unescape_build (escape s encodePath) encodePath = s) as [-> ->];
    [| reflexivity].
  induction s as [|c r [IHc IHb]]; [now split |].
  cbn [escape encoding_eqb]. rewrite andb_false_r.
  destruct (shouldEscape c encodePath) eqn:E.
  - destruct (hex_digits_decode c) as (Hhi & Hlo & Hc).
    rewrite unescape_check_path_cons, unescape_build_path_cons.
    cbn [Char.eq Ascii.eqb Bool.eqb]. cbv zeta in Hhi, Hlo, Hc.
    rewrite Hhi, Hlo, IHc, Hc, IHb. now split.
  - rewrite unescape_check_path_cons, unescape_build_path_cons.
    destruct (Char.eq c "%") eqn:P.
    + apply Ascii.eqb_eq in P. subst c. now rewrite shouldEscape_percent in E.
    + rewrite IHc, IHb. now split.
Qed.

(** What [String] prints as the path always decodes to [Path]. *)
Lemma unescape_EscapedPath (u : URL) :
  unescape (EscapedPath u) encodePath = Some (Path u).
Proof.
  unfold EscapedPath.
  destruct (negb (String.eqb (RawPath u) "") && validEncoded (RawPath u) encodePath) eqn:V;
    cbn [andb].
  - destruct (unescape (RawPath u) encodePath) as [p|] eqn:U.
    + destruct (String.eqb p (Path u)) eqn:E.
      * apply String.eqb_eq in E. now subst p.
      * destruct (String.eqb (Path u) "*") eqn:S.
        -- apply String.eqb_eq in S. now rewrite S.
        -- apply unescape_escape_path.
    + destruct (String.eqb (Path u) "*") eqn:S.
      * apply String.eqb_eq in S. now rewrite S.
      * apply unescape_escape_path.
  - destruct (String.eqb (Path u) "*") eqn:S.
    + apply String.eqb_eq in S. now rewrite S.
    + apply unescape_escape_path.
Qed.

End EscapeFacts.

(** ** [path.Clean] on rooted paths *)

Section CleanFacts.

Import Url.

(** Reading [x] and then a [/] leaves the loop between two elements, in
    the state it reaches at the end of [x]. *)
Lemma clean_loop_app (rooted : bool) (x t : string) :
  forall copying out dd,
    Path.clean_loop rooted copying (x +:+ String "/" t) out dd
    = Path.clean_loop rooted false t
        (fst (Path.clean_loop rooted copying x out dd))
        (snd (Path.clean_loop rooted copying x out dd)).
Proof.
  induction x as [x IH] using string_strong_ind. intros copying out dd.
  destruct x as [|c r].
  - rewrite append_nil_l. cbn [Path.clean_loop fst snd].
    change (Char.eq "/" "/") with true. cbv iota. now destruct copying.
  - rewrite append_cons. cbn [Path.clean_loop].
    destruct copying.
    { destruct (Char.eq c "/"); apply IH; simpl; lia. }
    destruct (Char.eq c "/"); [apply IH; simpl; lia |].
    destruct (Char.eq c ".").
    2:{ apply IH; simpl; lia. }
    destruct r as [|c1 r1].
    + rewrite append_nil_l. change (Char.eq "/" "/") with true. cbv iota.
      cbn [Path.clean_loop fst snd]. change (Char.eq "/" "/") with true.
      reflexivity.
    + rewrite append_cons.
      destruct (Char.eq c1 "/").
      { rewrite <- append_cons. apply IH; simpl; lia. }
      assert (match r1 +:+ String "/" t with
              | "" => true
              | String c2 _ => Char.eq c2 "/"
              end = match r1 with
                    | "" => true
                    | String c2 _ => Char.eq c2 "/"
                    end) as ->.
      { destruct r1; reflexivity. }
      destruct (Char.eq c1 "." && _).
      * destruct (dd <? String.length out)%nat; [apply IH; simpl; lia |].
        destruct (negb rooted); apply IH; simpl; lia.
      * rewrite <- append_cons. apply IH; simpl; lia.
Qed.

(** Inside an element, bytes other than [/] are copied. *)
Lemma clean_loop_copy (rooted : bool) (s : string) :
  forall out dd,
    Strings.Contains1 s "/" = false ->
    Path.clean_loop rooted true s out dd = (out +:+ s, dd).
Proof.
  induction s as [|c r IH]; intros out dd H.
  - now rewrite append_nil_r.
  - cbn [Strings.Contains1] in H. apply orb_false_elim in H as [Hc Hr].
    cbn [Path.clean_loop]. unfold Char.eq. rewrite Hc.
    rewrite IH by exact Hr. now rewrite append_assoc.
Qed.

(** A plain segment is appended after a [/] (none after the root). *)
Lemma clean_loop_plain_segment (s out : string) (dd : nat) :
  plain_segment s = true ->
  Path.clean_loop true false s out dd
  = ((if (String.length out =? 1)%nat then out else out +:+ "/") +:+ s, dd).
Proof.
  unfold plain_segment. intros H.
  apply andb_prop in H as [H Hdd]. apply andb_prop in H as [H Hd].
  apply andb_prop in H as [Hne Hs].
  apply negb_true_iff in Hne, Hs, Hd, Hdd.
  destruct s as [|c r]; [discriminate |].
  pose proof Hs as Hs'. cbn [Strings.Contains1] in Hs'.
  apply orb_false_elim in Hs' as [Hc Hr].
  assert (Path.clean_loop true true r
            ((if (String.length out =? 1)%nat then out else out +:+ "/")
             +:+ String c "") dd
          = ((if (String.length out =? 1)%nat then out else out +:+ "/")
             +:+ String c r, dd)) as Hreal.
  { rewrite clean_loop_copy by exact Hr. now rewrite append_assoc. }
  cbn [Path.clean_loop]. unfold Char.eq at 1. rewrite Hc.
  cbn [andb orb negb]. rewrite orb_false_r.
  replace (if negb (String.length out =? 1)%nat then out +:+ "/" else out)
    with (if (String.length out =? 1)%nat then out else out +:+ "/")
    by (now destruct (String.length out =? 1)%nat).
  destruct (Char.eq c ".") eqn:Edot; [| exact Hreal].
  apply Ascii.eqb_eq in Edot. subst c.
  destruct r as [|c1 r1]; [discriminate |].
  cbn [Strings.Contains1] in Hr. apply orb_false_elim in Hr as [Hc1 Hr1].
  unfold Char.eq at 1. rewrite Hc1.
  destruct (Char.eq c1 ".") eqn:Edot1; [| exact Hreal].
  apply Ascii.eqb_eq in Edot1. subst c1.
  destruct r1 as [|c2 r2]; [discriminate |].
  cbn [Strings.Contains1] in Hr1. apply orb_false_elim in Hr1 as [Hc2 _].
  unfold Char.eq. rewrite Hc2. exact Hreal.
Qed.

(** *** What the [..] case removes *)

Lemma backtrack_w_lower (out : string) (dd w0 : nat) :
  (dd <= w0)%nat -> (dd <= Path.backtrack_w out dd w0)%nat.
Proof.
  induction w0 as [|w IH]; intros H; [exact H |].
  cbn [Path.backtrack_w].
  destruct (Nat.ltb_spec dd (S w)); cbn [andb]; [| exact H].
  destruct (negb _); [apply IH; lia | exact H].
Qed.

Lemma backtrack_w_stop (out : string) (dd w0 : nat) :
  (Path.backtrack_w out dd w0 <= dd)%nat
  \/ String.get (Path.backtrack_w out dd w0) out = Some "/"%char.
Proof.
  induction w0 as [|w IH]; [left; simpl; lia |].
  cbn [Path.backtrack_w].
  destruct (Nat.ltb_spec dd (S w)); cbn [andb]; [| left; lia].
  destruct (String.get (S w) out) as [c|] eqn:G; cbn [negb].
  - destruct (Char.eq c "/") eqn:E; cbn [negb]; [| exact IH].
    apply Ascii.eqb_eq in E. subst c. now right.
  - exact IH.
Qed.

Lemma substring_get_split (out : string) :
  forall w c, String.get w out = Some c ->
              exists rest, out = String.substring 0 w out +:+ String c rest.
Proof.
  induction out as [|x out IH]; intros w c H; [discriminate |].
  destruct w as [|w]; cbn [String.get String.substring] in *.
  - injection H as ->. now exists out.
  - destruct (IH w c H) as [rest Hrest]. exists rest.
    now rewrite append_cons, <- Hrest.
Qed.

Lemma substring_rooted (r : string) (w : nat) :
  (1 <= w)%nat -> exists r', String.substring 0 w (String "/" r) = String "/" r'.
Proof.
  destruct w as [|w]; [lia |]. intros _. cbn [String.substring]. eauto.
Qed.

Lemma backtrack_rooted (r : string) :
  (1 < String.length (String "/" r))%nat ->
  exists r', Path.backtrack (String "/" r) 1 = String "/" r'.
Proof.
  intros H. unfold Path.backtrack. apply substring_rooted.
  apply backtrack_w_lower. lia.
Qed.

Lemma backtrack_well_escaped (r : string) :
  (1 < String.length (String "/" r))%nat ->
  well_escaped (String "/" r) -> well_escaped (Path.backtrack (String "/" r) 1).
Proof.
  intros Hlen Hwf. unfold Path.backtrack.
  set (w := Path.backtrack_w (String "/" r) 1 (String.length (String "/" r) - 1)).
  assert (1 <= w)%nat as Hw by (apply backtrack_w_lower; lia).
  destruct (backtrack_w_stop (String "/" r) 1 (String.length (String "/" r) - 1))
    as [Hle | Hget]; fold w in Hle || fold w in Hget.
  - replace w with 1%nat by lia. now destruct r.
  - destruct (substring_get_split _ _ _ Hget) as [rest Hrest].
    unfold well_escaped in Hwf. rewrite Hrest, unescape_check_slash in Hwf.
    now apply andb_prop in Hwf as [Hsub _].
Qed.

Lemma well_escaped_snoc_slash (out : string) :
  well_escaped out -> well_escaped (out +:+ "/").
Proof.
  unfold well_escaped. intros H. now rewrite unescape_check_slash, H.
Qed.

Lemma well_escaped_skip (c : ascii) (r : string) :
  Char.eq c "%" = false -> well_escaped (String c r) -> well_escaped r.
Proof.
  unfold well_escaped. intros Hc. now rewrite unescape_check_path_cons, Hc.
Qed.

(** The loop on a rooted path keeps the root, never moves [dotdot], and
    keeps out of the buffer any escape sequence the input does not
    complete. *)
Lemma clean_loop_rooted (path : string) :
  forall copying r0,
    let res := Path.clean_loop true copying path (String "/" r0) 1 in
    (exists r', fst res = String "/" r') /\ snd res = 1%nat
    /\ ((if copying then well_escaped (String "/" r0 +:+ path)
         else well_escaped (String "/" r0) /\ well_escaped path) ->
        well_escaped (fst res)).
Proof.
  induction path as [path IH] using string_strong_ind. intros copying r0.
  destruct path as [|c r].
  { cbn. split; [eauto | split; [reflexivity |]].
    destruct copying; [now rewrite append_nil_r | tauto]. }
  cbv zeta. cbn [Path.clean_loop].
  assert (String.length r < String.length (String c r))%nat as Hlt
    by (simpl; lia).
  destruct copying.
  { destruct (Char.eq c "/") eqn:E.
    - apply Ascii.eqb_eq in E. subst c.
      destruct (IH r Hlt false r0) as (A & B & C).
      split; [exact A | split; [exact B |]]. intros Hwf. apply C.
      unfold well_escaped in *. rewrite unescape_check_slash in Hwf.
      now apply andb_prop in Hwf.
    - rewrite append_cons.
      destruct (IH r Hlt true (r0 +:+ String c "")) as (A & B & C).
      split; [exact A | split; [exact B |]]. intros Hwf. apply C.
      now rewrite <- append_cons, append_assoc. }
  destruct (Char.eq c "/") eqn:E.
  { apply Ascii.eqb_eq in E. subst c.
    destruct (IH r Hlt false r0) as (A & B & C).
    split; [exact A | split; [exact B |]]. intros [Ho Hp]. apply C.
    split; [exact Ho |]. now apply well_escaped_skip in Hp. }
  cbn [andb orb negb]. rewrite orb_false_r.
  set (out1 := if negb (String.length (String "/" r0) =? 1)%nat
               then String "/" r0 +:+ "/" else String "/" r0).
  assert (exists r1, out1 +:+ String c "" = String "/" r1
                     /\ (well_escaped (String "/" r0) -> well_escaped (String c r) ->
                         well_escaped (String "/" r1 +:+ r))) as (r1 & Hr1 & Hw1).
  { subst out1. destruct (negb _).
    - exists ((r0 +:+ "/") +:+ String c ""). split; [reflexivity |].
      intros Ho Hp.
      replace (String "/" ((r0 +:+ "/") +:+ String c "") +:+ r)
        with ((String "/" r0 +:+ "/") +:+ String c r)
        by (rewrite !append_cons, !append_assoc; reflexivity).
      unfold well_escaped. rewrite unescape_check_app; [exact Hp |].
      now apply well_escaped_snoc_slash.
    - exists (r0 +:+ String c ""). split; [reflexivity |].
      intros Ho Hp.
      replace (String "/" (r0 +:+ String c "") +:+ r)
        with (String "/" r0 +:+ String c r)
        by (rewrite !append_cons, !append_assoc; reflexivity).
      unfold well_escaped. rewrite unescape_check_app; [exact Hp | exact Ho]. }
  rewrite Hr1.
  assert (let res := Path.clean_loop true true r (String "/" r1) 1 in
          (exists r', fst res = String "/" r') /\ snd res = 1%nat
          /\ (well_escaped (String "/" r0) /\ well_escaped (String c r) ->
              well_escaped (fst res))) as Hreal.
  { destruct (IH r Hlt true r1) as (A & B & C).
    split; [exact A | split; [exact B |]]. intros [Ho Hp]. apply C.
    now apply Hw1. }
  clearbody out1. clear Hr1 Hw1.
  destruct (Char.eq c ".") eqn:Edot; [| exact Hreal].
  apply Ascii.eqb_eq in Edot. subst c.
  destruct r as [|c1 r2].
  { cbn. split; [eauto | split; [reflexivity | tauto]]. }
  destruct (Char.eq c1 "/") eqn:E1.
  { destruct (IH (String c1 r2) Hlt false r0) as (A & B & C).
    split; [exact A | split; [exact B |]]. intros [Ho Hp]. apply C.
    split; [exact Ho |]. now apply well_escaped_skip in Hp. }
  destruct (Char.eq c1 "." && _) eqn:E2; [| exact Hreal].
  apply andb_prop in E2 as [E2 _]. apply Ascii.eqb_eq in E2. subst c1.
  assert (String.length r2 < String.length (String "." (String "." r2)))%nat as Hlt2
    by (simpl; lia).
  assert (well_escaped (String "." (String "." r2)) -> well_escaped r2) as Hskip.
  { intros Hp. apply well_escaped_skip in Hp; [| reflexivity].
    now apply well_escaped_skip in Hp. }
  destruct (Nat.ltb_spec 1 (String.length (String "/" r0))) as [Hlen | Hlen].
  - destruct (backtrack_rooted r0 Hlen) as [r3 Hr3]. rewrite Hr3.
    destruct (IH r2 Hlt2 false r3) as (A & B & C).
    split; [exact A | split; [exact B |]]. intros [Ho Hp]. apply C.
    split; [| now apply Hskip]. rewrite <- Hr3.
    now apply backtrack_well_escaped.
  - destruct (IH r2 Hlt2 false r0) as (A & B & C).
    split; [exact A | split; [exact B |]]. intros [Ho Hp]. apply C.
    split; [exact Ho | now apply Hskip].
Qed.

(** [Clean] of a rooted path is what the loop leaves in the buffer. *)
Lemma Clean_rooted (x : string) :
  Path.Clean (String "/" x) = fst (Path.clean_loop true false x "/" 1)
  /\ exists r, Path.Clean (String "/" x) = String "/" r.
Proof.
  unfold Path.Clean. change (Char.eq "/" "/") with true. cbv iota.
  destruct (clean_loop_rooted x false "") as ([r Hr] & _ & _).
  destruct (Path.clean_loop true false x "/" 1) as [out dd].
  cbn [fst] in *. subst out. cbn [String.length Nat.eqb]. eauto.
Qed.

Lemma Clean_rooted_well_escaped (x : string) :
  well_escaped (String "/" x) -> well_escaped (Path.Clean (String "/" x)).
Proof.
  intros H. destruct (Clean_rooted x) as [-> _].
  destruct (clean_loop_rooted x false "") as (_ & _ & C). apply C.
  split; [reflexivity |]. now apply well_escaped_skip in H.
Qed.

(** Joining a plain segment to a rooted path. *)
Lemma Clean_rooted_snoc (x seg : string) :
  plain_segment seg = true ->
  Path.Clean (String "/" x +:+ String "/" seg)
  = dir_of (Path.Clean (String "/" x)) +:+ seg.
Proof.
  intros Hseg. rewrite append_cons.
  destruct (Clean_rooted (x +:+ String "/" seg)) as [-> _].
  destruct (Clean_rooted x) as [-> _].
  rewrite clean_loop_app.
  destruct (clean_loop_rooted x false "") as (_ & -> & _).
  now rewrite clean_loop_plain_segment.
Qed.

End CleanFacts.

(** ** [URL.JoinPath] with plain segments *)

Section JoinPathFacts.

Import Url.

Lemma rooted_EscapedPath_rooted (u : URL) :
  exists x, rooted_EscapedPath u = String "/" x.
Proof.
  unfold rooted_EscapedPath.
  destruct (Strings.HasPrefix (EscapedPath u) "/") eqn:E.
  - now apply HasPrefix_slash in E.
  - now exists (EscapedPath u).
Qed.

Lemma rooted_EscapedPath_well_escaped (u : URL) :
  well_escaped (rooted_EscapedPath u).
Proof.
  assert (well_escaped (EscapedPath u)) as H.
  { pose proof (unescape_EscapedPath u) as H. unfold unescape in H.
    unfold well_escaped. now destruct (unescape_check (EscapedPath u) encodePath). }
  unfold rooted_EscapedPath.
  destruct (Strings.HasPrefix (EscapedPath u) "/"); [exact H |].
  unfold well_escaped. now rewrite append_cons, unescape_check_path_cons.
Qed.

Lemma dir_of_rooted (r : string) :
  exists r', dir_of (String "/" r) = String "/" r'.
Proof. unfold dir_of. destruct (_ =? _)%nat; [eauto | rewrite append_cons; eauto]. Qed.

Lemma dir_of_snoc (d seg : string) :
  seg <> "" -> dir_of (d +:+ seg) = (d +:+ seg) +:+ "/"
               \/ d = "".
Proof.
  intros Hseg. unfold dir_of.
  destruct (String.length (d +:+ seg) =? 1)%nat eqn:E; [| now left].
  apply Nat.eqb_eq in E. rewrite length_append in E.
  destruct seg; [congruence |]. destruct d; [now right |]. simpl in E. lia.
Qed.

Lemma base_prefix_well_escaped (u : URL) : well_escaped (base_prefix u).
Proof.
  unfold base_prefix.
  destruct (rooted_EscapedPath_rooted u) as [x Hx].
  pose proof (rooted_EscapedPath_well_escaped u) as Hw. rewrite Hx in *.
  apply Clean_rooted_well_escaped in Hw.
  assert (well_escaped (dir_of (Path.Clean (String "/" x)))) as Hd.
  { unfold dir_of. destruct (_ =? _)%nat; [exact Hw |].
    now apply well_escaped_snoc_slash. }
  destruct (Strings.HasPrefix (EscapedPath u) "/"); [exact Hd |].
  destruct (Clean_rooted x) as [_ [r Hr]]. rewrite Hr in *.
  destruct (dir_of_rooted r) as [r' Hr']. rewrite Hr' in *.
  now apply well_escaped_skip in Hd.
Qed.

Lemma Contains1_HasSuffix1 (s : string) (c : ascii) :
  Strings.Contains1 s c = false -> Strings.HasSuffix1 s c = false.
Proof.
  unfold Strings.HasSuffix1. induction s as [|d r IH]; [reflexivity |].
  cbn [Strings.Contains1 Strings.last]. intros H.
  apply orb_false_elim in H as [Hd Hr].
  destruct r; [exact Hd | now apply IH].
Qed.

Lemma join_buf_start (c : ascii) (e : string) (rest : list string) :
  Path.join_buf "" (String c e :: rest) = Path.join_buf (String c e) rest.
Proof. reflexivity. Qed.

Lemma join_buf_next (c : ascii) (b e : string) (rest : list string) :
  Path.join_buf (String c b) (e :: rest)
  = Path.join_buf ((String c b +:+ "/") +:+ e) rest.
Proof. reflexivity. Qed.

Lemma Join_rooted (x : string) (rest : list string) :
  Path.Join (String "/" x :: rest) = Path.Clean (Path.join_buf (String "/" x) rest).
Proof.
  unfold Path.Join. rewrite join_buf_start.
  assert (forall l n, (0 < n)%nat ->
            (0 < fold_left (fun n e => (n + String.length e)%nat) l n)%nat) as H.
  { induction l as [|e l IH]; intros n Hn; [exact Hn |]. apply IH. lia. }
  cbn [fold_left].
  specialize (H rest (0 + String.length (String "/" x))%nat ltac:(simpl; lia)).
  destruct (Nat.eqb_spec
              (fold_left (fun n e => (n + String.length e)%nat) rest
                 (0 + String.length (String "/" x))%nat) 0) as [E | E];
    [lia | reflexivity].
Qed.

(** The path [JoinPath] passes to [setPath], for the two calls the
    service makes. *)
Lemma Join_workflows (u : URL) :
  Path.Join [rooted_EscapedPath u; "workflows"]
  = dir_of (Path.Clean (rooted_EscapedPath u)) +:+ "workflows".
Proof.
  destruct (rooted_EscapedPath_rooted u) as [x Hx]. rewrite Hx.
  rewrite Join_rooted, join_buf_next. cbn [Path.join_buf].
  rewrite append_assoc. change ("/" +:+ "workflows") with (String "/" "workflows").
  now rewrite Clean_rooted_snoc.
Qed.

Lemma Join_workflows_id (u : URL) (id : string) :
  plain_segment id = true ->
  Path.Join [rooted_EscapedPath u; "workflows"; id]
  = dir_of (Path.Clean (rooted_EscapedPath u)) +:+ "workflows/" +:+ id.
Proof.
  intros Hid. pose proof (Join_workflows u) as Hw.
  destruct (rooted_EscapedPath_rooted u) as [x Hx]. rewrite Hx in *.
  rewrite Join_rooted, join_buf_next in Hw. cbn [Path.join_buf] in Hw.
  rewrite Join_rooted, join_buf_next.
  rewrite (append_cons "/" x "/"), (append_cons "/" (x +:+ "/") "workflows").
  rewrite join_buf_next. cbn [Path.join_buf].
  rewrite <- !append_cons.
  rewrite (append_assoc _ "/" id). change ("/" +:+ id) with (String "/" id).
  rewrite (append_assoc (String "/" x)), append_cons.
  rewrite Clean_rooted_snoc by exact Hid.
  rewrite <- append_cons, <- append_assoc, Hw.
  destruct (Clean_rooted x) as [_ [r Hr]]. rewrite Hr.
  destruct (dir_of_rooted r) as [r' Hr']. rewrite Hr'.
  destruct (dir_of_snoc (String "/" r') "workflows") as [-> | H];
    [discriminate | | discriminate].
  now rewrite !append_assoc.
Qed.

Lemma setPath_well_escaped (u : URL) (p : string) :
  well_escaped p ->
  setPath u p
  = (with_path u (unescape_build p encodePath)
       (if String.eqb p (escape (unescape_build p encodePath) encodePath)
        then "" else p), true).
Proof.
  unfold well_escaped, setPath, unescape. intros ->.
  now destruct (String.eqb p _).
Qed.

(** After [setPath], [String] prints the path either as it was given or
    escaped afresh. *)
Lemma EscapedPath_setPath (u : URL) (p : string) :
  well_escaped p ->
  unescape_build p encodePath <> "*" ->
  EscapedPath (fst (setPath u p)) = p
  \/ EscapedPath (fst (setPath u p)) = escape (unescape_build p encodePath) encodePath.
Proof.
  intros Hw Hstar. rewrite setPath_well_escaped by exact Hw. cbn [fst].
  apply String.eqb_neq in Hstar.
  unfold EscapedPath. cbn [with_path RawPath Path].
  destruct (String.eqb p (escape _ _)) eqn:E.
  - cbn [String.eqb negb andb]. rewrite Hstar. now right.
  - destruct (_ && _); [now left | rewrite Hstar; now right].
Qed.

Lemma JoinPath_workflows (u : URL) :
  JoinPath u ["workflows"] = fst (setPath u (base_prefix u +:+ "workflows")).
Proof.
  unfold JoinPath, base_prefix.
  pose proof (Join_workflows u) as HJ.
  destruct (rooted_EscapedPath_rooted u) as [x Hx].
  destruct (Clean_rooted x) as [_ [r Hr]].
  destruct (dir_of_rooted r) as [r' Hr'].
  unfold rooted_EscapedPath in *.
  destruct (Strings.HasPrefix (EscapedPath u) "/"); cbn [negb List.last];
    rewrite HJ, Hx, Hr, Hr'; reflexivity.
Qed.

Lemma JoinPath_workflows_id (u : URL) (id : string) :
  plain_segment id = true ->
  JoinPath u ["workflows"; id]
  = fst (setPath u (base_prefix u +:+ "workflows/" +:+ id)).
Proof.
  intros Hid. unfold JoinPath, base_prefix.
  pose proof (Join_workflows_id u id Hid) as HJ.
  assert (Strings.HasSuffix1 id "/" = false) as Hsuf.
  { apply Contains1_HasSuffix1. unfold plain_segment in Hid.
    apply andb_prop in Hid as [Hid _]. apply andb_prop in Hid as [Hid _].
    apply andb_prop in Hid as [_ Hid]. now apply negb_true_iff in Hid. }
  destruct (rooted_EscapedPath_rooted u) as [x Hx].
  destruct (Clean_rooted x) as [_ [r Hr]].
  destruct (dir_of_rooted r) as [r' Hr'].
  unfold rooted_EscapedPath in *.
  destruct (Strings.HasPrefix (EscapedPath u) "/"); cbn [negb List.last];
    rewrite HJ, Hx, Hr, Hr', Hsuf; reflexivity.
Qed.

End JoinPathFacts.

(** ** The service: one run of a call *)

Section ServiceFacts.

Context {Ctx JsonResponse Err CreateWorkflowRequest UpdateWorkflowRequest Net : Type}.
Variable zeroJsonResponse : JsonResponse.
Variable transport :
  @Request Ctx CreateWorkflowRequest UpdateWorkflowRequest ->
  Net -> (JsonResponse * option Err) * Net.

Local Abbreviation World := (@World Ctx CreateWorkflowRequest UpdateWorkflowRequest Net).
Local Abbreviation Call := (@Call Ctx CreateWorkflowRequest UpdateWorkflowRequest).
Local Abbreviation Request := (@Request Ctx CreateWorkflowRequest UpdateWorkflowRequest).
Local Abbreviation perform := (perform zeroJsonResponse transport).
Local Abbreviation call_result := (call_result zeroJsonResponse).

Lemma configured_service_at (w : World) (e : loc) (base : Url.URL) :
  configured w e = Some base <-> exists b, service_at w e b base.
Proof.
  unfold configured, service_at. split.
  - intros H.
    destruct (heap w !! e) as [[| | |client]|] eqn:He; try discriminate.
    destruct (heap w !! client) as [[| |config|]|] eqn:Hc; try discriminate.
    destruct (heap w !! config) as [[|b| |]|] eqn:Hg; try discriminate.
    destruct (heap w !! b) as [[u| | |]|] eqn:Hb; try discriminate.
    injection H as ->. exists b, client, config. auto.
  - intros (b & client & config & -> & -> & -> & ->). reflexivity.
Qed.

(** Every call runs to its end on a configured service: it allocates
    one URL, calls the transport once, and returns. *)
Lemma perform_run (w : World) (e : loc) (base : Url.URL) (c : Call) :
  configured w e = Some base ->
  perform e c w
  = let rq := call_request base c in
    let '(answer, n) := transport rq (net w) in
    Some (call_result c answer,
          {| heap := <[fresh (dom (heap w)) := ObjURL (call_URL base c)]> (heap w);
             net := n; calls := calls w ++ [rq] |}).
Proof.
  intros H. apply configured_service_at in H as (b & client & config & He & Hc & Hg & Hb).
  assert (fresh (dom (heap w)) <> e) as Hfresh.
  { intros E. apply (is_fresh (dom (heap w))). rewrite E.
    apply elem_of_dom. eauto. }
  destruct c; cbv zeta;
    unfold perform, CreateWorkflow, UpdateWorkflow, UpdateWorkflowStatus,
      GetWorkflows, GetTenant, DeleteWorkflow, e_client_config_BackendURL, e_client,
      ptr_JoinPath, ptr_Query, ptr_set_RawQuery, ptr_String, makeHTTPRequest,
      load_Service, load_APIClient, load_Config, load_URL, load, alloc, store, bind, ret;
    repeat first
      [ progress cbn [heap net calls]
      | rewrite insert_insert_eq
      | rewrite lookup_insert_eq
      | rewrite (lookup_insert_ne _ _ _ _ Hfresh)
      | rewrite He | rewrite Hc | rewrite Hg | rewrite Hb ];
    unfold call_request; cbn [call_ctx call_method call_payload call_URL call_result];
    destruct (transport _ (net w)) as [[resp [err|]] n]; reflexivity.
Qed.

End ServiceFacts.

(** ** The URLs the service builds *)

Section BuiltURLs.

Import Url.

Lemma base_prefix_dir_like (u : URL) : dir_like (base_prefix u).
Proof.
  unfold base_prefix.
  destruct (rooted_EscapedPath_rooted u) as [x ->].
  destruct (Clean_rooted x) as [_ [r ->]].
  unfold dir_of.
  destruct (String.length (String "/" r) =? 1)%nat eqn:E.
  - apply Nat.eqb_eq in E. destruct r; [| discriminate].
    destruct (Strings.HasPrefix _ _); [right; now exists "" | now left].
  - destruct (Strings.HasPrefix _ _); right; [now exists (String "/" r) |].
    now exists r.
Qed.

Lemma base_dir_dir_like (u : URL) : dir_like (escape (base_dir u) encodePath).
Proof.
  unfold base_dir. pose proof (base_prefix_well_escaped u) as Hw.
  destruct (base_prefix_dir_like u) as [-> | [d Hd]]; [now left |].
  rewrite Hd in *. right.
  unfold well_escaped in Hw. rewrite unescape_check_slash in Hw.
  apply andb_prop in Hw as [Hw _].
  rewrite unescape_build_app by exact Hw. rewrite escape_app.
  now exists (escape (unescape_build d encodePath) encodePath).
Qed.

(** For a base URL whose path is absolute, clean and free of bytes to
    escape, the base directory is that path as a directory. *)
Lemma base_dir_clean_path (u : URL) :
  EscapedPath u = Path u ->
  Strings.HasPrefix (Path u) "/" = true ->
  Path.Clean (Path u) = Path u ->
  base_prefix u = dir_of (Path u) /\ base_dir u = dir_of (Path u).
Proof.
  intros He Hr Hc. pose proof (unescape_EscapedPath u) as Hu.
  rewrite He in Hu. unfold unescape in Hu.
  destruct (unescape_check (Path u) encodePath) eqn:Hw; [| discriminate].
  injection Hu as Hb.
  assert (base_prefix u = dir_of (Path u)) as Hp.
  { unfold base_prefix, rooted_EscapedPath. now rewrite He, Hr, Hc. }
  split; [exact Hp |]. unfold base_dir. rewrite Hp. unfold dir_of.
  destruct (String.length (Path u) =? 1)%nat; [exact Hb |].
  rewrite unescape_build_app by exact Hw. now rewrite Hb.
Qed.

Example base_dir_novu_backend :
  base_prefix novu_backend = "/v1/" /\ base_dir novu_backend = "/v1/".
Proof. split; reflexivity. Qed.

Lemma append_not_star (a b : string) :
  (2 <= String.length b)%nat -> a +:+ b <> "*".
Proof.
  intros Hb E. apply (f_equal String.length) in E.
  rewrite length_append in E. simpl in E. lia.
Qed.

(** [JoinPath(base, "workflows")]: the decoded path is the base
    directory followed by [workflows]; what [String] prints for it is
    that path with the directory either as the base URL spells it or
    escaped afresh. *)
Lemma JoinPath_workflows_spec (u : URL) :
  let u' := JoinPath u ["workflows"] in
  (exists rp, u' = with_path u (base_dir u +:+ "workflows") rp)
  /\ exists d, dir_like d /\ EscapedPath u' = d +:+ "workflows".
Proof.
  cbv zeta. rewrite JoinPath_workflows.
  assert (well_escaped (base_prefix u +:+ "workflows")) as Hw.
  { unfold well_escaped. rewrite unescape_check_app; [reflexivity |].
    apply base_prefix_well_escaped. }
  assert (unescape_build (base_prefix u +:+ "workflows") encodePath
          = base_dir u +:+ "workflows") as Hb.
  { rewrite unescape_build_app by apply base_prefix_well_escaped. reflexivity. }
  split.
  - rewrite setPath_well_escaped by exact Hw. cbn [fst]. rewrite Hb. eauto.
  - destruct (EscapedPath_setPath u _ Hw) as [-> | ->].
    + rewrite Hb. apply append_not_star. simpl; lia.
    + exists (base_prefix u). split; [apply base_prefix_dir_like | reflexivity].
    + rewrite Hb, escape_app. exists (escape (base_dir u) encodePath).
      split; [apply base_dir_dir_like | reflexivity].
Qed.

Lemma plain_identifier_inv (id : string) :
  plain_identifier id = true ->
  plain_segment id = true /\ Strings.Contains1 id "%" = false.
Proof.
  unfold plain_identifier. intros H. apply andb_prop in H as [H1 H2].
  now apply negb_true_iff in H2.
Qed.

(** [JoinPath(base, "workflows", id)] for a plain identifier: the
    decoded path is the base directory followed by the two segments;
    [String] prints it as given, or escaped afresh, the identifier
    included. *)
Lemma JoinPath_workflows_id_spec (u : URL) (id : string) :
  plain_identifier id = true ->
  let u' := JoinPath u ["workflows"; id] in
  (exists rp, u' = with_path u (base_dir u +:+ "workflows/" +:+ id) rp)
  /\ (EscapedPath u' = base_prefix u +:+ "workflows/" +:+ id
      \/ EscapedPath u'
         = escape (base_dir u) encodePath +:+ "workflows/" +:+ escape id encodePath).
Proof.
  intros Hid. apply plain_identifier_inv in Hid as [Hseg Hpct].
  destruct (unescape_no_percent id Hpct) as [Hidw Hidb].
  cbv zeta. rewrite JoinPath_workflows_id by exact Hseg.
  assert (well_escaped (base_prefix u +:+ "workflows/" +:+ id)) as Hw.
  { unfold well_escaped.
    rewrite unescape_check_app by apply base_prefix_well_escaped.
    rewrite unescape_check_app; [exact Hidw | reflexivity]. }
  assert (unescape_build (base_prefix u +:+ "workflows/" +:+ id) encodePath
          = base_dir u +:+ "workflows/" +:+ id) as Hb.
  { rewrite unescape_build_app by apply base_prefix_well_escaped.
    rewrite unescape_build_app by reflexivity. now rewrite Hidb. }
  split.
  - rewrite setPath_well_escaped by exact Hw. cbn [fst]. rewrite Hb. eauto.
  - destruct (EscapedPath_setPath u _ Hw) as [-> | ->].
    + rewrite Hb. apply append_not_star. rewrite length_append. simpl; lia.
    + now left.
    + right. now rewrite Hb, !escape_app.
Qed.

End BuiltURLs.

(** ** Numbers and query strings *)

Section QueryFacts.

Import Url.

Lemma digit_cases (d : Z) :
  0 <= d < 10 ->
  is_digit (Strconv.digit d) = true
  /\ shouldEscape (Strconv.digit d) encodeQueryComponent = false
  /\ Z.of_N (Char.code (Strconv.digit d)) - 48 = d.
Proof.
  intros H.
  assert (d = 0 \/ d = 1 \/ d = 2 \/ d = 3 \/ d = 4 \/ d = 5 \/ d = 6 \/ d = 7
          \/ d = 8 \/ d = 9) as Hd by lia.
  repeat (destruct Hd as [-> | Hd]; [vm_compute; auto |]). subst d. vm_compute; auto.
Qed.

Lemma formatBits_digits (fuel : nat) :
  forall u acc,
    0 <= u ->
    all_bytes is_digit acc = true ->
    all_bytes is_digit (Strconv.formatBits fuel u acc) = true.
Proof.
  induction fuel as [|fuel IH]; intros u acc Hu Hacc; [exact Hacc |].
  cbn [Strconv.formatBits]. destruct (Z.ltb_spec u 10).
  - cbn [all_bytes]. destruct (digit_cases u) as (-> & _ & _); [lia | exact Hacc].
  - apply IH; [apply Z.div_pos; lia |].
    cbn [all_bytes].
    destruct (digit_cases (u mod 10)) as (-> & _ & _); [| exact Hacc].
    apply Z.mod_pos_bound. lia.
Qed.

(** The digits written are those of [u]: read back, they give [u]. *)
Lemma formatBits_value (fuel : nat) :
  forall u acc,
    0 <= u < 10 ^ Z.of_nat fuel ->
    decimal_value (Strconv.formatBits fuel u acc) 0 = decimal_value acc u.
Proof.
  induction fuel as [|fuel IH]; intros u acc Hu.
  - cbn [Strconv.formatBits]. change (10 ^ Z.of_nat 0) with 1 in Hu.
    now replace u with 0 by lia.
  - cbn [Strconv.formatBits]. destruct (Z.ltb_spec u 10).
    + cbn [decimal_value]. destruct (digit_cases u) as (_ & _ & ->); [lia |].
      reflexivity.
    + rewrite IH.
      * cbn [decimal_value].
        destruct (digit_cases (u mod 10)) as (_ & _ & ->);
          [apply Z.mod_pos_bound; lia |].
        f_equal. pose proof (Z.div_mod u 10). lia.
      * rewrite Nat2Z.inj_succ, Z.pow_succ_r in Hu by lia.
        split; [apply Z.div_pos; lia |].
        apply Z.div_lt_upper_bound; lia.
Qed.

Lemma digits_query_plain (s : string) :
  all_bytes is_digit s = true -> query_plain s = true.
Proof.
  unfold query_plain. induction s as [|c r IH]; [reflexivity |].
  cbn [all_bytes]. intros H. apply andb_prop in H as [Hc Hr].
  rewrite IH by exact Hr. rewrite andb_true_r.
  unfold shouldEscape. unfold is_digit in Hc. rewrite Hc.
  now rewrite !orb_true_r.
Qed.

(** [Itoa] of a non-negative [int] is its decimal numeral. *)
Lemma Itoa_decimal (i : Z) :
  0 <= i -> Strconv.is_int i ->
  all_bytes is_digit (Strconv.Itoa i) = true
  /\ decimal_value (Strconv.Itoa i) 0 = i.
Proof.
  intros Hpos [_ Hhi]. unfold Strconv.Itoa, Strconv.FormatInt10.
  destruct (Z.ltb_spec i 0); [lia |]. split.
  - now apply formatBits_digits.
  - rewrite formatBits_value; [reflexivity |].
    split; [exact Hpos |].
    apply Z.lt_trans with (2 ^ 63); [exact Hhi | reflexivity].
Qed.

(** [Itoa] never writes a byte that a query string has to escape. *)
Lemma Itoa_query_plain (i : Z) : query_plain (Strconv.Itoa i) = true.
Proof.
  unfold Strconv.Itoa, Strconv.FormatInt10.
  destruct (Z.ltb_spec i 0).
  - unfold query_plain. cbn [all_bytes].
    change (negb (shouldEscape "-" encodeQueryComponent)) with true.
    apply digits_query_plain, formatBits_digits; [lia | reflexivity].
  - apply digits_query_plain, formatBits_digits; [lia | reflexivity].
Qed.

Lemma QueryEscape_plain (s : string) : query_plain s = true -> QueryEscape s = s.
Proof.
  unfold query_plain, QueryEscape. induction s as [|c r IH]; [reflexivity |].
  cbn [all_bytes escape encoding_eqb]. intros H. apply andb_prop in H as [Hc Hr].
  apply negb_true_iff in Hc. rewrite andb_true_r.
  destruct (Char.eq c " ") eqn:E.
  - apply Ascii.eqb_eq in E. subst c. discriminate.
  - now rewrite Hc, IH.
Qed.

(** The two parameters are written in the order of their keys. *)
Lemma Encode_page_limit (P L : string) :
  Encode (Values_Set (Values_Set ∅ "page" P) "limit" L)
  = "limit=" +:+ QueryEscape L +:+ "&page=" +:+ QueryEscape P.
Proof.
  unfold Encode, Values_Set.
  assert (sorted_keys (<["limit" := [L]]> (<["page" := [P]]> (∅ : Values)))
          = ["limit"; "page"]) as ->.
  { vm_compute. reflexivity. }
  assert (size (<["limit" := [L]]> (<["page" := [P]]> (∅ : Values))) = 2%nat) as ->.
  { vm_compute. reflexivity. }
  cbn [Nat.eqb fold_left]. unfold values_at.
  rewrite lookup_insert_eq, lookup_insert_ne, lookup_insert_eq by discriminate.
  cbn [Nat.eqb fold_left default String.length Nat.ltb Nat.leb].
  unfold id. cbn [fold_left String.length]. rewrite !append_nil_l.
  change (QueryEscape "limit") with "limit".
  change (QueryEscape "page") with "page".
  rewrite append_cons. cbn [String.length].
  rewrite !append_assoc. reflexivity.
Qed.

Lemma query_plain_Contains1 (s : string) (c : ascii) :
  shouldEscape c encodeQueryComponent = true ->
  query_plain s = true -> Strings.Contains1 s c = false.
Proof.
  intros Hc. unfold query_plain. induction s as [|d r IH]; [reflexivity |].
  cbn [all_bytes Strings.Contains1]. intros H. apply andb_prop in H as [Hd Hr].
  rewrite IH by exact Hr. rewrite orb_false_r.
  destruct (Ascii.eqb_spec d c) as [-> | Hne]; [| reflexivity].
  now rewrite Hc in Hd.
Qed.

Lemma QueryUnescape_plain (s : string) :
  query_plain s = true -> QueryUnescape s = Some s.
Proof.
  intros H. unfold QueryUnescape, unescape.
  assert (unescape_check s encodeQueryComponent = true
          /\ unescape_build s encodeQueryComponent = s) as [-> ->]; [| reflexivity].
  unfold query_plain in H. induction s as [|c r IH]; [now split |].
  cbn [all_bytes] in H. apply andb_prop in H as [Hc Hr].
  apply negb_true_iff in Hc. destruct (IH Hr) as [IHc IHb].
  cbn [unescape_check unescape_build encoding_eqb orb andb negb].
  destruct (Char.eq c "%") eqn:E1.
  { apply Ascii.eqb_eq in E1. subst c. discriminate. }
  destruct (Char.eq c "+") eqn:E2.
  { apply Ascii.eqb_eq in E2. subst c. discriminate. }
  now rewrite IHc, IHb.
Qed.

Lemma Cut_found (a b : string) (sep : ascii) :
  Strings.Contains1 a sep = false ->
  Strings.Cut (a +:+ String sep b) sep = (a, b, true).
Proof.
  induction a as [|c r IH]; intros H.
  - rewrite append_nil_l. cbn [Strings.Cut]. now rewrite Ascii.eqb_refl.
  - cbn [Strings.Contains1] in H. apply orb_false_elim in H as [Hc Hr].
    rewrite append_cons. cbn [Strings.Cut]. now rewrite Hc, IH.
Qed.

Lemma Cut_not_found (a : string) (sep : ascii) :
  Strings.Contains1 a sep = false -> Strings.Cut a sep = (a, "", false).
Proof.
  induction a as [|c r IH]; intros H; [reflexivity |].
  cbn [Strings.Contains1] in H. apply orb_false_elim in H as [Hc Hr].
  cbn [Strings.Cut]. now rewrite Hc, IH.
Qed.

Lemma Contains1_app (a b : string) (c : ascii) :
  Strings.Contains1 (a +:+ b) c = Strings.Contains1 a c || Strings.Contains1 b c.
Proof.
  induction a as [|d r IH]; [reflexivity |].
  rewrite append_cons. cbn [Strings.Contains1]. now rewrite IH, orb_assoc.
Qed.

Lemma Cut_after_shorter (s : string) (sep : ascii) :
  s <> "" ->
  (String.length (snd (fst (Strings.Cut s sep))) < String.length s)%nat.
Proof.
  induction s as [|c r IH]; intros Hs; [congruence |].
  cbn [Strings.Cut]. destruct (Ascii.eqb c sep); [simpl; lia |].
  destruct r as [|d r']; [simpl; lia |].
  specialize (IH ltac:(discriminate)).
  destruct (Strings.Cut (String d r') sep) as [[before after] found].
  cbn [fst snd String.length] in *. lia.
Qed.

(** The loop of [parseQuery] ends before its fuel does: any fuel above
    the length of the query gives the same result. *)
Lemma parseQuery_fuel (n : nat) :
  forall k m query err,
    (String.length query < n)%nat -> (String.length query < k)%nat ->
    parseQuery n m query err = parseQuery k m query err.
Proof.
  induction n as [|n IH]; intros k m query err Hn Hk; [lia |].
  destruct k as [|k]; [lia |]. cbn [parseQuery].
  destruct (String.eqb_spec query "") as [| Hne]; [reflexivity |].
  pose proof (Cut_after_shorter query "&" Hne) as Hlt.
  destruct (Strings.Cut query "&") as [[key query'] found]. cbn [fst snd] in Hlt.
  assert (forall m' err', parseQuery n m' query' err' = parseQuery k m' query' err') as Hrec
    by (intros; apply IH; lia).
  destruct (Strings.Contains1 key ";"); [apply Hrec |].
  destruct (String.eqb key ""); [apply Hrec |].
  destruct (Strings.Cut key "=") as [[key0 value] found0].
  destruct (QueryUnescape key0); [| apply Hrec].
  destruct (QueryUnescape value); apply Hrec.
Qed.

(** One round of [parseQuery] on a pair [key=value] of plain text. *)
Lemma parseQuery_pair (fuel : nat) (m : Values) (query key value query' : string)
    (found err : bool) :
  Strings.Cut query "&" = (key +:+ String "=" value, query', found) ->
  key <> "" -> query_plain key = true -> query_plain value = true ->
  parseQuery (S fuel) m query err
  = parseQuery fuel (<[key := (values_at m key ++ [value])%list]> m) query' err.
Proof.
  intros HCut Hkey Hk Hv. cbn [parseQuery].
  assert (String.eqb query "" = false) as ->.
  { destruct query; [| reflexivity]. cbn in HCut. destruct key; discriminate. }
  rewrite HCut.
  assert (Strings.Contains1 (key +:+ String "=" value) ";" = false) as ->.
  { rewrite Contains1_app. cbn [Strings.Contains1].
    rewrite !query_plain_Contains1 by (reflexivity || assumption). reflexivity. }
  assert (String.eqb (key +:+ String "=" value) "" = false) as ->.
  { destruct key; [congruence | reflexivity]. }
  rewrite Cut_found by (apply query_plain_Contains1; [reflexivity | assumption]).
  now rewrite !QueryUnescape_plain by assumption.
Qed.

(** Parsed back, the query string holds the two parameters and nothing
    else. *)
Lemma ParseQuery_page_limit (P L : string) :
  query_plain P = true -> query_plain L = true ->
  ParseQuery ("limit=" +:+ L +:+ "&page=" +:+ P)
  = (<["page" := [P]]> (<["limit" := [L]]> ∅), false).
Proof.
  intros HP HL. unfold ParseQuery.
  assert (exists n, String.length ("limit=" +:+ L +:+ "&page=" +:+ P) = S (S n))
    as [n ->].
  { rewrite !length_append. simpl. eauto. }
  rewrite (parseQuery_pair _ _ _ "limit" L ("page=" +:+ P) true).
  - rewrite (parseQuery_pair _ _ _ "page" P "" false).
    + unfold values_at. rewrite lookup_empty, lookup_insert_ne, lookup_empty by discriminate.
      cbn [default app]. now destruct n.
    + apply Cut_not_found. rewrite (Contains1_app "page").
      cbn [Strings.Contains1]. now rewrite query_plain_Contains1.
    + discriminate.
    + reflexivity.
    + exact HP.
  - change ("limit=" +:+ L +:+ "&page=" +:+ P)
      with ("limit" +:+ String "=" (L +:+ String "&" ("page=" +:+ P))).
    rewrite <- (append_cons "=" L), <- (append_assoc "limit").
    apply Cut_found. rewrite (Contains1_app "limit").
    cbn [Strings.Contains1]. now rewrite query_plain_Contains1.
  - discriminate.
  - reflexivity.
  - exact HL.
Qed.

End QueryFacts.

(** ** Fields that [JoinPath] leaves alone, and the parts of [String] *)

Section StringParts.

Import Url.

Lemma JoinPath_cases (u : URL) (elem : list string) :
  JoinPath u elem = u \/ exists p rp, JoinPath u elem = with_path u p rp.
Proof.
  unfold JoinPath, setPath.
  destruct (unescape _ encodePath); [| now left].
  destruct (String.eqb _ _); right; eauto.
Qed.

Lemma JoinPath_RawQuery (u : URL) (elem : list string) :
  RawQuery (JoinPath u elem) = RawQuery u.
Proof. destruct (JoinPath_cases u elem) as [-> | (p & rp & ->)]; reflexivity. Qed.

Lemma JoinPath_Query (u : URL) (elem : list string) :
  Query (JoinPath u elem) = Query u.
Proof. unfold Query. now rewrite JoinPath_RawQuery. Qed.

Lemma String_head_with_RawQuery (u : URL) (q : string) :
  String_head (with_RawQuery u q) = String_head u.
Proof. reflexivity. Qed.

Lemma String_fragment_with_RawQuery (u : URL) (q : string) :
  String_fragment (with_RawQuery u q) = String_fragment u.
Proof. reflexivity. Qed.

(** With a host and no opaque part, the printed URL shows the path
    after a [/]. *)
Lemma String_head_ends (u : URL) (d rest : string) :
  Opaque u = "" -> Host u <> "" ->
  dir_like d -> rest <> "" -> Strings.HasPrefix rest "/" = false ->
  EscapedPath u = d +:+ rest ->
  exists pre, String_head u = pre +:+ "/" +:+ rest.
Proof.
  intros Ho Hh Hd Hrest Hroot Hp. unfold String_head. rewrite Ho, Hp.
  cbn [String.eqb negb]. cbv zeta.
  apply String.eqb_neq in Hh. rewrite Hh. cbn [negb]. rewrite andb_true_r.
  destruct Hd as [-> | [d' ->]].
  - rewrite append_nil_l. rewrite Hroot.
    apply String.eqb_neq in Hrest. rewrite Hrest. cbn [negb andb].
    rewrite length_append. cbn [String.length].
    replace (String.length (String_authority u) + 1 =? 0)%nat with false
      by (symmetry; apply Nat.eqb_neq; lia).
    exists (String_authority u). now rewrite append_assoc.
  - match goal with
    | |- exists pre, ?buf +:+ _ = _ => exists (buf +:+ d')
    end.
    now rewrite !append_assoc.
Qed.

End StringParts.

(** ** The path as [URL.String] prints it *)

Section PrintedPaths.

Import Url.

Lemma all_bytes_app (P : ascii -> bool) (a b : string) :
  all_bytes P (a +:+ b) = all_bytes P a && all_bytes P b.
Proof.
  induction a as [|c a IH]; [reflexivity |].
  rewrite append_cons. cbn [all_bytes]. now rewrite IH, andb_assoc.
Qed.

(** What [validEncoded] accepts in a path, byte by byte. *)
Lemma validEncoded_path_byte (c : ascii) :
  (if Char.one_of "!$&'()*+,;=:@" c then true
   else if Char.one_of "[]" c then true
   else if Char.eq c "%" then true
   else negb (shouldEscape c encodePath)) = path_byte c.
Proof. byte_cases c; reflexivity. Qed.

Lemma validEncoded_path_text (s : string) : validEncoded s encodePath = path_text s.
Proof.
  unfold path_text. induction s as [|c r IH]; [reflexivity |].
  cbn [validEncoded all_bytes]. now rewrite validEncoded_path_byte, IH.
Qed.

Lemma path_byte_unescaped (c : ascii) :
  shouldEscape c encodePath = false -> path_byte c = true.
Proof. byte_cases c; vm_compute; congruence. Qed.

Lemma path_byte_upperhex (n : N) : path_byte (upperhex n) = true.
Proof.
  unfold upperhex. generalize (N.to_nat n) as k. intros k.
  do 16 (destruct k as [|k]; [reflexivity |]). reflexivity.
Qed.

(** [escape] writes nothing that would have to be escaped. *)
Lemma path_text_escape (s : string) : path_text (escape s encodePath) = true.
Proof.
  unfold path_text. induction s as [|c r IH]; [reflexivity |].
  cbn [escape encoding_eqb]. rewrite andb_false_r.
  destruct (shouldEscape c encodePath) eqn:E; cbn [all_bytes].
  - now rewrite !path_byte_upperhex, IH.
  - now rewrite (path_byte_unescaped c E), IH.
Qed.

Lemma path_text_EscapedPath (u : URL) : path_text (EscapedPath u) = true.
Proof.
  unfold EscapedPath.
  destruct (negb (String.eqb (RawPath u) "") && validEncoded (RawPath u) encodePath) eqn:V.
  - apply andb_prop in V as [_ V]. rewrite validEncoded_path_text in V.
    destruct (match unescape (RawPath u) encodePath with
              | Some p => String.eqb p (Path u)
              | None => false
              end); cbn [andb]; [exact V |].
    destruct (String.eqb (Path u) "*"); [reflexivity | apply path_text_escape].
  - cbn [andb]. destruct (String.eqb (Path u) "*"); [reflexivity | apply path_text_escape].
Qed.

Lemma all_bytes_substring (P : ascii -> bool) (s : string) :
  forall w, all_bytes P s = true -> all_bytes P (String.substring 0 w s) = true.
Proof.
  induction s as [|c s IH]; intros w H; [now destruct w |].
  cbn [all_bytes] in H. apply andb_prop in H as [Hc Hs].
  destruct w as [|w]; [reflexivity |]. cbn [String.substring all_bytes].
  now rewrite Hc, IH.
Qed.

(** [Clean] writes bytes of its input, [/] and [.], and nothing else. *)
Lemma clean_loop_all_bytes (P : ascii -> bool) :
  P "/"%char = true -> P "."%char = true ->
  forall path rooted copying out dd,
    all_bytes P out = true -> all_bytes P path = true ->
    all_bytes P (fst (Path.clean_loop rooted copying path out dd)) = true.
Proof.
  intros Hs Hd. induction path as [path IH] using string_strong_ind.
  intros rooted copying out dd Ho Hp.
  destruct path as [|c r]; [exact Ho |].
  cbn [all_bytes] in Hp. apply andb_prop in Hp as [Hc Hr].
  assert (String.length r < String.length (String c r))%nat as Hlt by (simpl; lia).
  assert (forall o x, all_bytes P o = true -> P x = true ->
            all_bytes P (o +:+ String x "") = true) as Hsnoc.
  { intros o x Hox Hx. rewrite all_bytes_app, Hox. cbn [all_bytes]. now rewrite Hx. }
  cbn [Path.clean_loop].
  destruct copying.
  { destruct (Char.eq c "/"); apply IH; auto. }
  destruct (Char.eq c "/"); [apply IH; auto |].
  assert (all_bytes P
            (fst (Path.clean_loop rooted true r
                    ((if rooted && negb (String.length out =? 1)%nat
                         || negb rooted && negb (String.length out =? 0)%nat
                      then out +:+ "/" else out) +:+ String c "") dd)) = true) as Hreal.
  { apply IH; auto. apply Hsnoc; [| exact Hc]. destruct (_ || _); auto. }
  destruct (Char.eq c "."); [| exact Hreal].
  destruct r as [|c1 r1]; [exact Ho |].
  destruct (Char.eq c1 "/"); [apply IH; auto |].
  destruct (Char.eq c1 "." && _); [| exact Hreal].
  cbn [all_bytes] in Hr. apply andb_prop in Hr as [_ Hr1].
  assert (String.length r1 < String.length (String c (String c1 r1)))%nat as Hlt1
    by (simpl; lia).
  destruct (dd <? String.length out)%nat.
  { apply IH; auto. unfold Path.backtrack. now apply all_bytes_substring. }
  destruct (negb rooted); [| apply IH; auto].
  apply IH; auto. rewrite all_bytes_app. cbn [all_bytes]. rewrite Hd, andb_true_r.
  destruct (0 <? String.length out)%nat; auto.
Qed.

Lemma path_text_Clean_rooted (x : string) :
  path_text (String "/" x) = true -> path_text (Path.Clean (String "/" x)) = true.
Proof.
  intros H. destruct (Clean_rooted x) as [-> _]. unfold path_text in *.
  cbn [all_bytes] in H. apply andb_prop in H as [_ H].
  apply clean_loop_all_bytes; auto.
Qed.

(** The base directory as [JoinPath] spells it needs no escaping. *)
Lemma path_text_base_prefix (u : URL) : path_text (base_prefix u) = true.
Proof.
  assert (path_text (rooted_EscapedPath u) = true) as Hr.
  { unfold rooted_EscapedPath. pose proof (path_text_EscapedPath u) as H.
    destruct (Strings.HasPrefix (EscapedPath u) "/"); [exact H |].
    unfold path_text in *. rewrite append_cons. cbn [all_bytes]. now rewrite append_nil_l, H. }
  unfold base_prefix.
  destruct (rooted_EscapedPath_rooted u) as [x Hx]. rewrite Hx in *.
  apply path_text_Clean_rooted in Hr.
  assert (path_text (dir_of (Path.Clean (String "/" x))) = true) as Hdir.
  { unfold dir_of. destruct (_ =? _)%nat; [exact Hr |].
    unfold path_text in *. now rewrite all_bytes_app, Hr. }
  destruct (Strings.HasPrefix (EscapedPath u) "/"); [exact Hdir |].
  destruct (dir_of (Path.Clean (String "/" x))) as [|c d]; [reflexivity |].
  unfold path_text in *. cbn [all_bytes Strings.tail] in *.
  now apply andb_prop in Hdir.
Qed.

(** After [setPath], [String] prints the path as it was given when every
    byte of it may stand in a path, and escaped afresh otherwise. *)
Lemma EscapedPath_setPath_exact (u : URL) (p : string) :
  well_escaped p ->
  unescape_build p encodePath <> "*" ->
  EscapedPath (fst (setPath u p))
  = if path_text p then p else escape (unescape_build p encodePath) encodePath.
Proof.
  intros Hw Hstar. rewrite setPath_well_escaped by exact Hw. cbn [fst].
  apply String.eqb_neq in Hstar.
  unfold EscapedPath. cbn [with_path RawPath Path].
  destruct (String.eqb p (escape _ _)) eqn:E.
  - cbn [String.eqb negb andb]. rewrite Hstar.
    apply String.eqb_eq in E. rewrite <- E. now destruct (path_text p).
  - rewrite validEncoded_path_text. unfold unescape. unfold well_escaped in Hw.
    rewrite Hw, String.eqb_refl, andb_true_r.
    destruct (String.eqb p "") eqn:Ep.
    + apply String.eqb_eq in Ep. subst p. discriminate.
    + cbn [negb andb]. destruct (path_text p); [reflexivity | now rewrite Hstar].
Qed.

(** The path [String] prints for the URL of [CreateWorkflow] and
    [GetWorkflows]. *)
Lemma EscapedPath_JoinPath_workflows (u : URL) :
  EscapedPath (JoinPath u ["workflows"]) = base_prefix u +:+ "workflows".
Proof.
  rewrite JoinPath_workflows.
  assert (well_escaped (base_prefix u +:+ "workflows")) as Hw.
  { unfold well_escaped. rewrite unescape_check_app; [reflexivity |].
    apply base_prefix_well_escaped. }
  rewrite EscapedPath_setPath_exact; [| exact Hw |].
  - unfold path_text. rewrite all_bytes_app. fold (path_text (base_prefix u)).
    now rewrite path_text_base_prefix.
  - rewrite unescape_build_app by apply base_prefix_well_escaped.
    apply append_not_star. simpl; lia.
Qed.

(** The path [String] prints for the URL of a single-segment
    identifier that decodes to [d]. *)
Lemma EscapedPath_JoinPath_workflows_id (u : URL) (id d : string) :
  plain_segment id = true ->
  unescape id encodePath = Some d ->
  EscapedPath (JoinPath u ["workflows"; id])
  = if path_text id then base_prefix u +:+ "workflows/" +:+ id
    else escape (base_dir u) encodePath +:+ "workflows/" +:+ escape d encodePath.
Proof.
  intros Hseg Hd. unfold unescape in Hd.
  destruct (unescape_check id encodePath) eqn:Hidw; [| discriminate].
  injection Hd as Hd.
  rewrite JoinPath_workflows_id by exact Hseg.
  assert (well_escaped (base_prefix u +:+ "workflows/" +:+ id)) as Hw.
  { unfold well_escaped.
    rewrite unescape_check_app by apply base_prefix_well_escaped.
    rewrite unescape_check_app; [exact Hidw | reflexivity]. }
  assert (unescape_build (base_prefix u +:+ "workflows/" +:+ id) encodePath
          = base_dir u +:+ "workflows/" +:+ d) as Hb.
  { rewrite unescape_build_app by apply base_prefix_well_escaped.
    rewrite unescape_build_app by reflexivity. now rewrite Hd. }
  rewrite EscapedPath_setPath_exact; [| exact Hw |].
  - rewrite Hb. unfold path_text. rewrite !all_bytes_app.
    fold (path_text (base_prefix u)). rewrite path_text_base_prefix.
    change (all_bytes path_byte "workflows/") with true. cbn [andb].
    destruct (all_bytes path_byte id); [reflexivity |].
    now rewrite !escape_app.
  - rewrite Hb. apply append_not_star. rewrite length_append. simpl; lia.
Qed.

(** *** A URL with a host *)

Lemma String_authority_with_path (u : URL) (p rp : string) :
  Host u <> "" -> String_authority (with_path u p rp) = String_authority u.
Proof.
  intros Hh. apply String.eqb_neq in Hh. unfold String_authority.
  cbn [with_path Scheme Host User OmitHost Path]. rewrite Hh. cbn [negb orb andb].
  now rewrite !orb_true_r.
Qed.

Lemma String_authority_not_empty (u : URL) :
  Host u <> "" -> (String.length (String_authority u) =? 0)%nat = false.
Proof.
  intros Hh. apply String.eqb_neq in Hh. unfold String_authority.
  rewrite Hh. cbn [negb orb andb]. rewrite !orb_true_r, andb_false_r. cbn [orb andb].
  apply Nat.eqb_neq.
  destruct (negb (String.eqb (Scheme u) "")), (User u);
    rewrite ?append_nil_l, !length_append; cbn [String.length]; lia.
Qed.

(** With a host and no opaque part, [String] writes the scheme and the
    authority, the path after a [/], the query and the fragment. *)
Lemma URL_String_host (u : URL) :
  Opaque u = "" -> Host u <> "" ->
  URL_String u
  = ((String_authority u +:+ path_slash (EscapedPath u) +:+ EscapedPath u)
     +:+ String_query u) +:+ String_fragment u.
Proof.
  intros Ho Hh. pose proof (String_authority_not_empty u Hh) as Hlen.
  apply String.eqb_neq in Hh.
  unfold URL_String, String_head, path_slash. rewrite Ho, Hh.
  cbn [String.eqb negb]. cbv zeta. rewrite andb_true_r, <- negb_orb.
  destruct (String.eqb (EscapedPath u) "" || Strings.HasPrefix (EscapedPath u) "/");
    cbn [negb].
  - now rewrite Hlen, append_nil_l.
  - rewrite length_append. cbn [String.length].
    replace (String.length (String_authority u) + 1 =? 0)%nat with false
      by (symmetry; apply Nat.eqb_neq; lia).
    now rewrite (append_assoc (String_authority u) "/").
Qed.

(** The same for the URL that [JoinPath] builds: all but the path is as
    in the base URL. *)
Lemma JoinPath_URL_String_host (u : URL) (elem : list string) :
  Opaque u = "" -> Host u <> "" ->
  URL_String (JoinPath u elem)
  = ((String_authority u +:+ path_slash (EscapedPath (JoinPath u elem))
      +:+ EscapedPath (JoinPath u elem))
     +:+ String_query u) +:+ String_fragment u.
Proof.
  intros Ho Hh.
  destruct (JoinPath_cases u elem) as [-> | (p & rp & ->)];
    [now apply URL_String_host |].
  rewrite URL_String_host by assumption.
  now rewrite String_authority_with_path.
Qed.

End PrintedPaths.

(** * The claims *)

Section Claims.

Context {Ctx JsonResponse Err CreateWorkflowRequest UpdateWorkflowRequest Net : Type}.
Variable zeroJsonResponse : JsonResponse.
Variable transport :
  @Request Ctx CreateWorkflowRequest UpdateWorkflowRequest ->
  Net -> (JsonResponse * option Err) * Net.

Local Abbreviation World := (@World Ctx CreateWorkflowRequest UpdateWorkflowRequest Net).
Local Abbreviation Call := (@Call Ctx CreateWorkflowRequest UpdateWorkflowRequest).
Local Abbreviation Request := (@Request Ctx CreateWorkflowRequest UpdateWorkflowRequest).
Local Abbreviation perform := (perform zeroJsonResponse transport).

(** C2.  On a configured service every call runs to its end with
    exactly one request handed to the transport, and an error the
    transport returns for that request is the error the call returns,
    the very same value. *)
Theorem transport_error_returned_unchanged (w : World) (e : loc) (base : Url.URL)
    (c : Call) :
  configured w e = Some base ->
  exists rq r w',
    perform e c w = Some (r, w')
    /\ calls w' = calls w ++ [rq]
    /\ net w' = snd (transport rq (net w))
    /\ forall err, snd (fst (transport rq (net w))) = Some err -> snd r = Some err.
Proof.
  intros H. rewrite (perform_run _ _ _ _ _ _ H). cbv zeta.
  exists (call_request base c).
  destruct (transport (call_request base c) (net w)) as [[resp err] n].
  eexists _, _. split; [reflexivity |]. cbn [calls net snd fst].
  split; [reflexivity | split; [reflexivity |]].
  intros err' ->. now destruct c.
Qed.

(** C7.  No call checks its arguments: whatever the identifier (the
    empty string included) and whatever the page and limit (zero and
    negative included), the call on a configured service hands exactly
    one request to the transport and returns an error exactly when the
    transport does. *)
Theorem no_local_validation (w : World) (e : loc) (base : Url.URL) (c : Call) :
  configured w e = Some base ->
  exists rq r w',
    perform e c w = Some (r, w')
    /\ calls w' = calls w ++ [rq]
    /\ (is_Some (snd r) <-> is_Some (snd (fst (transport rq (net w))))).
Proof.
  intros H. rewrite (perform_run _ _ _ _ _ _ H). cbv zeta.
  exists (call_request base c).
  destruct (transport (call_request base c) (net w)) as [[resp err] n].
  eexists _, _. split; [reflexivity |]. cbn [calls snd fst].
  split; [reflexivity |].
  destruct c, err; reflexivity.
Qed.

(** C8.  The context given to a call is the context of the one request
    the transport receives. *)
Theorem context_forwarded (w : World) (e : loc) (base : Url.URL) (c : Call) :
  configured w e = Some base ->
  exists rq r w',
    perform e c w = Some (r, w')
    /\ calls w' = calls w ++ [rq]
    /\ req_ctx rq = call_ctx c.
Proof.
  intros H. rewrite (perform_run _ _ _ _ _ _ H). cbv zeta.
  exists (call_request base c).
  destruct (transport (call_request base c) (net w)) as [answer n].
  eexists _, _. split; [reflexivity |]. split; reflexivity.
Qed.

(** C9.  A call changes no object that was on the heap before it: the
    service, its client, the configuration and the configured URL read
    the same afterwards, whatever the transport answered.  The URL the
    call builds lives at a new address. *)
Theorem service_state_unchanged (w : World) (e : loc) (base : Url.URL) (c : Call) :
  configured w e = Some base ->
  exists r w',
    perform e c w = Some (r, w')
    /\ (forall l o, heap w !! l = Some o -> heap w' !! l = Some o)
    /\ (forall b, service_at w e b base -> service_at w' e b base)
    /\ configured w' e = Some base.
Proof.
  intros H. rewrite (perform_run _ _ _ _ _ _ H). cbv zeta.
  destruct (transport (call_request base c) (net w)) as [answer n].
  eexists _, _. split; [reflexivity |]. cbn [heap].
  assert (forall l o, heap w !! l = Some o ->
            <[fresh (dom (heap w)) := ObjURL (call_URL base c)]> (heap w) !! l = Some o)
    as Hframe.
  { intros l o Hl. rewrite lookup_insert_ne; [exact Hl |].
    intros E. apply (is_fresh (dom (heap w))). rewrite E.
    apply elem_of_dom. eauto. }
  assert (forall b, service_at w e b base ->
            service_at {| heap := <[fresh (dom (heap w)) := ObjURL (call_URL base c)]> (heap w);
                          net := n; calls := calls w ++ [call_request base c] |} e b base)
    as Hsvc.
  { intros b (client & config & He & Hc & Hg & Hb).
    exists client, config. cbn [heap]. auto. }
  split; [exact Hframe | split; [exact Hsvc |]].
  apply configured_service_at in H as [b Hb].
  apply configured_service_at. exists b. now apply Hsvc.
Qed.

(** C10.  When the transport returns an error, [CreateWorkflow] returns
    the zero [JsonResponse] with it, and the five other methods return
    the response the transport produced. *)
Theorem response_on_transport_error (w : World) (e : loc) (base : Url.URL) (c : Call) :
  configured w e = Some base ->
  exists rq r w',
    perform e c w = Some (r, w')
    /\ calls w' = calls w ++ [rq]
    /\ forall resp err n,
         transport rq (net w) = ((resp, Some err), n) ->
         r = (match c with
              | CallCreateWorkflow _ _ => zeroJsonResponse
              | _ => resp
              end, Some err).
Proof.
  intros H. rewrite (perform_run _ _ _ _ _ _ H). cbv zeta.
  exists (call_request base c).
  destruct (transport (call_request base c) (net w)) as [[resp err] n].
  eexists _, _. split; [reflexivity |]. split; [reflexivity |].
  intros resp' err' n' E. injection E as -> -> ->. now destruct c.
Qed.

Variable marshalCreate : CreateWorkflowRequest -> json.
Variable marshalUpdate : UpdateWorkflowRequest -> json.

(** C4, as the code has it.  For a configured URL with a host and
    without opaque part, [CreateWorkflow] hands the transport the method
    POST; the URL string that [String] writes: the scheme and authority of
    the configured URL, then its path as a directory (cleaned, as
    [JoinPath] spells it) followed by the single segment [workflows],
    then its query and fragment; and the record wrapped in the envelope,
    whose JSON value is the object with the one member [data]. *)
Theorem CreateWorkflow_request (w : World) (e : loc) (base : Url.URL) (ctx : Ctx)
    (workflow : CreateWorkflowRequest) :
  configured w e = Some base ->
  Url.Opaque base = "" -> Url.Host base <> "" ->
  exists rq r w' path,
    perform e (CallCreateWorkflow ctx workflow) w = Some (r, w')
    /\ calls w' = calls w ++ [rq]
    /\ req_method rq = "POST"
    /\ path = base_prefix base +:+ "workflows"
    /\ dir_like (base_prefix base)
    /\ req_url rq
       = ((Url.String_authority base +:+ path_slash path +:+ path)
          +:+ Url.String_query base) +:+ Url.String_fragment base
    /\ Url.unescape path Url.encodePath = Some (base_dir base +:+ "workflows")
    /\ req_payload rq = WorkflowCreatePayload workflow
    /\ marshal marshalCreate marshalUpdate (req_payload rq)
       = Some (JObject [("data", marshalCreate workflow)]).
Proof.
  intros H Ho Hh. rewrite (perform_run _ _ _ _ _ _ H). cbv zeta.
  exists (call_request base (CallCreateWorkflow ctx workflow)).
  destruct (transport _ (net w)) as [answer n].
  eexists _, _, (base_prefix base +:+ "workflows").
  split; [reflexivity |]. cbn [calls].
  split; [reflexivity |]. split; [reflexivity |]. split; [reflexivity |].
  split; [apply base_prefix_dir_like |].
  unfold call_request. cbn [req_url req_payload call_URL call_payload marshal].
  split; [| split; [| split; reflexivity]].
  - rewrite JoinPath_URL_String_host by assumption.
    now rewrite EscapedPath_JoinPath_workflows.
  - rewrite <- EscapedPath_JoinPath_workflows.
    destruct (JoinPath_workflows_spec base) as [[rp Hrp] _]. cbv zeta in Hrp.
    rewrite Hrp. apply unescape_EscapedPath.
Qed.

(** C5.  [UpdateWorkflowStatus] hands the transport the method PUT and
    the status wrapped twice: the JSON value of the payload is the
    object with the one member [data], itself the object with the one
    member [active] holding the status. *)
Theorem UpdateWorkflowStatus_request (w : World) (e : loc) (base : Url.URL) (ctx : Ctx)
    (identifier : string) (status : bool) :
  configured w e = Some base ->
  exists rq r w',
    perform e (CallUpdateWorkflowStatus ctx identifier status) w = Some (r, w')
    /\ calls w' = calls w ++ [rq]
    /\ req_method rq = "PUT"
    /\ req_payload rq = WorkflowStatusUpdatePayload status
    /\ marshal marshalCreate marshalUpdate (req_payload rq)
       = Some (JObject [("data", JObject [("active", JBool status)])]).
Proof.
  intros H. rewrite (perform_run _ _ _ _ _ _ H). cbv zeta.
  exists (call_request base (CallUpdateWorkflowStatus ctx identifier status)).
  destruct (transport _ (net w)) as [answer n].
  eexists _, _. split; [reflexivity |]. cbn [calls].
  repeat split.
Qed.

(** C1, as the code has it.  For a configured URL with a host and
    without opaque part, and an identifier that is one literal path
    segment (not empty, not [.] or [..], without [/] and without [%]),
    each of [UpdateWorkflow], [UpdateWorkflowStatus], [GetTenant] and
    [DeleteWorkflow] hands the transport the URL string that [String]
    writes: the scheme and authority of the configured URL, then the
    path, then its query and fragment.  The path is the base directory
    followed by exactly [workflows/] and the identifier.  An identifier
    with a byte that cannot stand in a path as it is (a space, [?], [#],
    a quote, a byte beyond ASCII, ...) is percent-escaped, and the base
    directory is then escaped afresh with it; an identifier without such
    a byte is sent as it is written, after the base directory as
    [JoinPath] spells it.  Either way the path decodes to the base
    directory, [workflows/] and the identifier. *)
Theorem plain_identifier_path (w : World) (e : loc) (base : Url.URL) (c : Call)
    (id : string) :
  configured w e = Some base ->
  Url.Opaque base = "" -> Url.Host base <> "" ->
  call_identifier c = Some id ->
  plain_identifier id = true ->
  exists rq r w' path,
    perform e c w = Some (r, w')
    /\ calls w' = calls w ++ [rq]
    /\ path = (if path_text id
               then base_prefix base +:+ "workflows/" +:+ id
               else Url.escape (base_dir base) Url.encodePath +:+ "workflows/"
                    +:+ Url.escape id Url.encodePath)
    /\ dir_like (base_prefix base)
    /\ dir_like (Url.escape (base_dir base) Url.encodePath)
    /\ req_url rq
       = ((Url.String_authority base +:+ path_slash path +:+ path)
          +:+ Url.String_query base) +:+ Url.String_fragment base
    /\ Url.unescape path Url.encodePath = Some (base_dir base +:+ "workflows/" +:+ id).
Proof.
  intros H Ho Hh Hc Hid. rewrite (perform_run _ _ _ _ _ _ H). cbv zeta.
  destruct (JoinPath_workflows_id_spec base id Hid) as [[rp Hrp] _]. cbv zeta in Hrp.
  pose proof Hid as Hplain. apply plain_identifier_inv in Hplain as [Hseg Hpct].
  assert (Url.unescape id Url.encodePath = Some id) as Hdec.
  { unfold Url.unescape. destruct (unescape_no_percent id Hpct) as [-> ->]. reflexivity. }
  pose proof (EscapedPath_JoinPath_workflows_id base id id Hseg Hdec) as Hpath.
  exists (call_request base c).
  destruct (transport _ (net w)) as [answer n].
  eexists _, _, (Url.EscapedPath (Url.JoinPath base ["workflows"; id])).
  split; [reflexivity |]. cbn [calls].
  split; [reflexivity |]. split; [exact Hpath |].
  split; [apply base_prefix_dir_like |]. split; [apply base_dir_dir_like |].
  assert (call_URL base c = Url.JoinPath base ["workflows"; id]) as HU.
  { destruct c; cbn in Hc; try discriminate; injection Hc as ->; reflexivity. }
  unfold call_request. cbn [req_url]. rewrite HU. split.
  - now apply JoinPath_URL_String_host.
  - rewrite Hrp. apply unescape_EscapedPath.
Qed.

(** The URL [GetWorkflows] prints when the configured URL has no query
    parameters. *)
Lemma GetWorkflows_URL_String (base : Url.URL) (ctx : Ctx) (page limit : Z) :
  Url.Query base = ∅ ->
  Url.URL_String (call_URL base (CallGetWorkflows ctx page limit : Call))
  = (Url.String_head (Url.JoinPath base ["workflows"]) +:+ "?"
     +:+ "limit=" +:+ Strconv.Itoa limit +:+ "&page=" +:+ Strconv.Itoa page)
    +:+ Url.String_fragment base.
Proof.
  intros HQ. cbn [call_URL].
  rewrite JoinPath_Query, HQ, Encode_page_limit.
  rewrite !QueryEscape_plain by apply Itoa_query_plain.
  unfold Url.URL_String.
  rewrite String_head_with_RawQuery, String_fragment_with_RawQuery.
  assert (Url.String_fragment (Url.JoinPath base ["workflows"])
          = Url.String_fragment base) as ->.
  { destruct (JoinPath_cases base ["workflows"]) as [-> | (p & rp & ->)];
      reflexivity. }
  unfold Url.String_query. cbn [Url.with_RawQuery Url.RawQuery Url.ForceQuery].
  change ("limit=" +:+ ?x) with (String "l" ("imit=" +:+ x)).
  cbn [String.eqb negb]. now rewrite orb_true_r.
Qed.

(** C3, as the code has it.  When the configured URL carries no query
    parameters of its own, [GetWorkflows] with non-negative [int]
    arguments hands the transport the method GET, no body, and a URL
    whose query string is [limit=<limit>&page=<page>]: parsed back it
    holds exactly the two parameters, and each value is the decimal
    numeral of its argument. *)
Theorem GetWorkflows_query (w : World) (e : loc) (base : Url.URL) (ctx : Ctx)
    (page limit : Z) :
  configured w e = Some base ->
  Url.Query base = ∅ ->
  0 <= page -> Strconv.is_int page -> 0 <= limit -> Strconv.is_int limit ->
  exists rq r w' q,
    perform e (CallGetWorkflows ctx page limit) w = Some (r, w')
    /\ calls w' = calls w ++ [rq]
    /\ req_method rq = "GET"
    /\ req_payload rq = NoBody
    /\ q = "limit=" +:+ Strconv.Itoa limit +:+ "&page=" +:+ Strconv.Itoa page
    /\ req_url rq
       = (Url.String_head (Url.JoinPath base ["workflows"]) +:+ "?" +:+ q)
         +:+ Url.String_fragment base
    /\ Url.ParseQuery q
       = (<["page" := [Strconv.Itoa page]]> (<["limit" := [Strconv.Itoa limit]]> ∅), false)
    /\ (all_bytes is_digit (Strconv.Itoa page) = true
        /\ decimal_value (Strconv.Itoa page) 0 = page)
    /\ (all_bytes is_digit (Strconv.Itoa limit) = true
        /\ decimal_value (Strconv.Itoa limit) 0 = limit).
Proof.
  intros H HQ Hp Hpi Hl Hli. rewrite (perform_run _ _ _ _ _ _ H). cbv zeta.
  exists (call_request base (CallGetWorkflows ctx page limit)).
  destruct (transport _ (net w)) as [answer n].
  eexists _, _, _. split; [reflexivity |]. cbn [calls].
  split; [reflexivity |]. split; [reflexivity |]. split; [reflexivity |].
  split; [reflexivity |].
  split; [| split; [| split; [now apply Itoa_decimal | now apply Itoa_decimal]]].
  - unfold call_request. cbn [req_url]. now apply GetWorkflows_URL_String.
  - apply ParseQuery_page_limit; apply Itoa_query_plain.
Qed.

(** C6, as the code has it.  For a configured URL with a host and
    without opaque part, query or fragment: [CreateWorkflow] of a record
    whose JSON is [{"name": "invoice-flow"}] issues POST to a URL ending
    in [/workflows] with the JSON body [{"data": {"name": "invoice-flow"}}];
    [GetWorkflows(ctx, 2, 25)] issues GET to a URL ending in
    [/workflows?limit=25&page=2], the parameters in the order of their
    keys; [DeleteWorkflow(ctx, "wf_123")] issues DELETE to a URL ending
    in [/workflows/wf_123]. *)
Theorem worked_examples (w : World) (e : loc) (base : Url.URL) (ctx : Ctx) :
  configured w e = Some base ->
  Url.Opaque base = "" -> Url.Host base <> "" ->
  Url.RawQuery base = "" -> Url.ForceQuery base = false -> Url.Fragment base = "" ->
  (forall workflow,
      marshalCreate workflow = JObject [("name", JString "invoice-flow")] ->
      exists rq r w' pre,
        perform e (CallCreateWorkflow ctx workflow) w = Some (r, w')
        /\ calls w' = calls w ++ [rq]
        /\ req_method rq = "POST"
        /\ req_url rq = pre +:+ "/workflows"
        /\ marshal marshalCreate marshalUpdate (req_payload rq)
           = Some (JObject [("data", JObject [("name", JString "invoice-flow")])]))
  /\ (exists rq r w' pre,
        perform e (CallGetWorkflows ctx 2 25) w = Some (r, w')
        /\ calls w' = calls w ++ [rq]
        /\ req_method rq = "GET"
        /\ req_url rq = pre +:+ "/workflows?limit=25&page=2"
        /\ req_payload rq = NoBody)
  /\ (exists rq r w' pre,
        perform e (CallDeleteWorkflow ctx "wf_123") w = Some (r, w')
        /\ calls w' = calls w ++ [rq]
        /\ req_method rq = "DELETE"
        /\ req_url rq = pre +:+ "/workflows/wf_123"
        /\ req_payload rq = NoBody).
Proof.
  intros H Ho Hh Hq Hf Hfr.
  assert (forall u', (u' = base \/ exists p rp, u' = Url.with_path base p rp) ->
            Url.Opaque u' = "" /\ Url.Host u' <> ""
            /\ Url.String_query u' = "" /\ Url.String_fragment u' = "") as Hfields.
  { intros u' [-> | (p & rp & ->)];
      unfold Url.String_query, Url.String_fragment;
      cbn [Url.with_path Url.Opaque Url.Host Url.RawQuery Url.ForceQuery Url.Fragment];
      rewrite Hq, Hf, Hfr; auto. }
  assert (Url.String_fragment base = "") as Hfrag
    by (apply (Hfields base); now left).
  destruct (Hfields _ (JoinPath_cases base ["workflows"])) as (Ho1 & Hh1 & Hq1 & Hf1).
  destruct (Hfields _ (JoinPath_cases base ["workflows"; "wf_123"]))
    as (Ho2 & Hh2 & Hq2 & Hf2).
  destruct (JoinPath_workflows_spec base) as [_ (d & Hd & Hp1)].
  destruct (String_head_ends _ d "workflows" Ho1 Hh1 Hd ltac:(discriminate) eq_refl Hp1)
    as [pre1 Hpre1].
  assert (exists pre, Url.String_head (Url.JoinPath base ["workflows"; "wf_123"])
                      = pre +:+ "/" +:+ "workflows/wf_123") as [pre2 Hpre2].
  { destruct (JoinPath_workflows_id_spec base "wf_123" eq_refl) as [_ [Hp2 | Hp2]].
    - apply (String_head_ends _ (base_prefix base));
        auto using base_prefix_dir_like; discriminate.
    - apply (String_head_ends _ (Url.escape (base_dir base) Url.encodePath));
        auto using base_dir_dir_like; discriminate. }
  split; [| split].
  - intros workflow Hm. rewrite (perform_run _ _ _ _ _ _ H). cbv zeta.
    exists (call_request base (CallCreateWorkflow ctx workflow)).
    destruct (transport _ (net w)) as [answer n].
    eexists _, _, pre1. split; [reflexivity |]. cbn [calls].
    split; [reflexivity |]. split; [reflexivity |].
    unfold call_request. cbn [req_url req_payload call_URL call_payload marshal].
    rewrite Hm. split; [| reflexivity].
    unfold Url.URL_String. rewrite Hq1, Hf1, Hpre1, !append_nil_r. reflexivity.
  - rewrite (perform_run _ _ _ _ _ _ H). cbv zeta.
    exists (call_request base (CallGetWorkflows ctx 2 25)).
    destruct (transport _ (net w)) as [answer n].
    eexists _, _, pre1. split; [reflexivity |]. cbn [calls].
    split; [reflexivity |]. split; [reflexivity |]. split; [| reflexivity].
    unfold call_request. cbn [req_url].
    rewrite GetWorkflows_URL_String by (unfold Url.Query; now rewrite Hq).
    rewrite Hfrag, Hpre1, append_nil_r, !append_assoc. reflexivity.
  - rewrite (perform_run _ _ _ _ _ _ H). cbv zeta.
    exists (call_request base (CallDeleteWorkflow ctx "wf_123")).
    destruct (transport _ (net w)) as [answer n].
    eexists _, _, pre2. split; [reflexivity |]. cbn [calls].
    split; [reflexivity |]. split; [reflexivity |]. split; [| reflexivity].
    unfold call_request. cbn [req_url call_URL].
    unfold Url.URL_String. rewrite Hq2, Hf2, Hpre2, !append_nil_r. reflexivity.
Qed.

End Claims.

(** ** The claims on the small instance *)

(** [GetTenant] against a transport that is down. *)
Lemma transport_error_returned_unchanged_witness :
  configured (Demo.world novu_backend) 1%positive = Some novu_backend
  /\ exists rq r w',
       perform "" Demo.down 1%positive (CallGetTenant "ctx" "wf_123") (Demo.world novu_backend)
       = Some (r, w')
       /\ calls w' = calls (Demo.world novu_backend) ++ [rq]
       /\ net w' = snd (Demo.down rq (net (Demo.world novu_backend)))
       /\ forall err,
            snd (fst (Demo.down rq (net (Demo.world novu_backend)))) = Some err ->
            snd r = Some err.
Proof.
  split; [reflexivity |].
  apply (transport_error_returned_unchanged "" Demo.down (Demo.world novu_backend)
           1%positive novu_backend).
  reflexivity.
Defined.

(** [GetWorkflows] with a negative page and a zero limit. *)
Lemma no_local_validation_witness :
  configured (Demo.world novu_backend) 1%positive = Some novu_backend
  /\ exists rq r w',
       perform "" Demo.down 1%positive (CallGetWorkflows "ctx" (-3) 0) (Demo.world novu_backend)
       = Some (r, w')
       /\ calls w' = calls (Demo.world novu_backend) ++ [rq]
       /\ (is_Some (snd r)
           <-> is_Some (snd (fst (Demo.down rq (net (Demo.world novu_backend)))))).
Proof.
  split; [reflexivity |].
  apply (no_local_validation "" Demo.down (Demo.world novu_backend) 1%positive novu_backend).
  reflexivity.
Defined.

(** [UpdateWorkflowStatus] under a context of its own. *)
Lemma context_forwarded_witness :
  configured (Demo.world novu_backend) 1%positive = Some novu_backend
  /\ exists rq r w',
       perform "" Demo.up 1%positive (CallUpdateWorkflowStatus "deadline 5s" "wf_123" true)
         (Demo.world novu_backend)
       = Some (r, w')
       /\ calls w' = calls (Demo.world novu_backend) ++ [rq]
       /\ req_ctx rq = "deadline 5s".
Proof.
  split; [reflexivity |].
  apply (context_forwarded "" Demo.up (Demo.world novu_backend) 1%positive novu_backend
           (CallUpdateWorkflowStatus "deadline 5s" "wf_123" true)).
  reflexivity.
Defined.

(** [GetWorkflows], the one method that writes to a URL, against a
    transport that is down. *)
Lemma service_state_unchanged_witness :
  configured (Demo.world novu_backend) 1%positive = Some novu_backend
  /\ exists r w',
       perform "" Demo.down 1%positive (CallGetWorkflows "ctx" 2 25) (Demo.world novu_backend)
       = Some (r, w')
       /\ (forall l o, heap (Demo.world novu_backend) !! l = Some o -> heap w' !! l = Some o)
       /\ (forall b, service_at (Demo.world novu_backend) 1%positive b novu_backend ->
                     service_at w' 1%positive b novu_backend)
       /\ configured w' 1%positive = Some novu_backend.
Proof.
  split; [reflexivity |].
  apply (service_state_unchanged "" Demo.down (Demo.world novu_backend) 1%positive
           novu_backend).
  reflexivity.
Defined.

(** [CreateWorkflow] against a transport that is down: the partial
    response is replaced by the zero one. *)
Lemma response_on_transport_error_witness :
  configured (Demo.world novu_backend) 1%positive = Some novu_backend
  /\ exists rq r w',
       perform "" Demo.down 1%positive (CallCreateWorkflow "ctx" (JString "w"))
         (Demo.world novu_backend)
       = Some (r, w')
       /\ calls w' = calls (Demo.world novu_backend) ++ [rq]
       /\ forall resp err n,
            Demo.down rq (net (Demo.world novu_backend)) = ((resp, Some err), n) ->
            r = ("", Some err).
Proof.
  split; [reflexivity |].
  apply (response_on_transport_error "" Demo.down (Demo.world novu_backend) 1%positive
           novu_backend (CallCreateWorkflow "ctx" (JString "w"))).
  reflexivity.
Defined.

(** [CreateWorkflow] of a record. *)
Lemma CreateWorkflow_request_witness :
  configured (Demo.world novu_backend) 1%positive = Some novu_backend
  /\ Url.Opaque novu_backend = "" /\ Url.Host novu_backend <> ""
  /\ exists rq r w' path,
       perform "" Demo.up 1%positive (CallCreateWorkflow "ctx" (JString "w"))
         (Demo.world novu_backend)
       = Some (r, w')
       /\ calls w' = calls (Demo.world novu_backend) ++ [rq]
       /\ req_method rq = "POST"
       /\ path = base_prefix novu_backend +:+ "workflows"
       /\ dir_like (base_prefix novu_backend)
       /\ req_url rq
          = ((Url.String_authority novu_backend +:+ path_slash path +:+ path)
             +:+ Url.String_query novu_backend) +:+ Url.String_fragment novu_backend
       /\ Url.unescape path Url.encodePath = Some (base_dir novu_backend +:+ "workflows")
       /\ req_payload rq = WorkflowCreatePayload (JString "w")
       /\ marshal id id (req_payload rq) = Some (JObject [("data", JString "w")]).
Proof.
  assert (Url.Host novu_backend <> "") as Hh by discriminate.
  split; [reflexivity |]. split; [reflexivity |]. split; [exact Hh |].
  apply (CreateWorkflow_request "" Demo.up id id (Demo.world novu_backend) 1%positive
           novu_backend "ctx" (JString "w")); [reflexivity | reflexivity | exact Hh].
Defined.

(** [UpdateWorkflowStatus] switching a workflow off. *)
Lemma UpdateWorkflowStatus_request_witness :
  configured (Demo.world novu_backend) 1%positive = Some novu_backend
  /\ exists rq r w',
       perform "" Demo.up 1%positive (CallUpdateWorkflowStatus "ctx" "wf_123" false)
         (Demo.world novu_backend)
       = Some (r, w')
       /\ calls w' = calls (Demo.world novu_backend) ++ [rq]
       /\ req_method rq = "PUT"
       /\ req_payload rq = WorkflowStatusUpdatePayload false
       /\ marshal id id (req_payload rq)
          = Some (JObject [("data", JObject [("active", JBool false)])]).
Proof.
  split; [reflexivity |].
  apply (UpdateWorkflowStatus_request "" Demo.up id id (Demo.world novu_backend) 1%positive
           novu_backend "ctx" "wf_123" false).
  reflexivity.
Defined.

(** [DeleteWorkflow] of an identifier with a space. *)
Lemma plain_identifier_path_witness :
  configured (Demo.world novu_backend) 1%positive = Some novu_backend
  /\ Url.Opaque novu_backend = "" /\ Url.Host novu_backend <> ""
  /\ call_identifier (CallDeleteWorkflow "ctx" "a b" : Demo.Call) = Some "a b"
  /\ plain_identifier "a b" = true
  /\ exists rq r w' path,
       perform "" Demo.up 1%positive (CallDeleteWorkflow "ctx" "a b") (Demo.world novu_backend)
       = Some (r, w')
       /\ calls w' = calls (Demo.world novu_backend) ++ [rq]
       /\ path = (if path_text "a b"
                  then base_prefix novu_backend +:+ "workflows/" +:+ "a b"
                  else Url.escape (base_dir novu_backend) Url.encodePath +:+ "workflows/"
                       +:+ Url.escape "a b" Url.encodePath)
       /\ dir_like (base_prefix novu_backend)
       /\ dir_like (Url.escape (base_dir novu_backend) Url.encodePath)
       /\ req_url rq
          = ((Url.String_authority novu_backend +:+ path_slash path +:+ path)
             +:+ Url.String_query novu_backend) +:+ Url.String_fragment novu_backend
       /\ Url.unescape path Url.encodePath
          = Some (base_dir novu_backend +:+ "workflows/" +:+ "a b").
Proof.
  assert (Url.Host novu_backend <> "") as Hh by discriminate.
  split; [reflexivity |]. split; [reflexivity |]. split; [exact Hh |].
  split; [reflexivity |]. split; [reflexivity |].
  apply (plain_identifier_path "" Demo.up (Demo.world novu_backend) 1%positive novu_backend
           (CallDeleteWorkflow "ctx" "a b") "a b");
    [reflexivity | reflexivity | exact Hh | reflexivity | reflexivity].
Defined.

(** [GetWorkflows(ctx, 2, 25)]. *)
Lemma GetWorkflows_query_witness :
  configured (Demo.world novu_backend) 1%positive = Some novu_backend
  /\ Url.Query novu_backend = ∅
  /\ 0 <= 2 /\ Strconv.is_int 2 /\ 0 <= 25 /\ Strconv.is_int 25
  /\ exists rq r w' q,
       perform "" Demo.up 1%positive (CallGetWorkflows "ctx" 2 25) (Demo.world novu_backend)
       = Some (r, w')
       /\ calls w' = calls (Demo.world novu_backend) ++ [rq]
       /\ req_method rq = "GET"
       /\ req_payload rq = NoBody
       /\ q = "limit=" +:+ Strconv.Itoa 25 +:+ "&page=" +:+ Strconv.Itoa 2
       /\ req_url rq
          = (Url.String_head (Url.JoinPath novu_backend ["workflows"]) +:+ "?" +:+ q)
            +:+ Url.String_fragment novu_backend
       /\ Url.ParseQuery q
          = (<["page" := [Strconv.Itoa 2]]> (<["limit" := [Strconv.Itoa 25]]> ∅), false)
       /\ (all_bytes is_digit (Strconv.Itoa 2) = true /\ decimal_value (Strconv.Itoa 2) 0 = 2)
       /\ (all_bytes is_digit (Strconv.Itoa 25) = true
           /\ decimal_value (Strconv.Itoa 25) 0 = 25).
Proof.
  assert (Strconv.is_int 2 /\ Strconv.is_int 25) as [H2 H25]
    by (unfold Strconv.is_int; lia).
  split; [reflexivity |]. split; [reflexivity |].
  split; [lia |]. split; [exact H2 |]. split; [lia |]. split; [exact H25 |].
  apply (GetWorkflows_query "" Demo.up (Demo.world novu_backend) 1%positive novu_backend
           "ctx" 2 25); [reflexivity | reflexivity | lia | exact H2 | lia | exact H25].
Defined.

(** The three examples against [https://api.novu.co/v1]. *)
Lemma worked_examples_witness :
  configured (Demo.world novu_backend) 1%positive = Some novu_backend
  /\ Url.Opaque novu_backend = "" /\ Url.Host novu_backend <> ""
  /\ Url.RawQuery novu_backend = "" /\ Url.ForceQuery novu_backend = false
  /\ Url.Fragment novu_backend = ""
  /\ (exists rq r w' pre,
         perform "" Demo.up 1%positive
           (CallCreateWorkflow "ctx" (JObject [("name", JString "invoice-flow")]))
           (Demo.world novu_backend)
         = Some (r, w')
         /\ calls w' = calls (Demo.world novu_backend) ++ [rq]
         /\ req_method rq = "POST"
         /\ req_url rq = pre +:+ "/workflows"
         /\ marshal id id (req_payload rq)
            = Some (JObject [("data", JObject [("name", JString "invoice-flow")])]))
  /\ (exists rq r w' pre,
         perform "" Demo.up 1%positive (CallGetWorkflows "ctx" 2 25) (Demo.world novu_backend)
         = Some (r, w')
         /\ calls w' = calls (Demo.world novu_backend) ++ [rq]
         /\ req_method rq = "GET"
         /\ req_url rq = pre +:+ "/workflows?limit=25&page=2"
         /\ req_payload rq = NoBody)
  /\ (exists rq r w' pre,
         perform "" Demo.up 1%positive (CallDeleteWorkflow "ctx" "wf_123")
           (Demo.world novu_backend)
         = Some (r, w')
         /\ calls w' = calls (Demo.world novu_backend) ++ [rq]
         /\ req_method rq = "DELETE"
         /\ req_url rq = pre +:+ "/workflows/wf_123"
         /\ req_payload rq = NoBody).
Proof.
  assert (Url.Host novu_backend <> "") as Hh by discriminate.
  split; [reflexivity |]. split; [reflexivity |]. split; [exact Hh |].
  split; [reflexivity |]. split; [reflexivity |]. split; [reflexivity |].
  destruct (worked_examples "" Demo.up id id (Demo.world novu_backend) 1%positive
              novu_backend "ctx" eq_refl eq_refl Hh eq_refl eq_refl eq_refl)
    as (Hcreate & Hlist & Hdelete).
  split; [| split; [exact Hlist | exact Hdelete]].
  apply Hcreate. reflexivity.
Defined.

(** C1 fails as stated: [..] takes the request to the base URL itself, a
    [/] in the identifier makes two segments, an identifier with a broken
    escape leaves the base path as it was, and the empty identifier adds
    no segment.  An identifier with a percent escape is sent as it is
    written, so that it names the decoded segment.  Reserved punctuation
    that a path may hold, such as [;] and [!], is sent as it is written,
    where [url.PathEscape] would escape it.  And for a configured URL
    with an opaque part, [String] prints no path at all. *)
Lemma identifier_path_counterexample :
  Demo.requests novu_backend (CallDeleteWorkflow "ctx" "..")
  = Some [ {| req_ctx := "ctx"; req_method := "DELETE";
              req_url := "https://api.novu.co/v1"; req_payload := NoBody |} ]
  /\ HasSuffix "https://api.novu.co/v1" "/workflows/.." = false
  /\ Demo.requests novu_backend (CallGetTenant "ctx" "a/b")
     = Some [ {| req_ctx := "ctx"; req_method := "GET";
                 req_url := "https://api.novu.co/v1/workflows/a/b"; req_payload := NoBody |} ]
  /\ HasSuffix "https://api.novu.co/v1/workflows/a/b"
       ("/workflows/" +:+ Url.escape "a/b" Url.encodePathSegment) = false
  /\ Demo.requests novu_backend (CallUpdateWorkflowStatus "ctx" "%zz" true)
     = Some [ {| req_ctx := "ctx"; req_method := "PUT";
                 req_url := "https://api.novu.co/v1";
                 req_payload := WorkflowStatusUpdatePayload true |} ]
  /\ Demo.requests novu_backend (CallUpdateWorkflow "ctx" "" None)
     = Some [ {| req_ctx := "ctx"; req_method := "PUT";
                 req_url := "https://api.novu.co/v1/workflows";
                 req_payload := WorkflowUpdatePayload None |} ]
  /\ Demo.requests novu_backend (CallGetTenant "ctx" "a%20b")
     = Some [ {| req_ctx := "ctx"; req_method := "GET";
                 req_url := "https://api.novu.co/v1/workflows/a%20b"; req_payload := NoBody |} ]
  /\ Url.Path (Url.JoinPath novu_backend ["workflows"; "a%20b"]) = "/v1/workflows/a b"
  /\ HasSuffix "https://api.novu.co/v1/workflows/a%20b"
       ("/workflows/" +:+ Url.escape "a%20b" Url.encodePathSegment) = false
  /\ Demo.requests novu_backend (CallGetTenant "ctx" "a;b!")
     = Some [ {| req_ctx := "ctx"; req_method := "GET";
                 req_url := "https://api.novu.co/v1/workflows/a;b!"; req_payload := NoBody |} ]
  /\ HasSuffix "https://api.novu.co/v1/workflows/a;b!"
       ("/workflows/" +:+ Url.escape "a;b!" Url.encodePathSegment) = false
  /\ Demo.requests Demo.opaque_backend (CallGetTenant "ctx" "wf_123")
     = Some [ {| req_ctx := "ctx"; req_method := "GET";
                 req_url := "https:api.novu.co/v1"; req_payload := NoBody |} ]
  /\ HasSuffix "https:api.novu.co/v1" "/workflows/wf_123" = false.
Proof. vm_compute. repeat split. Qed.

(** C4 fails as stated: for a configured URL with an opaque part,
    [JoinPath] sets the path and [String] prints the scheme and the
    opaque part without it, so that the URL handed to the transport does
    not end in [workflows]. *)
Lemma CreateWorkflow_request_counterexample :
  Demo.requests Demo.opaque_backend (CallCreateWorkflow "ctx" (JString "w"))
  = Some [ {| req_ctx := "ctx"; req_method := "POST";
              req_url := "https:api.novu.co/v1";
              req_payload := WorkflowCreatePayload (JString "w") |} ]
  /\ Url.Path (Url.JoinPath Demo.opaque_backend ["workflows"]) = "workflows"
  /\ HasSuffix "https:api.novu.co/v1" "workflows" = false.
Proof. vm_compute. repeat split. Qed.

(** C3 fails as stated: a parameter of the configured URL stays in the
    query string, which then holds three parameters. *)
Lemma GetWorkflows_query_counterexample :
  Demo.requests Demo.backend_with_query (CallGetWorkflows "ctx" 2 25)
  = Some [ {| req_ctx := "ctx"; req_method := "GET";
              req_url := "https://api.novu.co/v1/workflows?limit=25&page=2&tenant=acme";
              req_payload := NoBody |} ]
  /\ Url.ParseQuery "limit=25&page=2&tenant=acme"
     = (<["tenant" := ["acme"]]> (<["page" := ["2"]]> (<["limit" := ["25"]]> ∅)), false)
  /\ <["tenant" := ["acme"]]> (<["page" := ["2"]]> (<["limit" := ["25"]]> ∅))
     <> (<["page" := ["2"]]> (<["limit" := ["25"]]> ∅) : Url.Values).
Proof.
  split; [vm_compute; reflexivity |]. split; [vm_compute; reflexivity |].
  intros E. apply (f_equal (fun m : Url.Values => m !! "tenant")) in E.
  vm_compute in E. discriminate.
Qed.

(** C6 fails as stated: the query string of [GetWorkflows(ctx, 2, 25)]
    has [limit] before [page]. *)
Lemma worked_examples_counterexample :
  Demo.requests novu_backend (CallGetWorkflows "ctx" 2 25)
  = Some [ {| req_ctx := "ctx"; req_method := "GET";
              req_url := "https://api.novu.co/v1/workflows?limit=25&page=2";
              req_payload := NoBody |} ]
  /\ HasSuffix "https://api.novu.co/v1/workflows?limit=25&page=2"
       "/workflows?page=2&limit=25" = false.
Proof. vm_compute. split; reflexivity. Qed.

(** * More on the library functions *)

(** ** What an escaped text never holds *)

Section EscapedText.

Import Url.

Lemma upperhex_ishex (n : N) : ishex (upperhex n) = true.
Proof.
  unfold upperhex. generalize (N.to_nat n) as k. intros k.
  do 16 (destruct k as [|k]; [reflexivity |]). reflexivity.
Qed.

(** [escape] writes a byte only if it is [%], a hex digit, the [+] that
    stands for a space, or a byte the mode leaves alone. *)
Lemma escape_excludes (s : string) (mode : encoding) (c : ascii) :
  shouldEscape c mode = true ->
  Char.eq c "%" = false -> Char.eq c "+" = false -> ishex c = false ->
  Strings.Contains1 (escape s mode) c = false.
Proof.
  intros Hesc Hpct Hplus Hhex.
  assert (forall d, ishex d = true -> Ascii.eqb d c = false) as Hd.
  { intros d Hd. destruct (Ascii.eqb_spec d c) as [-> |]; [congruence | reflexivity]. }
  unfold Char.eq in *. rewrite Ascii.eqb_sym in Hpct, Hplus.
  induction s as [|x r IH]; [reflexivity |].
  cbn [escape]. destruct (Char.eq x " " && encoding_eqb mode encodeQueryComponent).
  - cbn [Strings.Contains1]. now rewrite Hplus, IH.
  - destruct (shouldEscape x mode) eqn:E.
    + cbn [Strings.Contains1].
      now rewrite Hpct, !Hd, IH by apply upperhex_ishex.
    + cbn [Strings.Contains1]. rewrite IH, orb_false_r.
      destruct (Ascii.eqb_spec x c) as [-> |]; [congruence | reflexivity].
Qed.

(** A text that [validEncoded] accepts holds no byte that the mode
    escapes, the listed punctuation apart. *)
Lemma validEncoded_excludes (s : string) (mode : encoding) (c : ascii) :
  shouldEscape c mode = true ->
  Char.one_of "!$&'()*+,;=:@" c = false -> Char.one_of "[]" c = false ->
  Char.eq c "%" = false ->
  validEncoded s mode = true ->
  Strings.Contains1 s c = false.
Proof.
  intros Hesc H1 H2 H3. induction s as [|x r IH]; [reflexivity |].
  cbn [validEncoded Strings.Contains1]. intros H. apply andb_prop in H as [Hx Hr].
  rewrite (IH Hr), orb_false_r.
  destruct (Ascii.eqb_spec x c) as [-> |]; [| reflexivity].
  rewrite H1, H2, H3, Hesc in Hx. discriminate.
Qed.

(** What [String] prints as the path of a URL holds no [?] and no [#]:
    the path never runs into the query or the fragment. *)
Lemma EscapedPath_no_query_mark (u : URL) :
  Strings.Contains1 (EscapedPath u) "?" = false
  /\ Strings.Contains1 (EscapedPath u) "#" = false.
Proof.
  unfold EscapedPath.
  destruct (negb (String.eqb (RawPath u) "") && validEncoded (RawPath u) encodePath) eqn:V.
  - apply andb_prop in V as [_ V].
    destruct (match unescape (RawPath u) encodePath with
              | Some p => String.eqb p (Path u)
              | None => false
              end); cbn [andb].
    + split; apply (validEncoded_excludes _ encodePath); auto.
    + destruct (String.eqb (Path u) "*"); [now split |].
      split; apply escape_excludes; reflexivity.
  - cbn [andb]. destruct (String.eqb (Path u) "*"); [now split |].
    split; apply escape_excludes; reflexivity.
Qed.

End EscapedText.

(** ** [URL.JoinPath] on the other identifiers *)

Section MoreJoinPath.

Import Url.

Lemma plain_segment_no_slash (s : string) :
  plain_segment s = true -> Strings.Contains1 s "/" = false.
Proof.
  unfold plain_segment. intros H.
  apply andb_prop in H as [H _]. apply andb_prop in H as [H _].
  apply andb_prop in H as [_ H]. now apply negb_true_iff in H.
Qed.

(** A plain segment in escaped form: the decoded path ends in the
    decoded segment. *)
Lemma JoinPath_workflows_id_decoded (u : URL) (id d : string) :
  plain_segment id = true ->
  unescape id encodePath = Some d ->
  exists rp, JoinPath u ["workflows"; id]
             = with_path u (base_dir u +:+ "workflows/" +:+ d) rp.
Proof.
  intros Hseg Hd. unfold unescape in Hd.
  destruct (unescape_check id encodePath) eqn:Hidw; [| discriminate].
  injection Hd as Hd.
  rewrite JoinPath_workflows_id by exact Hseg.
  assert (well_escaped (base_prefix u +:+ "workflows/" +:+ id)) as Hw.
  { unfold well_escaped.
    rewrite unescape_check_app by apply base_prefix_well_escaped.
    rewrite unescape_check_app; [exact Hidw | reflexivity]. }
  rewrite setPath_well_escaped by exact Hw. cbn [fst].
  rewrite unescape_build_app by apply base_prefix_well_escaped.
  rewrite unescape_build_app by reflexivity. rewrite Hd.
  change (unescape_build "workflows/" encodePath) with "workflows/".
  fold (base_dir u). eauto.
Qed.

(** A plain segment with a broken escape: [setPath] fails, its error is
    dropped, and the copy of the URL keeps the path it had. *)
Lemma JoinPath_workflows_id_malformed (u : URL) (id : string) :
  plain_segment id = true ->
  unescape id encodePath = None ->
  JoinPath u ["workflows"; id] = u.
Proof.
  intros Hseg Hd. unfold unescape in Hd.
  destruct (unescape_check id encodePath) eqn:Hidw; [discriminate |].
  rewrite JoinPath_workflows_id by exact Hseg.
  unfold setPath, unescape.
  rewrite unescape_check_app by apply base_prefix_well_escaped.
  rewrite unescape_check_app by reflexivity.
  now rewrite Hidw.
Qed.

(** [Clean] drops a [/] and a [.] element at the end of a rooted path. *)
Lemma Clean_rooted_trailing (x : string) :
  Path.Clean (String "/" x +:+ "/") = Path.Clean (String "/" x)
  /\ Path.Clean (String "/" x +:+ "/.") = Path.Clean (String "/" x).
Proof.
  rewrite !append_cons.
  destruct (Clean_rooted (x +:+ "/")) as [-> _].
  destruct (Clean_rooted (x +:+ "/.")) as [-> _].
  destruct (Clean_rooted x) as [-> _].
  change "/." with (String "/" "."). change "/" with (String "/" "") at 1.
  rewrite !clean_loop_app. split; reflexivity.
Qed.

(** The empty identifier and [.] add nothing to the path. *)
Lemma JoinPath_workflows_empty (u : URL) :
  JoinPath u ["workflows"; ""] = JoinPath u ["workflows"]
  /\ JoinPath u ["workflows"; "."] = JoinPath u ["workflows"].
Proof.
  assert (forall id, id = "" \/ id = "." ->
            Path.Join [rooted_EscapedPath u; "workflows"; id]
            = Path.Join [rooted_EscapedPath u; "workflows"]) as HJ.
  { intros id Hid. destruct (rooted_EscapedPath_rooted u) as [x ->].
    rewrite !Join_rooted, !join_buf_next.
    rewrite (append_cons "/" x "/"), (append_cons "/" (x +:+ "/") "workflows").
    rewrite join_buf_next. cbn [Path.join_buf].
    destruct (Clean_rooted_trailing ((x +:+ "/") +:+ "workflows")) as [H1 H2].
    destruct Hid as [-> | ->].
    - rewrite append_nil_r. exact H1.
    - rewrite append_assoc. exact H2. }
  unfold JoinPath. unfold rooted_EscapedPath in HJ.
  split; destruct (Strings.HasPrefix (EscapedPath u) "/"); cbn [negb List.last];
    rewrite HJ by auto; reflexivity.
Qed.

(** *** The [..] element after a plain segment *)

Lemma get_no_slash (seg : string) (i : nat) :
  Strings.Contains1 seg "/" = false ->
  match String.get i seg with
  | Some c => Char.eq c "/"
  | None => false
  end = false.
Proof.
  revert i. induction seg as [|c r IH]; intros i H; [reflexivity |].
  cbn [Strings.Contains1] in H. apply orb_false_elim in H as [Hc Hr].
  destruct i as [|i]; cbn [String.get]; [exact Hc | now apply IH].
Qed.

Lemma get_append_right (a b : string) (k : nat) :
  String.get (String.length a + k) (a +:+ b) = String.get k b.
Proof.
  induction a as [|c a IH]; [reflexivity |].
  rewrite append_cons. cbn [String.length Nat.add String.get]. exact IH.
Qed.

Lemma substring_prefix (a b : string) :
  String.substring 0 (String.length a) (a +:+ b) = a.
Proof.
  induction a as [|c a IH]; [now destruct b |].
  rewrite append_cons. cbn [String.length String.substring]. now rewrite IH.
Qed.

(** Walking back over a segment stops at the [/] before it. *)
Lemma backtrack_w_segment (a seg : string) (dd k : nat) :
  Strings.Contains1 seg "/" = false ->
  (dd <= String.length a)%nat ->
  Path.backtrack_w (a +:+ String "/" seg) dd (String.length a + k) = String.length a.
Proof.
  intros Hseg Hdd. induction k as [|k IH].
  - rewrite Nat.add_0_r. destruct (String.length a) as [|n] eqn:En; [reflexivity |].
    cbn [Path.backtrack_w]. rewrite <- En.
    replace (String.length a) with (String.length a + 0)%nat at 2 by lia.
    rewrite get_append_right. cbn [String.get].
    change (Char.eq "/" "/") with true. now rewrite andb_false_r.
  - rewrite Nat.add_succ_r. cbn [Path.backtrack_w].
    replace (S (String.length a + k)) with (String.length a + S k)%nat by lia.
    rewrite get_append_right. cbn [String.get]. rewrite get_no_slash by exact Hseg.
    replace (dd <? String.length a + S k)%nat with true
      by (symmetry; apply Nat.ltb_lt; lia).
    cbn [negb andb]. exact IH.
Qed.

(** Directly under the root, it stops at the root. *)
Lemma backtrack_w_root (seg : string) (k : nat) :
  Strings.Contains1 seg "/" = false ->
  Path.backtrack_w (String "/" seg) 1 (S k) = 1%nat.
Proof.
  intros Hseg. induction k as [|k IH]; [reflexivity |].
  cbn [Path.backtrack_w String.get].
  rewrite get_no_slash by exact Hseg. cbn [negb andb Nat.ltb Nat.leb]. exact IH.
Qed.

(** [..] after a plain segment takes the buffer back to where it was. *)
Lemma backtrack_dir_of (r seg : string) :
  plain_segment seg = true ->
  Path.backtrack (dir_of (String "/" r) +:+ seg) 1 = String "/" r.
Proof.
  intros Hplain. pose proof (plain_segment_no_slash seg Hplain) as Hseg.
  assert (exists c s, seg = String c s) as (c & s & ->).
  { destruct seg; [discriminate | eauto]. }
  unfold dir_of, Path.backtrack.
  destruct (String.length (String "/" r) =? 1)%nat eqn:E.
  - apply Nat.eqb_eq in E. destruct r; [| discriminate].
    rewrite append_cons, append_nil_l. cbn [String.length]. rewrite Nat.sub_succ, Nat.sub_0_r.
    rewrite backtrack_w_root by exact Hseg. reflexivity.
  - rewrite append_assoc. change ("/" +:+ String c s) with (String "/" (String c s)).
    rewrite length_append. cbn [String.length].
    replace (String.length r + 1 + 1 + S (String.length s) - 1)%nat
      with (String.length (String "/" r) + S (String.length s))%nat
      by (cbn [String.length]; lia).
    replace (S (String.length r) + S (S (String.length s)) - 1)%nat
      with (String.length (String "/" r) + S (String.length s))%nat
      by (cbn [String.length]; lia).
    rewrite backtrack_w_segment; [apply substring_prefix | exact Hseg | cbn; lia].
Qed.

(** [Clean] cancels a plain segment against the [..] that follows it. *)
Lemma Clean_rooted_dotdot (x seg : string) :
  plain_segment seg = true ->
  Path.Clean (String "/" x +:+ String "/" (seg +:+ "/.."))
  = Path.Clean (String "/" x).
Proof.
  intros Hplain. rewrite append_cons.
  destruct (Clean_rooted (x +:+ String "/" (seg +:+ "/.."))) as [-> _].
  destruct (Clean_rooted x) as [Hx [r Hr]]. rewrite Hx in *.
  rewrite clean_loop_app.
  destruct (clean_loop_rooted x false "") as (_ & Hdd & _). rewrite Hdd, Hr.
  change "/.." with (String "/" ".."). rewrite clean_loop_app.
  rewrite (clean_loop_plain_segment seg) by exact Hplain. cbn [fst snd].
  fold (dir_of (String "/" r)).
  cbn [Path.clean_loop]. change (Char.eq "." "/") with false.
  change (Char.eq "." ".") with true. cbn [andb].
  assert ((1 <? String.length (dir_of (String "/" r) +:+ seg))%nat = true) as ->.
  { apply Nat.ltb_lt. rewrite length_append.
    destruct (dir_of_rooted r) as [r' ->]. destruct seg; [discriminate |].
    cbn [String.length]. lia. }
  now rewrite backtrack_dir_of.
Qed.

(** [Join] with [workflows] and [..]: the two cancel. *)
Lemma Join_workflows_dotdot (x : string) :
  Path.Join [String "/" x; "workflows"; ".."] = Path.Clean (String "/" x).
Proof.
  rewrite Join_rooted, join_buf_next.
  rewrite (append_cons "/" x "/"), (append_cons "/" (x +:+ "/") "workflows").
  rewrite join_buf_next. cbn [Path.join_buf].
  replace ((String "/" ((x +:+ "/") +:+ "workflows") +:+ "/") +:+ "..")
    with (String "/" x +:+ String "/" ("workflows" +:+ "/.."))
    by (rewrite !append_cons, !append_assoc; reflexivity).
  now apply Clean_rooted_dotdot.
Qed.

(** [..] as the identifier, for a base path that is rooted or empty:
    [String] prints the cleaned base path, the [workflows] segment is
    gone. *)
Lemma EscapedPath_JoinPath_workflows_dotdot (u : URL) :
  Strings.HasPrefix (EscapedPath u) "/" = true \/ EscapedPath u = "" ->
  EscapedPath (JoinPath u ["workflows"; ".."])
  = if String.eqb (EscapedPath u) "" then "" else Path.Clean (EscapedPath u).
Proof.
  intros [Hr | He]; unfold JoinPath.
  - rewrite Hr. cbn [negb List.last].
    change (Strings.HasSuffix1 ".." "/") with false. cbn [andb].
    pose proof (path_text_EscapedPath u) as Ht.
    pose proof (rooted_EscapedPath_well_escaped u) as Hw.
    unfold rooted_EscapedPath in Hw. rewrite Hr in Hw.
    pose proof Hr as Hx. apply HasPrefix_slash in Hx as [x Hx]. rewrite Hx in *.
    rewrite Join_workflows_dotdot. cbn [String.eqb Ascii.eqb Bool.eqb].
    apply Clean_rooted_well_escaped in Hw. apply path_text_Clean_rooted in Ht.
    destruct (Clean_rooted x) as [_ [r Hc]]. rewrite Hc in *.
    rewrite EscapedPath_setPath_exact; [now rewrite Ht | exact Hw |].
    rewrite unescape_build_path_cons. discriminate.
  - rewrite He. reflexivity.
Qed.

Lemma last_append_cons (a : string) (c : ascii) (b : string) :
  Strings.last (a +:+ String c b) = Strings.last (String c b).
Proof.
  induction a as [|x a IH]; [reflexivity |].
  rewrite append_cons. cbn [Strings.last]. rewrite IH.
  destruct (a +:+ String c b) eqn:E; [destruct a; discriminate | reflexivity].
Qed.

(** A [/] inside the identifier separates two segments: the path
    [JoinPath] passes to [setPath]. *)
Lemma JoinPath_workflows_nested_setPath (u : URL) (s1 s2 : string) :
  plain_segment s1 = true -> plain_segment s2 = true ->
  JoinPath u ["workflows"; s1 +:+ String "/" s2]
  = fst (setPath u (base_prefix u +:+ "workflows/" +:+ s1 +:+ String "/" s2)).
Proof.
  intros Hseg1 Hseg2.
  assert (Path.Join [rooted_EscapedPath u; "workflows"; s1 +:+ String "/" s2]
          = dir_of (Path.Clean (rooted_EscapedPath u)) +:+ "workflows/" +:+ s1
            +:+ String "/" s2) as HJ.
  { pose proof (Join_workflows_id u s1 Hseg1) as HJ1.
    destruct (rooted_EscapedPath_rooted u) as [x Hx]. rewrite Hx in *.
    rewrite Join_rooted, join_buf_next in HJ1.
    rewrite (append_cons "/" x "/"), (append_cons "/" (x +:+ "/") "workflows") in HJ1.
    rewrite join_buf_next in HJ1. cbn [Path.join_buf] in HJ1.
    rewrite Join_rooted, join_buf_next.
    rewrite (append_cons "/" x "/"), (append_cons "/" (x +:+ "/") "workflows").
    rewrite join_buf_next. cbn [Path.join_buf].
    rewrite <- (append_assoc _ s1 (String "/" s2)).
    rewrite (append_cons "/" _ "/"), (append_cons "/" _ s1) in *.
    rewrite Clean_rooted_snoc by exact Hseg2. rewrite HJ1.
    destruct (Clean_rooted x) as [_ [r ->]]. destruct (dir_of_rooted r) as [r' ->].
    unfold dir_of at 1.
    replace (String.length (String "/" r' +:+ "workflows/" +:+ s1) =? 1)%nat with false.
    - now rewrite !append_assoc.
    - symmetry. apply Nat.eqb_neq. rewrite append_cons. cbn [String.length].
      rewrite !length_append. cbn [String.length]. lia. }
  assert (Strings.HasSuffix1 (s1 +:+ String "/" s2) "/" = false) as Hsuf.
  { unfold Strings.HasSuffix1. rewrite last_append_cons.
    pose proof (Contains1_HasSuffix1 s2 "/" (plain_segment_no_slash s2 Hseg2)) as Hs.
    unfold Strings.HasSuffix1 in Hs. destruct s2; [discriminate |]. exact Hs. }
  unfold JoinPath, base_prefix.
  destruct (rooted_EscapedPath_rooted u) as [x Hx].
  destruct (Clean_rooted x) as [_ [r Hr]].
  destruct (dir_of_rooted r) as [r' Hr'].
  unfold rooted_EscapedPath in *.
  destruct (Strings.HasPrefix (EscapedPath u) "/"); cbn [negb List.last];
    rewrite HJ, Hx, Hr, Hr', Hsuf; reflexivity.
Qed.

(** For two plain parts, [String] prints the path with the [/] between
    them as it is, and the parts as written or escaped. *)
Lemma EscapedPath_JoinPath_workflows_nested (u : URL) (s1 s2 : string) :
  plain_identifier s1 = true -> plain_identifier s2 = true ->
  EscapedPath (JoinPath u ["workflows"; s1 +:+ String "/" s2])
  = (if path_text s1 && path_text s2
     then base_prefix u +:+ "workflows/" +:+ s1 +:+ String "/" s2
     else escape (base_dir u) encodePath +:+ "workflows/"
          +:+ escape s1 encodePath +:+ String "/" (escape s2 encodePath))
  /\ unescape (EscapedPath (JoinPath u ["workflows"; s1 +:+ String "/" s2])) encodePath
     = Some (base_dir u +:+ "workflows/" +:+ s1 +:+ String "/" s2).
Proof.
  intros H1 H2.
  apply plain_identifier_inv in H1 as [Hseg1 Hpct1].
  apply plain_identifier_inv in H2 as [Hseg2 Hpct2].
  destruct (unescape_no_percent s1 Hpct1) as [Hw1 Hb1].
  destruct (unescape_no_percent s2 Hpct2) as [Hw2 Hb2].
  rewrite JoinPath_workflows_nested_setPath by assumption.
  assert (well_escaped (base_prefix u +:+ "workflows/" +:+ s1 +:+ String "/" s2)) as Hw.
  { unfold well_escaped.
    rewrite unescape_check_app by apply base_prefix_well_escaped.
    rewrite unescape_check_app by reflexivity.
    rewrite unescape_check_slash. now rewrite Hw1, Hw2. }
  assert (unescape_build (base_prefix u +:+ "workflows/" +:+ s1 +:+ String "/" s2) encodePath
          = base_dir u +:+ "workflows/" +:+ s1 +:+ String "/" s2) as Hb.
  { rewrite unescape_build_app by apply base_prefix_well_escaped.
    rewrite unescape_build_app by reflexivity.
    rewrite (unescape_build_app s1 (String "/" s2)) by exact Hw1.
    rewrite Hb1, (unescape_build_path_cons "/" s2). change (Char.eq "/" "%") with false.
    cbv iota. now rewrite Hb2. }
  split.
  - rewrite EscapedPath_setPath_exact; [| exact Hw |].
    + rewrite Hb. unfold path_text. rewrite !all_bytes_app.
      fold (path_text (base_prefix u)). rewrite path_text_base_prefix.
      change (all_bytes path_byte "workflows/") with true.
      cbn [andb all_bytes]. change (path_byte "/") with true. cbn [andb].
      destruct (all_bytes path_byte s1 && all_bytes path_byte s2); [reflexivity |].
      rewrite !escape_app. reflexivity.
    + rewrite Hb. apply append_not_star. rewrite length_append. simpl; lia.
  - rewrite setPath_well_escaped by exact Hw. cbn [fst]. rewrite Hb.
    apply unescape_EscapedPath.
Qed.

End MoreJoinPath.

(** ** [Values.Encode] and [ParseQuery] undo each other *)

Section QueryRoundTrip.

Import Url.

(** [QueryUnescape] undoes [QueryEscape]. *)
Lemma QueryUnescape_QueryEscape (s : string) :
  QueryUnescape (QueryEscape s) = Some s.
Proof.
  unfold QueryUnescape, QueryEscape, unescape.
  assert (unescape_check (escape s encodeQueryComponent) encodeQueryComponent = true
          /\ unescape_build (escape s encodeQueryComponent) encodeQueryComponent = s)
    as [-> ->]; [| reflexivity].
  induction s as [|c r [IHc IHb]]; [now split |].
  cbn [escape encoding_eqb]. rewrite andb_true_r.
  destruct (Char.eq c " ") eqn:Esp.
  - apply Ascii.eqb_eq in Esp. subst c.
    cbn [unescape_check unescape_build encoding_eqb].
    change (Char.eq "+" "%") with false. change (Char.eq "+" "+") with true.
    cbv iota. now rewrite IHc, IHb.
  - destruct (shouldEscape c encodeQueryComponent) eqn:E.
    + destruct (hex_digits_decode c) as (Hhi & Hlo & Hc). cbv zeta in Hhi, Hlo, Hc.
      cbn [unescape_check unescape_build encoding_eqb andb negb].
      change (Char.eq "%" "%") with true. cbv iota.
      now rewrite Hhi, Hlo, IHc, Hc, IHb.
    + cbn [unescape_check unescape_build encoding_eqb andb orb negb].
      destruct (Char.eq c "%") eqn:P.
      { apply Ascii.eqb_eq in P. subst c. now rewrite shouldEscape_percent in E. }
      destruct (Char.eq c "+") eqn:Q.
      { apply Ascii.eqb_eq in Q. subst c. discriminate. }
      now rewrite IHc, IHb.
Qed.

Lemma QueryEscape_no_separator (s : string) :
  Strings.Contains1 (QueryEscape s) "&" = false
  /\ Strings.Contains1 (QueryEscape s) ";" = false
  /\ Strings.Contains1 (QueryEscape s) "=" = false.
Proof. repeat split; apply escape_excludes; reflexivity. Qed.

Lemma pair_text_no_separator (p : string * string) :
  Strings.Contains1 (pair_text p) "&" = false
  /\ Strings.Contains1 (pair_text p) ";" = false.
Proof.
  unfold pair_text.
  destruct (QueryEscape_no_separator (fst p)) as (A1 & A2 & _).
  destruct (QueryEscape_no_separator (snd p)) as (B1 & B2 & _).
  rewrite !Contains1_app. rewrite A1, A2, B1, B2. now split.
Qed.

(** One round of [parseQuery] on a pair that [Encode] wrote. *)
Lemma parseQuery_escaped_pair (fuel : nat) (m : Values) (query query' : string)
    (p : string * string) (found err : bool) :
  Strings.Cut query "&" = (pair_text p, query', found) ->
  parseQuery (S fuel) m query err = parseQuery fuel (add_pair m p) query' err.
Proof.
  intros HCut. cbn [parseQuery].
  assert (pair_text p <> "") as Hne.
  { unfold pair_text. intros E. apply (f_equal String.length) in E.
    rewrite !length_append in E. cbn in E. lia. }
  assert (String.eqb query "" = false) as ->.
  { destruct query; [| reflexivity]. cbn in HCut. congruence. }
  rewrite HCut.
  destruct (pair_text_no_separator p) as [_ ->].
  apply String.eqb_neq in Hne. rewrite Hne.
  unfold pair_text.
  change ("=" +:+ QueryEscape p.2) with (String "=" (QueryEscape p.2)).
  rewrite Cut_found by apply QueryEscape_no_separator.
  now rewrite !QueryUnescape_QueryEscape.
Qed.

(** [parseQuery] on the text of a list of pairs adds them in order. *)
Lemma parseQuery_pairs (ps : list (string * string)) :
  forall (p : string * string) (m : Values) (fuel : nat) (err : bool),
    (String.length (pair_text p +:+ amp_tail ps) < fuel)%nat ->
    parseQuery fuel m (pair_text p +:+ amp_tail ps) err
    = (fold_left add_pair (p :: ps) m, err).
Proof.
  induction ps as [|p2 ps IH]; intros p m fuel err Hfuel.
  - destruct fuel as [|fuel]; [lia |]. cbn [amp_tail fold_left]. rewrite append_nil_r.
    rewrite (parseQuery_escaped_pair _ _ _ "" p false).
    + now destruct fuel.
    + apply Cut_not_found, pair_text_no_separator.
  - destruct fuel as [|fuel]; [lia |]. cbn [amp_tail].
    change ("&" +:+ pair_text p2 +:+ amp_tail ps)
      with (String "&" (pair_text p2 +:+ amp_tail ps)).
    rewrite (parseQuery_escaped_pair _ _ _ (pair_text p2 +:+ amp_tail ps) p true).
    + rewrite IH; [reflexivity |].
      cbn [amp_tail] in Hfuel. rewrite !length_append in *. cbn [String.length] in *.
      rewrite ?length_append in *. lia.
    + apply Cut_found, pair_text_no_separator.
Qed.

Lemma pair_text_not_empty (p : string * string) : pair_text p <> "".
Proof.
  unfold pair_text. intros E. apply (f_equal String.length) in E.
  rewrite !length_append in E. cbn in E. lia.
Qed.

(** The loop of [Encode] writes the pairs with a [&] between them. *)
Lemma fold_encode_step (ps : list (string * string)) :
  forall buf,
    fold_left encode_step ps buf
    = if String.eqb buf "" then pairs_text ps else buf +:+ amp_tail ps.
Proof.
  induction ps as [|p ps IH]; intros buf.
  - cbn. destruct (String.eqb_spec buf "") as [-> |]; [reflexivity |].
    now rewrite append_nil_r.
  - cbn [fold_left]. rewrite IH.
    assert (String.eqb (encode_step buf p) "" = false) as ->.
    { apply String.eqb_neq. unfold encode_step. intros E.
      apply (f_equal String.length) in E. rewrite length_append in E.
      pose proof (pair_text_not_empty p) as Hp. destruct (pair_text p); [congruence |].
      cbn in E. lia. }
    unfold encode_step. destruct (String.eqb_spec buf "") as [-> | Hne].
    + reflexivity.
    + destruct buf; [congruence |]. cbn [String.length Nat.ltb Nat.leb amp_tail].
      now rewrite !append_assoc.
Qed.

Lemma Encode_inner_loop (v : Values) (k : string) (xs : list string) :
  forall buf,
    fold_left
      (fun buf x =>
         (if (0 <? String.length buf)%nat then buf +:+ "&" else buf)
         +:+ QueryEscape k +:+ "=" +:+ QueryEscape x)
      xs buf
    = fold_left encode_step (map (pair k) xs) buf.
Proof. induction xs as [|x xs IH]; intros buf; [reflexivity | apply IH]. Qed.

Lemma Encode_outer_loop (v : Values) (ks : list string) :
  forall buf,
    fold_left
      (fun buf k =>
         let vs := values_at v k in
         let keyEscaped := QueryEscape k in
         fold_left
           (fun buf x =>
              (if (0 <? String.length buf)%nat then buf +:+ "&" else buf)
              +:+ keyEscaped +:+ "=" +:+ QueryEscape x)
           vs buf)
      ks buf
    = fold_left encode_step (pairs_of v ks) buf.
Proof.
  induction ks as [|k ks IH]; intros buf; [reflexivity |].
  cbn [fold_left pairs_of flat_map]. rewrite fold_left_app, IH.
  cbv zeta. now rewrite (Encode_inner_loop v).
Qed.

Lemma sorted_keys_empty : sorted_keys ∅ = [].
Proof. unfold sorted_keys. now rewrite map_to_list_empty. Qed.

(** [Encode] writes the pairs of the map, key after key in the order of
    the keys. *)
Lemma Encode_pairs (v : Values) :
  Encode v = pairs_text (pairs_of v (sorted_keys v)).
Proof.
  unfold Encode. destruct (Nat.eqb_spec (size v) 0) as [E | _].
  - apply map_size_empty_inv in E. subst v. now rewrite sorted_keys_empty.
  - now rewrite Encode_outer_loop, fold_encode_step.
Qed.

(** Adding the values [xs] of one key, one after the other. *)
Lemma fold_add_pair_key (k : string) (xs : list string) :
  forall m : Values,
    fold_left add_pair (map (pair k) xs) m
    = match xs with
      | [] => m
      | _ => <[k := values_at m k ++ xs]> m
      end.
Proof.
  induction xs as [|x xs IH]; intros m; [reflexivity |].
  cbn [map fold_left]. rewrite IH. unfold add_pair. cbn [fst snd].
  destruct xs as [|y ys]; [reflexivity |].
  unfold values_at at 1. rewrite lookup_insert_eq. cbn [default].
  rewrite insert_insert_eq. unfold id. now rewrite <- app_assoc.
Qed.

(** What the map holds after the pairs of the keys [ks] were added. *)
Lemma fold_add_pair_lookup (v : Values) (ks : list string) :
  NoDup ks ->
  forall (m : Values) (k : string),
    fold_left add_pair (pairs_of v ks) m !! k
    = if decide (k ∈ ks) then
        match values_at v k with
        | [] => m !! k
        | xs => Some (values_at m k ++ xs)
        end
      else m !! k.
Proof.
  induction 1 as [|k0 ks Hk0 Hks IH]; intros m k.
  - cbn. now destruct (decide (k ∈ [])) as [Hin | _]; [inversion Hin |].
  - cbn [pairs_of flat_map]. rewrite fold_left_app. fold (pairs_of v ks).
    rewrite IH, fold_add_pair_key.
    destruct (decide (k = k0)) as [-> | Hne].
    + destruct (decide (k0 ∈ ks)) as [Hin | _]; [contradiction |].
      destruct (decide (k0 ∈ k0 :: ks)) as [_ | Hnin]; [| exfalso; apply Hnin; left].
      destruct (values_at v k0); [reflexivity |]. now rewrite lookup_insert_eq.
    + assert (forall m' : list string,
                match values_at v k0 with
                | [] => m
                | _ => <[k0 := m']> m
                end !! k = m !! k) as Hsame.
      { intros m'. destruct (values_at v k0); [reflexivity |].
        now rewrite lookup_insert_ne. }
      assert (values_at
                match values_at v k0 with
                | [] => m
                | _ => <[k0 := values_at m k0 ++ values_at v k0]> m
                end k = values_at m k) as Hval.
      { unfold values_at at 1 4. now rewrite Hsame. }
      destruct (decide (k ∈ ks)) as [Hin | Hnin].
      * destruct (decide (k ∈ k0 :: ks)) as [_ | Hn]; [| exfalso; apply Hn; now right].
        rewrite Hval, Hsame. reflexivity.
      * destruct (decide (k ∈ k0 :: ks)) as [Hin | _].
        { inversion Hin; subst; contradiction. }
        apply Hsame.
Qed.

Lemma map_list_fmap {A B} (f : A -> B) (l : list A) : map f l = f <$> l.
Proof. induction l as [|x l IH]; [reflexivity | cbn; now rewrite IH]. Qed.

(** The sorted keys are the keys of the map, each once. *)
Lemma sorted_keys_spec (v : Values) :
  NoDup (sorted_keys v) /\ forall k, k ∈ sorted_keys v <-> is_Some (v !! k).
Proof.
  unfold sorted_keys. rewrite map_list_fmap.
  pose proof (merge_sort_Permutation String.le (map_to_list v).*1) as HP.
  split.
  - rewrite HP. apply NoDup_fst_map_to_list.
  - intros k. rewrite HP. rewrite list_elem_of_fmap. split.
    + intros [[k' l] [-> Hin]]. apply elem_of_map_to_list in Hin. cbn. eauto.
    + intros [l Hl]. exists (k, l). split; [reflexivity |].
      now apply elem_of_map_to_list.
Qed.

(** Added to the empty map, the pairs of a map give the map back. *)
Lemma fold_add_pair_all (v : Values) :
  no_empty_values v ->
  fold_left add_pair (pairs_of v (sorted_keys v)) ∅ = v.
Proof.
  intros Hne. destruct (sorted_keys_spec v) as [Hnd Hin].
  apply map_eq. intros k. rewrite (fold_add_pair_lookup v _ Hnd).
  destruct (decide (k ∈ sorted_keys v)) as [Hk | Hk].
  - apply Hin in Hk as [l Hl]. unfold values_at. rewrite Hl, lookup_empty. cbn [default].
    destruct l; [now apply Hne in Hl |]. reflexivity.
  - rewrite lookup_empty. symmetry. apply eq_None_not_Some. intros Hs. now apply Hk, Hin.
Qed.

(** [ParseQuery] undoes [Encode], without error, on a map without empty
    lists of values. *)
Lemma ParseQuery_Encode (v : Values) :
  no_empty_values v -> ParseQuery (Encode v) = (v, false).
Proof.
  intros Hne. rewrite Encode_pairs. pose proof (fold_add_pair_all v Hne) as Hall.
  unfold ParseQuery. destruct (pairs_of v (sorted_keys v)) as [|p ps].
  - cbn in *. now subst v.
  - cbn [pairs_text]. rewrite parseQuery_pairs by lia. now rewrite Hall.
Qed.

(** [parseQuery] never leaves a key with an empty list of values. *)
Lemma parseQuery_no_empty_values (fuel : nat) :
  forall (m : Values) (query : string) (err : bool),
    no_empty_values m -> no_empty_values (fst (parseQuery fuel m query err)).
Proof.
  induction fuel as [|fuel IH]; intros m query err Hm; [exact Hm |].
  cbn [parseQuery]. destruct (String.eqb query ""); [exact Hm |].
  destruct (Strings.Cut query "&") as [[key query'] found].
  destruct (Strings.Contains1 key ";"); [now apply IH |].
  destruct (String.eqb key ""); [now apply IH |].
  destruct (Strings.Cut key "=") as [[key0 value] found0].
  destruct (QueryUnescape key0) as [key1|]; [| now apply IH].
  destruct (QueryUnescape value) as [value1|]; [| now apply IH].
  apply IH. intros k. destruct (decide (k = key1)) as [-> | Hk].
  - rewrite lookup_insert_eq. intros E. injection E as E.
    now apply app_eq_nil in E as [_ E].
  - rewrite lookup_insert_ne by congruence. apply Hm.
Qed.

Lemma Query_no_empty_values (u : URL) : no_empty_values (Query u).
Proof.
  unfold Query, ParseQuery. apply parseQuery_no_empty_values.
  intros k. now rewrite lookup_empty.
Qed.

Lemma Values_Set_no_empty_values (v : Values) (key value : string) :
  no_empty_values v -> no_empty_values (Values_Set v key value).
Proof.
  intros Hv k. unfold Values_Set. destruct (decide (k = key)) as [-> | Hk].
  - now rewrite lookup_insert_eq.
  - rewrite lookup_insert_ne by congruence. apply Hv.
Qed.

(** The first digit [formatBits] writes is [0] only for the number 0. *)
Lemma formatBits_leading (fuel : nat) :
  forall u acc,
    0 <= u < 10 ^ Z.of_nat fuel -> (0 < fuel)%nat ->
    exists c rest,
      Strconv.formatBits fuel u acc = String c rest
      /\ (c = "0"%char -> u = 0 /\ rest = acc).
Proof.
  induction fuel as [|fuel IH]; intros u acc Hu Hf; [lia |].
  cbn [Strconv.formatBits]. destruct (Z.ltb_spec u 10).
  - exists (Strconv.digit u), acc. split; [reflexivity |]. intros E.
    destruct (digit_cases u) as (_ & _ & Hd); [lia |].
    rewrite E in Hd. vm_compute in Hd. auto.
  - rewrite Nat2Z.inj_succ, Z.pow_succ_r in Hu by lia.
    assert (1 <= u / 10 < 10 ^ Z.of_nat fuel) as Hq.
    { split; [apply Z.div_le_lower_bound; lia | apply Z.div_lt_upper_bound; lia]. }
    assert (0 < fuel)%nat as Hf'.
    { destruct fuel; [| lia]. change (10 ^ Z.of_nat 0) with 1 in Hq. lia. }
    destruct (IH (u / 10) (String (Strconv.digit (u mod 10)) acc)) as (c & rest & E & Hc);
      [lia | exact Hf' |].
    exists c, rest. split; [exact E |]. intros E0. apply Hc in E0. lia.
Qed.

(** [Itoa] of any [int]: a minus sign for a negative one, then the
    decimal numeral of the magnitude. *)
Lemma Itoa_signed (i : Z) :
  Strconv.is_int i ->
  exists digits,
    decimal_numeral digits (Z.abs i)
    /\ Strconv.Itoa i = if i <? 0 then String "-" digits else digits.
Proof.
  intros [Hlo Hhi].
  assert (2 ^ 63 < 10 ^ Z.of_nat 65) as Hbig by reflexivity.
  assert (forall u, 0 <= u <= 2 ^ 63 -> decimal_numeral (Strconv.formatBits 65 u "") u)
    as Hnum.
  { intros u Hu. unfold decimal_numeral.
    destruct (formatBits_leading 65 u "") as (c & rest & E & Hc); [lia | lia |].
    split; [apply formatBits_digits; [lia | reflexivity] |].
    split; [rewrite E; discriminate |].
    split; [| rewrite formatBits_value by lia; reflexivity].
    rewrite E. cbn [Strings.HasPrefix]. intros Hp. apply andb_prop in Hp as [Hp _].
    apply Ascii.eqb_eq in Hp. destruct (Hc Hp) as [_ ->]. now rewrite Hp. }
  unfold Strconv.Itoa, Strconv.FormatInt10.
  destruct (Z.ltb_spec i 0).
  - exists (Strconv.formatBits 65 (- i) ""). split; [| reflexivity].
    replace (Z.abs i) with (- i) by lia. apply Hnum. lia.
  - exists (Strconv.formatBits 65 i ""). split; [| reflexivity].
    replace (Z.abs i) with i by lia. apply Hnum. lia.
Qed.

End QueryRoundTrip.

(** * Further properties of the six methods *)

Section Further.

Context {Ctx JsonResponse Err CreateWorkflowRequest UpdateWorkflowRequest Net : Type}.
Variable zeroJsonResponse : JsonResponse.
Variable transport :
  @Request Ctx CreateWorkflowRequest UpdateWorkflowRequest ->
  Net -> (JsonResponse * option Err) * Net.

Local Abbreviation World := (@World Ctx CreateWorkflowRequest UpdateWorkflowRequest Net).
Local Abbreviation Call := (@Call Ctx CreateWorkflowRequest UpdateWorkflowRequest).
Local Abbreviation Request := (@Request Ctx CreateWorkflowRequest UpdateWorkflowRequest).
Local Abbreviation perform := (perform zeroJsonResponse transport).
Local Abbreviation perform_all := (perform_all zeroJsonResponse transport).
Local Abbreviation issues := (issues zeroJsonResponse transport).
Local Abbreviation call_result := (call_result zeroJsonResponse).

(** X1.  When the transport returns no error, each of the six methods
    returns the response of the transport as it is, with a nil error;
    [CreateWorkflow], which drops the response on error, keeps it here. *)
Theorem response_on_success (w : World) (e : loc) (base : Url.URL) (c : Call) :
  configured w e = Some base ->
  exists rq r w',
    perform e c w = Some (r, w')
    /\ calls w' = calls w ++ [rq]
    /\ forall resp n, transport rq (net w) = ((resp, None), n) -> r = (resp, None).
Proof.
  intros H. rewrite (perform_run _ _ _ _ _ _ H). cbv zeta.
  exists (call_request base c).
  destruct (transport (call_request base c) (net w)) as [[resp err] n].
  eexists _, _. split; [reflexivity |]. split; [reflexivity |].
  intros resp' n' E. injection E as -> -> ->. now destruct c.
Qed.

(** X2.  For one identifier, whatever it is, [UpdateWorkflow],
    [UpdateWorkflowStatus], [GetTenant] and [DeleteWorkflow] hand the
    transport the same URL; they differ in the method and the payload
    only: PUT with the record pointer as the caller gave it ([nil]
    included), PUT with the status, GET without body, DELETE without
    body. *)
Theorem identifier_methods_share_URL (w : World) (e : loc) (base : Url.URL)
    (ctx : Ctx) (id : string) (workflow : option UpdateWorkflowRequest) (status : bool) :
  configured w e = Some base ->
  exists url r1 w1 r2 w2 r3 w3 r4 w4,
    perform e (CallUpdateWorkflow ctx id workflow) w = Some (r1, w1)
    /\ calls w1 = calls w ++ [ {| req_ctx := ctx; req_method := "PUT"; req_url := url;
                                  req_payload := WorkflowUpdatePayload workflow |} ]
    /\ perform e (CallUpdateWorkflowStatus ctx id status) w = Some (r2, w2)
    /\ calls w2 = calls w ++ [ {| req_ctx := ctx; req_method := "PUT"; req_url := url;
                                  req_payload := WorkflowStatusUpdatePayload status |} ]
    /\ perform e (CallGetTenant ctx id) w = Some (r3, w3)
    /\ calls w3 = calls w ++ [ {| req_ctx := ctx; req_method := "GET"; req_url := url;
                                  req_payload := NoBody |} ]
    /\ perform e (CallDeleteWorkflow ctx id) w = Some (r4, w4)
    /\ calls w4 = calls w ++ [ {| req_ctx := ctx; req_method := "DELETE"; req_url := url;
                                  req_payload := NoBody |} ].
Proof.
  intros H. rewrite !(perform_run _ _ _ _ _ _ H). cbv zeta.
  exists (Url.URL_String (Url.JoinPath base ["workflows"; id])).
  destruct (transport (call_request base (CallUpdateWorkflow ctx id workflow)) (net w))
    as [a1 n1].
  destruct (transport (call_request base (CallUpdateWorkflowStatus ctx id status)) (net w))
    as [a2 n2].
  destruct (transport (call_request base (CallGetTenant ctx id)) (net w)) as [a3 n3].
  destruct (transport (call_request base (CallDeleteWorkflow ctx id)) (net w)) as [a4 n4].
  eexists _, _, _, _, _, _, _, _. repeat split.
Qed.

Lemma issues_call_request (base : Url.URL) (c : Call) :
  issues base c (call_request base c).
Proof.
  intros w0 e0 H. rewrite (perform_run _ _ _ _ _ _ H). cbv zeta.
  destruct (transport _ (net w0)) as [answer n]. eauto.
Qed.

Lemma perform_configured (w : World) (e : loc) (base : Url.URL) (c : Call) :
  configured w e = Some base ->
  exists r w',
    perform e c w = Some (r, w')
    /\ calls w' = calls w ++ [call_request base c]
    /\ configured w' e = Some base.
Proof.
  intros H. rewrite (perform_run _ _ _ _ _ _ H). cbv zeta.
  destruct (transport _ (net w)) as [answer n].
  eexists _, _. split; [reflexivity |]. split; [reflexivity |].
  apply configured_service_at in H as (b & client & config & He & Hc & Hg & Hb).
  assert (forall l o, heap w !! l = Some o ->
            <[fresh (dom (heap w)) := ObjURL (call_URL base c)]> (heap w) !! l = Some o)
    as Hframe.
  { intros l o Hl. rewrite lookup_insert_ne; [exact Hl |].
    intros E. apply (is_fresh (dom (heap w))). rewrite E. apply elem_of_dom. eauto. }
  apply configured_service_at. exists b, client, config. cbn [heap]. auto.
Qed.

(** X3.  The service keeps no state between calls: a run of any calls
    hands the transport one request per call, in the order of the calls,
    and each is the request its call issues alone, whatever was called
    before and whatever the transport answered; the service stays
    configured as it was. *)
Theorem calls_are_independent (cs : list Call) :
  forall (w : World) (e : loc) (base : Url.URL),
    configured w e = Some base ->
    exists rs w' rqs,
      perform_all e cs w = Some (rs, w')
      /\ calls w' = calls w ++ rqs
      /\ length rs = length cs
      /\ Forall2 (issues base) cs rqs
      /\ configured w' e = Some base.
Proof.
  induction cs as [|c cs IH]; intros w e base H.
  - exists [], w, []. cbn. rewrite app_nil_r. auto using Forall2_nil.
  - destruct (perform_configured w e base c H) as (r & w1 & Hrun & Hcalls & Hconf).
    destruct (IH w1 e base Hconf) as (rs & w' & rqs & Hall & Hcalls' & Hlen & Hiss & Hconf').
    exists (r :: rs), w', (call_request base c :: rqs).
    split.
    + change (perform_all e (c :: cs) w)
        with (bind (perform e c) (fun r => bind (perform_all e cs) (fun rs => ret (r :: rs))) w).
      unfold bind at 1. rewrite Hrun. unfold bind. rewrite Hall. reflexivity.
    + split; [rewrite Hcalls', Hcalls, <- app_assoc; reflexivity |].
      split; [cbn; now rewrite Hlen |].
      split; [constructor; [apply issues_call_request | exact Hiss] | exact Hconf'].
Qed.

Lemma call_URL_identifier (base : Url.URL) (c : Call) (id : string) :
  call_identifier c = Some id ->
  call_URL base c = Url.JoinPath base ["workflows"; id].
Proof.
  destruct c; cbn; intros H; try discriminate; injection H as ->; reflexivity.
Qed.

(** The request of a call that takes an identifier. *)
Lemma perform_identifier (w : World) (e : loc) (base : Url.URL) (c : Call) (id : string) :
  configured w e = Some base ->
  call_identifier c = Some id ->
  exists rq r w',
    perform e c w = Some (r, w')
    /\ calls w' = calls w ++ [rq]
    /\ req_url rq = Url.URL_String (Url.JoinPath base ["workflows"; id]).
Proof.
  intros H Hc. rewrite (perform_run _ _ _ _ _ _ H). cbv zeta.
  exists (call_request base c).
  destruct (transport _ (net w)) as [answer n].
  eexists _, _. split; [reflexivity |]. split; [reflexivity |].
  unfold call_request. cbn [req_url]. now rewrite (call_URL_identifier _ _ id).
Qed.

(** X4.  Whatever the identifier, it only reaches the path of the URL:
    the URL handed to the transport is the printed form of the configured
    URL with at most its path changed, its query and fragment are those
    of the configured URL, and the path as printed holds no [?] and no
    [#], so an identifier cannot add a query parameter or a fragment. *)
Theorem identifier_stays_in_path (w : World) (e : loc) (base : Url.URL) (c : Call)
    (id : string) :
  configured w e = Some base ->
  call_identifier c = Some id ->
  exists rq r w' u',
    perform e c w = Some (r, w')
    /\ calls w' = calls w ++ [rq]
    /\ req_url rq = Url.URL_String u'
    /\ (u' = base \/ exists p rp, u' = Url.with_path base p rp)
    /\ Url.URL_String u'
       = (Url.String_head u' +:+ Url.String_query base) +:+ Url.String_fragment base
    /\ Strings.Contains1 (Url.EscapedPath u') "?" = false
    /\ Strings.Contains1 (Url.EscapedPath u') "#" = false.
Proof.
  intros H Hc. destruct (perform_identifier w e base c id H Hc) as (rq & r & w' & Hrun & Hcalls & Hurl).
  exists rq, r, w', (Url.JoinPath base ["workflows"; id]).
  split; [exact Hrun |]. split; [exact Hcalls |]. split; [exact Hurl |].
  split; [apply JoinPath_cases |]. split.
  - destruct (JoinPath_cases base ["workflows"; id]) as [-> | (p & rp & ->)]; reflexivity.
  - apply EscapedPath_no_query_mark.
Qed.

(** X5.  An identifier is read as percent-escaped text.  For a
    configured URL with a host and without opaque part, and an identifier
    that is a single segment (not empty, not [.] or [..], without [/])
    and well escaped, the URL string is the scheme and authority of the
    configured URL, the path, and its query and fragment.  The path
    decodes to the base directory, [workflows/] and the decoded
    identifier.  It holds the identifier as it is written, escapes
    included, when every byte of the identifier may stand in a path;
    otherwise the base directory and the decoded identifier are escaped
    afresh. *)
Theorem escaped_identifier_path (w : World) (e : loc) (base : Url.URL) (c : Call)
    (id d : string) :
  configured w e = Some base ->
  Url.Opaque base = "" -> Url.Host base <> "" ->
  call_identifier c = Some id ->
  plain_segment id = true ->
  Url.unescape id Url.encodePath = Some d ->
  exists rq r w' path,
    perform e c w = Some (r, w')
    /\ calls w' = calls w ++ [rq]
    /\ path = (if path_text id
               then base_prefix base +:+ "workflows/" +:+ id
               else Url.escape (base_dir base) Url.encodePath +:+ "workflows/"
                    +:+ Url.escape d Url.encodePath)
    /\ req_url rq
       = ((Url.String_authority base +:+ path_slash path +:+ path)
          +:+ Url.String_query base) +:+ Url.String_fragment base
    /\ Url.unescape path Url.encodePath = Some (base_dir base +:+ "workflows/" +:+ d).
Proof.
  intros H Ho Hh Hc Hseg Hd.
  destruct (perform_identifier w e base c id H Hc) as (rq & r & w' & Hrun & Hcalls & Hurl).
  destruct (JoinPath_workflows_id_decoded base id d Hseg Hd) as [rp Hrp].
  exists rq, r, w', (Url.EscapedPath (Url.JoinPath base ["workflows"; id])).
  split; [exact Hrun |]. split; [exact Hcalls |].
  split; [now apply EscapedPath_JoinPath_workflows_id |]. split.
  - rewrite Hurl. now apply JoinPath_URL_String_host.
  - rewrite Hrp. apply unescape_EscapedPath.
Qed.

(** X6.  An identifier that is a single segment with a broken percent
    escape is not refused: the request goes to the configured URL itself,
    without the [workflows] segment and without the identifier. *)
Theorem malformed_identifier_goes_to_base (w : World) (e : loc) (base : Url.URL)
    (c : Call) (id : string) :
  configured w e = Some base ->
  call_identifier c = Some id ->
  plain_segment id = true ->
  Url.unescape id Url.encodePath = None ->
  exists rq r w',
    perform e c w = Some (r, w')
    /\ calls w' = calls w ++ [rq]
    /\ req_url rq = Url.URL_String base.
Proof.
  intros H Hc Hseg Hd.
  destruct (perform_identifier w e base c id H Hc) as (rq & r & w' & Hrun & Hcalls & Hurl).
  rewrite (JoinPath_workflows_id_malformed base id Hseg Hd) in Hurl.
  exists rq, r, w'. auto.
Qed.

(** X7.  With the empty identifier, or with [.], the four methods
    address the collection: the URL is the one [CreateWorkflow] uses. *)
Theorem empty_identifier_addresses_collection (w : World) (e : loc) (base : Url.URL)
    (c : Call) (id : string) (ctx : Ctx) (workflow : CreateWorkflowRequest) :
  configured w e = Some base ->
  call_identifier c = Some id ->
  id = "" \/ id = "." ->
  exists rq r w' rq0 r0 w0,
    perform e c w = Some (r, w')
    /\ calls w' = calls w ++ [rq]
    /\ perform e (CallCreateWorkflow ctx workflow) w = Some (r0, w0)
    /\ calls w0 = calls w ++ [rq0]
    /\ req_url rq = req_url rq0.
Proof.
  intros H Hc Hid.
  destruct (perform_identifier w e base c id H Hc) as (rq & r & w' & Hrun & Hcalls & Hurl).
  destruct (perform_configured w e base (CallCreateWorkflow ctx workflow) H)
    as (r0 & w0 & Hrun0 & Hcalls0 & _).
  exists rq, r, w', (call_request base (CallCreateWorkflow ctx workflow)), r0, w0.
  split; [exact Hrun |]. split; [exact Hcalls |]. split; [exact Hrun0 |].
  split; [exact Hcalls0 |]. rewrite Hurl. cbn [call_request req_url call_URL].
  destruct (JoinPath_workflows_empty base) as [H1 H2].
  destruct Hid as [-> | ->]; [now rewrite H1 | now rewrite H2].
Qed.

(** X8.  With [..] as the identifier the request leaves the
    collection.  For a configured URL with a host and without opaque
    part, whose path is rooted or empty, the URL string is the scheme and
    authority of the configured URL, its cleaned path, and its query and
    fragment: there is no [workflows] segment after the base path. *)
Theorem dotdot_identifier_leaves_collection (w : World) (e : loc) (base : Url.URL)
    (c : Call) :
  configured w e = Some base ->
  Url.Opaque base = "" -> Url.Host base <> "" ->
  Strings.HasPrefix (Url.EscapedPath base) "/" = true \/ Url.EscapedPath base = "" ->
  call_identifier c = Some ".." ->
  exists rq r w' path,
    perform e c w = Some (r, w')
    /\ calls w' = calls w ++ [rq]
    /\ path = (if String.eqb (Url.EscapedPath base) "" then ""
               else Path.Clean (Url.EscapedPath base))
    /\ req_url rq
       = ((Url.String_authority base +:+ path) +:+ Url.String_query base)
         +:+ Url.String_fragment base.
Proof.
  intros H Ho Hh Hp Hc.
  destruct (perform_identifier w e base c ".." H Hc) as (rq & r & w' & Hrun & Hcalls & Hurl).
  exists rq, r, w', (Url.EscapedPath (Url.JoinPath base ["workflows"; ".."])).
  split; [exact Hrun |]. split; [exact Hcalls |].
  split; [now apply EscapedPath_JoinPath_workflows_dotdot |].
  rewrite Hurl, JoinPath_URL_String_host by assumption.
  rewrite (EscapedPath_JoinPath_workflows_dotdot base Hp).
  unfold path_slash. destruct Hp as [Hr | He].
  - apply HasPrefix_slash in Hr as [x Hx]. rewrite Hx.
    destruct (Clean_rooted x) as [_ [y ->]]. cbn [String.eqb Ascii.eqb Bool.eqb].
    replace (Strings.HasPrefix (String "/" y) "/") with true
      by (symmetry; apply HasPrefix_slash; eauto).
    cbn [orb].
    now rewrite append_nil_l.
  - rewrite He. reflexivity.
Qed.

(** X9.  A [/] inside the identifier separates segments.  For a
    configured URL with a host and without opaque part, and two plain
    parts [s1] and [s2], the identifier [s1/s2] gives the URL string with
    the path of the base directory followed by [workflows/], [s1], a [/]
    as it is, and [s2]; the two parts are sent as written when every byte
    of them may stand in a path, and percent-escaped otherwise. *)
Theorem nested_identifier_path (w : World) (e : loc) (base : Url.URL) (c : Call)
    (s1 s2 : string) :
  configured w e = Some base ->
  Url.Opaque base = "" -> Url.Host base <> "" ->
  call_identifier c = Some (s1 +:+ String "/" s2) ->
  plain_identifier s1 = true -> plain_identifier s2 = true ->
  exists rq r w' path,
    perform e c w = Some (r, w')
    /\ calls w' = calls w ++ [rq]
    /\ path = (if path_text s1 && path_text s2
               then base_prefix base +:+ "workflows/" +:+ s1 +:+ String "/" s2
               else Url.escape (base_dir base) Url.encodePath +:+ "workflows/"
                    +:+ Url.escape s1 Url.encodePath
                    +:+ String "/" (Url.escape s2 Url.encodePath))
    /\ req_url rq
       = ((Url.String_authority base +:+ path_slash path +:+ path)
          +:+ Url.String_query base) +:+ Url.String_fragment base
    /\ Url.unescape path Url.encodePath
       = Some (base_dir base +:+ "workflows/" +:+ s1 +:+ String "/" s2).
Proof.
  intros H Ho Hh Hc H1 H2.
  destruct (perform_identifier w e base c _ H Hc) as (rq & r & w' & Hrun & Hcalls & Hurl).
  destruct (EscapedPath_JoinPath_workflows_nested base s1 s2 H1 H2) as [Hpath Hdec].
  exists rq, r, w', (Url.EscapedPath (Url.JoinPath base ["workflows"; s1 +:+ String "/" s2])).
  split; [exact Hrun |]. split; [exact Hcalls |]. split; [exact Hpath |].
  split; [| exact Hdec].
  rewrite Hurl. now apply JoinPath_URL_String_host.
Qed.

(** X10.  [GetWorkflows] keeps the query parameters of the configured
    URL and sets [page] and [limit] over them: whatever the configured
    URL and the two numbers, the URL handed to the transport has a query
    string, and [ParseQuery] reads it back, without error, as the
    parameters of the configured URL with [page] and [limit] replaced by
    the single values [Itoa(page)] and [Itoa(limit)]. *)
Theorem GetWorkflows_keeps_base_parameters (w : World) (e : loc) (base : Url.URL)
    (ctx : Ctx) (page limit : Z) :
  configured w e = Some base ->
  exists rq r w' q,
    perform e (CallGetWorkflows ctx page limit) w = Some (r, w')
    /\ calls w' = calls w ++ [rq]
    /\ req_url rq
       = (Url.String_head (Url.JoinPath base ["workflows"]) +:+ "?" +:+ q)
         +:+ Url.String_fragment base
    /\ Url.ParseQuery q
       = (<["limit" := [Strconv.Itoa limit]]>
            (<["page" := [Strconv.Itoa page]]> (Url.Query base)), false).
Proof.
  intros H.
  destruct (perform_configured w e base (CallGetWorkflows ctx page limit) H)
    as (r & w' & Hrun & Hcalls & _).
  set (v := Url.Values_Set (Url.Values_Set (Url.Query base) "page" (Strconv.Itoa page))
              "limit" (Strconv.Itoa limit)).
  assert (Url.ParseQuery (Url.Encode v) = (v, false)) as Hrt.
  { apply ParseQuery_Encode.
    do 2 apply Values_Set_no_empty_values. apply Query_no_empty_values. }
  assert (Url.Encode v <> "") as Hne.
  { intros E. rewrite E in Hrt.
    assert (Url.ParseQuery "" = (∅, false)) as Hempty by reflexivity.
    rewrite Hempty in Hrt. injection Hrt as Hv.
    apply (f_equal (fun m : Url.Values => m !! "limit")) in Hv.
    subst v. unfold Url.Values_Set in Hv. rewrite lookup_insert_eq in Hv. discriminate. }
  exists (call_request base (CallGetWorkflows ctx page limit)), r, w', (Url.Encode v).
  split; [exact Hrun |]. split; [exact Hcalls |]. split; [| exact Hrt].
  unfold call_request. cbn [req_url call_URL]. rewrite JoinPath_Query. fold v.
  unfold Url.URL_String.
  rewrite String_head_with_RawQuery, String_fragment_with_RawQuery.
  assert (Url.String_fragment (Url.JoinPath base ["workflows"])
          = Url.String_fragment base) as ->.
  { destruct (JoinPath_cases base ["workflows"]) as [-> | (p & rp & ->)]; reflexivity. }
  unfold Url.String_query. cbn [Url.with_RawQuery Url.RawQuery Url.ForceQuery].
  apply String.eqb_neq in Hne. rewrite Hne. cbn [negb]. now rewrite orb_true_r.
Qed.

(** X11.  [GetWorkflows] sends every [int] as it is, zero and negative
    numbers included: when the configured URL has no query parameters,
    the query string is [limit=] and [page=] followed each by what [Itoa]
    writes for the number, that is a minus sign if it is negative and
    then the decimal numeral of its magnitude (digits only, at least one,
    no [0] in front of another digit). *)
Theorem GetWorkflows_signed_numbers (w : World) (e : loc) (base : Url.URL)
    (ctx : Ctx) (page limit : Z) :
  configured w e = Some base ->
  Url.Query base = ∅ ->
  Strconv.is_int page -> Strconv.is_int limit ->
  exists rq r w' dp dl,
    perform e (CallGetWorkflows ctx page limit) w = Some (r, w')
    /\ calls w' = calls w ++ [rq]
    /\ req_url rq
       = (Url.String_head (Url.JoinPath base ["workflows"]) +:+ "?"
          +:+ "limit=" +:+ Strconv.Itoa limit +:+ "&page=" +:+ Strconv.Itoa page)
         +:+ Url.String_fragment base
    /\ Strconv.Itoa page = (if page <? 0 then String "-" dp else dp)
    /\ decimal_numeral dp (Z.abs page)
    /\ Strconv.Itoa limit = (if limit <? 0 then String "-" dl else dl)
    /\ decimal_numeral dl (Z.abs limit).
Proof.
  intros H HQ Hp Hl.
  destruct (perform_configured w e base (CallGetWorkflows ctx page limit) H)
    as (r & w' & Hrun & Hcalls & _).
  destruct (Itoa_signed page Hp) as (dp & Hdp & Hsp).
  destruct (Itoa_signed limit Hl) as (dl & Hdl & Hsl).
  exists (call_request base (CallGetWorkflows ctx page limit)), r, w', dp, dl.
  split; [exact Hrun |]. split; [exact Hcalls |].
  split; [| auto]. unfold call_request. cbn [req_url].
  now apply GetWorkflows_URL_String.
Qed.


(** X13.  A request carries a body exactly when its method is POST or
    PUT: the two methods that read and the one that deletes pass
    [http.NoBody], the three that write pass an envelope. *)
Theorem body_only_on_POST_and_PUT (w : World) (e : loc) (base : Url.URL) (c : Call) :
  configured w e = Some base ->
  exists rq r w',
    perform e c w = Some (r, w')
    /\ calls w' = calls w ++ [rq]
    /\ (req_payload rq = NoBody <-> req_method rq = "GET" \/ req_method rq = "DELETE")
    /\ (req_payload rq <> NoBody <-> req_method rq = "POST" \/ req_method rq = "PUT").
Proof.
  intros H.
  destruct (perform_configured w e base c H) as (r & w' & Hrun & Hcalls & _).
  exists (call_request base c), r, w'.
  split; [exact Hrun |]. split; [exact Hcalls |].
  destruct c; cbn; (split; split; intros; first [discriminate | intuition discriminate | tauto | auto]).
Qed.

End Further.


(** ** The further properties on the small instance *)

(** [DeleteWorkflow] against a transport that answers. *)
Lemma response_on_success_witness :
  configured (Demo.world novu_backend) 1%positive = Some novu_backend
  /\ exists rq r w',
       perform "" Demo.up 1%positive (CallDeleteWorkflow "ctx" "wf_123")
         (Demo.world novu_backend)
       = Some (r, w')
       /\ calls w' = calls (Demo.world novu_backend) ++ [rq]
       /\ forall resp n,
            Demo.up rq (net (Demo.world novu_backend)) = ((resp, None), n) ->
            r = (resp, None).
Proof.
  split; [reflexivity |].
  apply (response_on_success "" Demo.up (Demo.world novu_backend) 1%positive novu_backend
           (CallDeleteWorkflow "ctx" "wf_123")).
  reflexivity.
Defined.

(** The four methods on [wf_123], the update with a nil record. *)
Lemma identifier_methods_share_URL_witness :
  configured (Demo.world novu_backend) 1%positive = Some novu_backend
  /\ exists url r1 w1 r2 w2 r3 w3 r4 w4,
       perform "" Demo.up 1%positive (CallUpdateWorkflow "ctx" "wf_123" None)
         (Demo.world novu_backend) = Some (r1, w1)
       /\ calls w1
          = calls (Demo.world novu_backend)
            ++ [ {| req_ctx := "ctx"; req_method := "PUT"; req_url := url;
                    req_payload := WorkflowUpdatePayload None |} ]
       /\ perform "" Demo.up 1%positive (CallUpdateWorkflowStatus "ctx" "wf_123" true)
            (Demo.world novu_backend) = Some (r2, w2)
       /\ calls w2
          = calls (Demo.world novu_backend)
            ++ [ {| req_ctx := "ctx"; req_method := "PUT"; req_url := url;
                    req_payload := WorkflowStatusUpdatePayload true |} ]
       /\ perform "" Demo.up 1%positive (CallGetTenant "ctx" "wf_123")
            (Demo.world novu_backend) = Some (r3, w3)
       /\ calls w3
          = calls (Demo.world novu_backend)
            ++ [ {| req_ctx := "ctx"; req_method := "GET"; req_url := url;
                    req_payload := NoBody |} ]
       /\ perform "" Demo.up 1%positive (CallDeleteWorkflow "ctx" "wf_123")
            (Demo.world novu_backend) = Some (r4, w4)
       /\ calls w4
          = calls (Demo.world novu_backend)
            ++ [ {| req_ctx := "ctx"; req_method := "DELETE"; req_url := url;
                    req_payload := NoBody |} ].
Proof.
  split; [reflexivity |].
  apply (identifier_methods_share_URL "" Demo.up (Demo.world novu_backend) 1%positive
           novu_backend "ctx" "wf_123" None true).
  reflexivity.
Defined.

(** A create, a failing read and a list, one after the other. *)
Lemma calls_are_independent_witness :
  configured (Demo.world novu_backend) 1%positive = Some novu_backend
  /\ exists rs w' rqs,
       perform_all "" Demo.down 1%positive
         [CallCreateWorkflow "ctx" (JString "w"); CallGetTenant "ctx" "50%";
          CallGetWorkflows "ctx" 2 25]
         (Demo.world novu_backend)
       = Some (rs, w')
       /\ calls w' = calls (Demo.world novu_backend) ++ rqs
       /\ length rs = 3%nat
       /\ Forall2 (issues "" Demo.down novu_backend)
            [CallCreateWorkflow "ctx" (JString "w"); CallGetTenant "ctx" "50%";
             CallGetWorkflows "ctx" 2 25]
            rqs
       /\ configured w' 1%positive = Some novu_backend.
Proof.
  split; [reflexivity |].
  apply (calls_are_independent "" Demo.down
           [CallCreateWorkflow "ctx" (JString "w"); CallGetTenant "ctx" "50%";
            CallGetWorkflows "ctx" 2 25]
           (Demo.world novu_backend) 1%positive novu_backend).
  reflexivity.
Defined.

(** [GetTenant] of an identifier that looks like a query. *)
Lemma identifier_stays_in_path_witness :
  configured (Demo.world Demo.backend_with_query) 1%positive = Some Demo.backend_with_query
  /\ call_identifier (CallGetTenant "ctx" "wf?admin=1#top" : Demo.Call)
     = Some "wf?admin=1#top"
  /\ exists rq r w' u',
       perform "" Demo.up 1%positive (CallGetTenant "ctx" "wf?admin=1#top")
         (Demo.world Demo.backend_with_query)
       = Some (r, w')
       /\ calls w' = calls (Demo.world Demo.backend_with_query) ++ [rq]
       /\ req_url rq = Url.URL_String u'
       /\ (u' = Demo.backend_with_query
           \/ exists p rp, u' = Url.with_path Demo.backend_with_query p rp)
       /\ Url.URL_String u'
          = (Url.String_head u' +:+ Url.String_query Demo.backend_with_query)
            +:+ Url.String_fragment Demo.backend_with_query
       /\ Strings.Contains1 (Url.EscapedPath u') "?" = false
       /\ Strings.Contains1 (Url.EscapedPath u') "#" = false.
Proof.
  split; [reflexivity |]. split; [reflexivity |].
  apply (identifier_stays_in_path "" Demo.up (Demo.world Demo.backend_with_query) 1%positive
           Demo.backend_with_query (CallGetTenant "ctx" "wf?admin=1#top") "wf?admin=1#top");
    reflexivity.
Defined.

(** [DeleteWorkflow] of an identifier that the caller escaped. *)
Lemma escaped_identifier_path_witness :
  configured (Demo.world novu_backend) 1%positive = Some novu_backend
  /\ Url.Opaque novu_backend = "" /\ Url.Host novu_backend <> ""
  /\ call_identifier (CallDeleteWorkflow "ctx" "a%20b" : Demo.Call) = Some "a%20b"
  /\ plain_segment "a%20b" = true
  /\ Url.unescape "a%20b" Url.encodePath = Some "a b"
  /\ exists rq r w' path,
       perform "" Demo.up 1%positive (CallDeleteWorkflow "ctx" "a%20b")
         (Demo.world novu_backend)
       = Some (r, w')
       /\ calls w' = calls (Demo.world novu_backend) ++ [rq]
       /\ path = (if path_text "a%20b"
                  then base_prefix novu_backend +:+ "workflows/" +:+ "a%20b"
                  else Url.escape (base_dir novu_backend) Url.encodePath +:+ "workflows/"
                       +:+ Url.escape "a b" Url.encodePath)
       /\ req_url rq
          = ((Url.String_authority novu_backend +:+ path_slash path +:+ path)
             +:+ Url.String_query novu_backend) +:+ Url.String_fragment novu_backend
       /\ Url.unescape path Url.encodePath
          = Some (base_dir novu_backend +:+ "workflows/" +:+ "a b").
Proof.
  assert (Url.Host novu_backend <> "") as Hh by discriminate.
  split; [reflexivity |]. split; [reflexivity |]. split; [exact Hh |].
  split; [reflexivity |]. split; [reflexivity |]. split; [reflexivity |].
  apply (escaped_identifier_path "" Demo.up (Demo.world novu_backend) 1%positive novu_backend
           (CallDeleteWorkflow "ctx" "a%20b") "a%20b" "a b");
    [reflexivity | reflexivity | exact Hh | reflexivity | reflexivity | reflexivity].
Defined.

(** [DeleteWorkflow] of [50%]. *)
Lemma malformed_identifier_goes_to_base_witness :
  configured (Demo.world novu_backend) 1%positive = Some novu_backend
  /\ call_identifier (CallDeleteWorkflow "ctx" "50%" : Demo.Call) = Some "50%"
  /\ plain_segment "50%" = true
  /\ Url.unescape "50%" Url.encodePath = None
  /\ exists rq r w',
       perform "" Demo.up 1%positive (CallDeleteWorkflow "ctx" "50%")
         (Demo.world novu_backend)
       = Some (r, w')
       /\ calls w' = calls (Demo.world novu_backend) ++ [rq]
       /\ req_url rq = Url.URL_String novu_backend.
Proof.
  split; [reflexivity |]. split; [reflexivity |]. split; [reflexivity |].
  split; [reflexivity |].
  apply (malformed_identifier_goes_to_base "" Demo.up (Demo.world novu_backend) 1%positive
           novu_backend (CallDeleteWorkflow "ctx" "50%") "50%"); reflexivity.
Defined.

(** [DeleteWorkflow] of the empty identifier. *)
Lemma empty_identifier_addresses_collection_witness :
  configured (Demo.world novu_backend) 1%positive = Some novu_backend
  /\ call_identifier (CallDeleteWorkflow "ctx" "" : Demo.Call) = Some ""
  /\ exists rq r w' rq0 r0 w0,
       perform "" Demo.up 1%positive (CallDeleteWorkflow "ctx" "") (Demo.world novu_backend)
       = Some (r, w')
       /\ calls w' = calls (Demo.world novu_backend) ++ [rq]
       /\ perform "" Demo.up 1%positive (CallCreateWorkflow "ctx" (JString "w"))
            (Demo.world novu_backend)
          = Some (r0, w0)
       /\ calls w0 = calls (Demo.world novu_backend) ++ [rq0]
       /\ req_url rq = req_url rq0.
Proof.
  split; [reflexivity |]. split; [reflexivity |].
  apply (empty_identifier_addresses_collection "" Demo.up (Demo.world novu_backend)
           1%positive novu_backend (CallDeleteWorkflow "ctx" "") "" "ctx" (JString "w"));
    [reflexivity | reflexivity | now left].
Defined.

(** [GetTenant] of [..]. *)
Lemma dotdot_identifier_leaves_collection_witness :
  configured (Demo.world novu_backend) 1%positive = Some novu_backend
  /\ Url.Opaque novu_backend = "" /\ Url.Host novu_backend <> ""
  /\ (Strings.HasPrefix (Url.EscapedPath novu_backend) "/" = true
      \/ Url.EscapedPath novu_backend = "")
  /\ call_identifier (CallGetTenant "ctx" ".." : Demo.Call) = Some ".."
  /\ exists rq r w' path,
       perform "" Demo.up 1%positive (CallGetTenant "ctx" "..") (Demo.world novu_backend)
       = Some (r, w')
       /\ calls w' = calls (Demo.world novu_backend) ++ [rq]
       /\ path = (if String.eqb (Url.EscapedPath novu_backend) "" then ""
                  else Path.Clean (Url.EscapedPath novu_backend))
       /\ req_url rq
          = ((Url.String_authority novu_backend +:+ path) +:+ Url.String_query novu_backend)
            +:+ Url.String_fragment novu_backend.
Proof.
  assert (Url.Host novu_backend <> "") as Hh by discriminate.
  split; [reflexivity |]. split; [reflexivity |]. split; [exact Hh |].
  split; [left; reflexivity |]. split; [reflexivity |].
  apply (dotdot_identifier_leaves_collection "" Demo.up (Demo.world novu_backend)
           1%positive novu_backend (CallGetTenant "ctx" ".."));
    [reflexivity | reflexivity | exact Hh | left; reflexivity | reflexivity].
Defined.

(** [UpdateWorkflowStatus] of [team/wf_123]. *)
Lemma nested_identifier_path_witness :
  configured (Demo.world novu_backend) 1%positive = Some novu_backend
  /\ Url.Opaque novu_backend = "" /\ Url.Host novu_backend <> ""
  /\ call_identifier (CallUpdateWorkflowStatus "ctx" "team/wf_123" true : Demo.Call)
     = Some ("team" +:+ String "/" "wf_123")
  /\ plain_identifier "team" = true /\ plain_identifier "wf_123" = true
  /\ exists rq r w' path,
       perform "" Demo.up 1%positive (CallUpdateWorkflowStatus "ctx" "team/wf_123" true)
         (Demo.world novu_backend)
       = Some (r, w')
       /\ calls w' = calls (Demo.world novu_backend) ++ [rq]
       /\ path = (if path_text "team" && path_text "wf_123"
                  then base_prefix novu_backend +:+ "workflows/" +:+ "team"
                       +:+ String "/" "wf_123"
                  else Url.escape (base_dir novu_backend) Url.encodePath +:+ "workflows/"
                       +:+ Url.escape "team" Url.encodePath
                       +:+ String "/" (Url.escape "wf_123" Url.encodePath))
       /\ req_url rq
          = ((Url.String_authority novu_backend +:+ path_slash path +:+ path)
             +:+ Url.String_query novu_backend) +:+ Url.String_fragment novu_backend
       /\ Url.unescape path Url.encodePath
          = Some (base_dir novu_backend +:+ "workflows/" +:+ "team" +:+ String "/" "wf_123").
Proof.
  assert (Url.Host novu_backend <> "") as Hh by discriminate.
  split; [reflexivity |]. split; [reflexivity |]. split; [exact Hh |].
  split; [reflexivity |]. split; [reflexivity |]. split; [reflexivity |].
  apply (nested_identifier_path "" Demo.up (Demo.world novu_backend) 1%positive novu_backend
           (CallUpdateWorkflowStatus "ctx" "team/wf_123" true) "team" "wf_123");
    [reflexivity | reflexivity | exact Hh | reflexivity | reflexivity | reflexivity].
Defined.

(** [GetWorkflows] when the configured URL carries [tenant=acme]. *)
Lemma GetWorkflows_keeps_base_parameters_witness :
  configured (Demo.world Demo.backend_with_query) 1%positive = Some Demo.backend_with_query
  /\ exists rq r w' q,
       perform "" Demo.up 1%positive (CallGetWorkflows "ctx" 2 25)
         (Demo.world Demo.backend_with_query)
       = Some (r, w')
       /\ calls w' = calls (Demo.world Demo.backend_with_query) ++ [rq]
       /\ req_url rq
          = (Url.String_head (Url.JoinPath Demo.backend_with_query ["workflows"])
             +:+ "?" +:+ q)
            +:+ Url.String_fragment Demo.backend_with_query
       /\ Url.ParseQuery q
          = (<["limit" := [Strconv.Itoa 25]]>
               (<["page" := [Strconv.Itoa 2]]> (Url.Query Demo.backend_with_query)), false).
Proof.
  split; [reflexivity |].
  apply (GetWorkflows_keeps_base_parameters "" Demo.up (Demo.world Demo.backend_with_query)
           1%positive Demo.backend_with_query "ctx" 2 25).
  reflexivity.
Defined.

(** [GetWorkflows(ctx, -3, 0)]. *)
Lemma GetWorkflows_signed_numbers_witness :
  configured (Demo.world novu_backend) 1%positive = Some novu_backend
  /\ Url.Query novu_backend = ∅
  /\ Strconv.is_int (-3) /\ Strconv.is_int 0
  /\ exists rq r w' dp dl,
       perform "" Demo.up 1%positive (CallGetWorkflows "ctx" (-3) 0) (Demo.world novu_backend)
       = Some (r, w')
       /\ calls w' = calls (Demo.world novu_backend) ++ [rq]
       /\ req_url rq
          = (Url.String_head (Url.JoinPath novu_backend ["workflows"]) +:+ "?"
             +:+ "limit=" +:+ Strconv.Itoa 0 +:+ "&page=" +:+ Strconv.Itoa (-3))
            +:+ Url.String_fragment novu_backend
       /\ Strconv.Itoa (-3) = (if -3 <? 0 then String "-" dp else dp)
       /\ decimal_numeral dp (Z.abs (-3))
       /\ Strconv.Itoa 0 = (if 0 <? 0 then String "-" dl else dl)
       /\ decimal_numeral dl (Z.abs 0).
Proof.
  assert (Strconv.is_int (-3) /\ Strconv.is_int 0) as [H3 H0]
    by (unfold Strconv.is_int; lia).
  split; [reflexivity |]. split; [reflexivity |]. split; [exact H3 |]. split; [exact H0 |].
  apply (GetWorkflows_signed_numbers "" Demo.up (Demo.world novu_backend) 1%positive
           novu_backend "ctx" (-3) 0); [reflexivity | reflexivity | exact H3 | exact H0].
Defined.


(** [UpdateWorkflow] with a nil record: a PUT with a body. *)
Lemma body_only_on_POST_and_PUT_witness :
  configured (Demo.world novu_backend) 1%positive = Some novu_backend
  /\ exists rq r w',
       perform "" Demo.up 1%positive (CallUpdateWorkflow "ctx" "wf_123" None)
         (Demo.world novu_backend)
       = Some (r, w')
       /\ calls w' = calls (Demo.world novu_backend) ++ [rq]
       /\ (req_payload rq = NoBody <-> req_method rq = "GET" \/ req_method rq = "DELETE")
       /\ (req_payload rq <> NoBody <-> req_method rq = "POST" \/ req_method rq = "PUT").
Proof.
  split; [reflexivity |].
  apply (body_only_on_POST_and_PUT "" Demo.up (Demo.world novu_backend) 1%positive
           novu_backend (CallUpdateWorkflow "ctx" "wf_123" None)).
  reflexivity.
Defined.
